(** * Gofig hamper builder: the budget-fill engine and the replacement engine

    A shallow embedding of [create_hamper], [get_replacement_suggestions]
    and [is_within_expiry] of [main.py], with the properties of the
    specification stated over it.

    Modelling conventions.
    - Python floats (prices, totals, [budget * 0.99], [budget * 1.02]) are
      IEEE 754 binary64 numbers. The engine is embedded twice. In the first
      embedding they are exact rationals [Q] and rounding is not modelled:
      it carries the properties that follow the code's own comparisons or
      concern the shape of the hamper, which hold whatever a comparison
      returns. [Module Double] is the engine again on the primitive binary64
      floats of the kernel, rounded as Python rounds: it carries what
      depends on rounding.
    - Python ints (quantities, available units, day counts) are [Z].
    - Dates are day ordinals, so [(expiry_date.date() - today).days] is a
      subtraction; the clock [datetime.today()] is the explicit argument
      [today].
    - The module-level DataFrame [data] is the explicit argument [data], a
      list of rows in index order.
    - The dictionaries [temp_used] and [used_items] are finite maps keyed by
      [(category, name)]; hamper lists are lists of triples. *)

From Stdlib Require Import QArith Lqa ZArith List Permutation Sorted Floats.
From stdpp Require Import gmap strings list fin_maps.
Import ListNotations.

Local Open Scope Z_scope.

(** ** Data model *)

(** One row of the inventory DataFrame (the columns the engine reads). *)
Record InventoryRow := mkRow {
  Category : string;
  Item_Name : string;
  MRP : Q;
  Available_Units : Z;
  Expiry_Date : Z;
  Brand_Name : string;
  Inventory_Holding : string;
  Product_Status : string
}.

(** One entry of [items_pool]: an item at one quantity. *)
Record PoolItem := mkItem {
  category : string;
  name : string;
  mrp : Q;
  qty : Z;
  total_cost : Q;
  available_units : Z;
  cost_per_unit : Q
}.

Abbreviation Key := (string * string)%type (only parsing).
Abbreviation Line := (string * string * Z)%type (only parsing).

Definition item_key (item : PoolItem) : Key := (category item, name item).
Definition item_line (item : PoolItem) : Line := (category item, name item, qty item).
Definition line_key (l : Line) : Key := (l.1.1, l.1.2).

(** The three working variables of a fill: the hamper list, its running
    total and the dictionary of chosen quantities. *)
Record FillState := mkFill {
  st_hamper : list Line;
  st_total : Q;
  st_used : gmap Key Z
}.

Definition empty_fill : FillState := mkFill [] 0%Q ∅.

Inductive Strategy := cost_ascending | efficiency | cost_descending.

(** ** Helpers: comparisons, ranges, stable sorts *)

Definition Qlt_bool (a b : Q) : bool := negb (Qle_bool b a).

(** [cat == c and name == n] *)
Definition same_key (c n cat nm : string) : bool := String.eqb c cat && String.eqb n nm.

(** [Series.isin(selected)] *)
Definition isin (x : string) (selected : list string) : bool := existsb (String.eqb x) selected.

(** Python's [range(lo, hi)]. *)
Definition range (lo hi : Z) : list Z :=
  map (fun i => lo + Z.of_nat i) (seq 0 (Z.to_nat (hi - lo))).

Section StableSort.
Context {A : Type}.
Variable le : A -> A -> bool.

Fixpoint insert_sorted (x : A) (l : list A) : list A :=
  match l with
  | [] => [x]
  | y :: l' => if le x y then x :: y :: l' else y :: insert_sorted x l'
  end.

(** Stable: an element is placed before the first element it is [le] to,
    so it stays ahead of the equal elements that followed it. *)
Definition stable_sort (l : list A) : list A := foldr insert_sorted [] l.
End StableSort.

(** [sorted(l, key=key)] and [sorted(l, key=key, reverse=True)]; both keep
    the original relative order of elements with equal keys. *)
Definition sorted_by {A} (key : A -> Q) (l : list A) : list A :=
  stable_sort (fun x y => Qle_bool (key x) (key y)) l.
Definition sorted_by_reverse {A} (key : A -> Q) (l : list A) : list A :=
  stable_sort (fun x y => Qle_bool (key y) (key x)) l.

(** ** Expiry window *)

Definition is_within_expiry (today expiry_date min_days max_days : Z) : bool :=
  let days_until_expiry := expiry_date - today in
  (min_days <=? days_until_expiry) && (days_until_expiry <=? max_days).

(** ** Candidate generator *)

Definition row_key (r : InventoryRow) : Key := (Category r, Item_Name r).

Definition key_eqb (k1 k2 : Key) : bool := same_key k1.1 k1.2 k2.1 k2.2.

(** [drop_duplicates(subset=['Item Name', 'Category'])], keeping the first
    row of each key. *)
Fixpoint drop_duplicates_from (seen : list Key) (rows : list InventoryRow) : list InventoryRow :=
  match rows with
  | [] => []
  | r :: rest =>
      if existsb (key_eqb (row_key r)) seen then drop_duplicates_from seen rest
      else r :: drop_duplicates_from (row_key r :: seen) rest
  end.

Definition drop_duplicates (rows : list InventoryRow) : list InventoryRow :=
  drop_duplicates_from [] rows.

Definition row_entries (row : InventoryRow) : list PoolItem :=
  let max_available := Z.min (Available_Units row) 20 in
  let mrp := MRP row in
  map (fun qty => mkItem (Category row) (Item_Name row) mrp qty
                         (mrp * inject_Z qty)%Q max_available mrp)
      (range 1 (max_available + 1)).

Definition build_pool (unique_items : list InventoryRow) : list PoolItem :=
  flat_map row_entries unique_items.

(** ** Phase 1: the three greedy strategies *)

Definition budget_limit (strategy_name : Strategy) (budget : Q) : Q :=
  match strategy_name with
  | cost_descending => (budget * (102 # 100))%Q
  | _ => budget
  end.

(** The removal loop of an accepted entry: drop the first line of that key
    and take its cost, at the entry's price, off the total. *)
Fixpoint pop_line (cat nm : string) (price : Q) (temp_hamper : list Line) (temp_total : Q)
  : list Line * Q :=
  match temp_hamper with
  | [] => ([], temp_total)
  | (c, n, old_qty) :: rest =>
      if same_key c n cat nm then (rest, (temp_total - price * inject_Z old_qty)%Q)
      else let r := pop_line cat nm price rest temp_total in ((c, n, old_qty) :: r.1, r.2)
  end.

(** [item_key in temp_used and temp_used[item_key] >= item['qty']] *)
Definition skip_item (temp_used : gmap Key Z) (item : PoolItem) : bool :=
  match temp_used !! item_key item with
  | Some q => qty item <=? q
  | None => false
  end.

Definition accept_item (st : FillState) (item : PoolItem) : FillState :=
  let r := match st_used st !! item_key item with
           | Some _ => pop_line (category item) (name item) (mrp item) (st_hamper st) (st_total st)
           | None => (st_hamper st, st_total st)
           end in
  mkFill (r.1 ++ [item_line item]) (r.2 + total_cost item)%Q
         (<[item_key item := qty item]> (st_used st)).

Definition strategy_step (strategy_name : Strategy) (budget : Q)
    (st : FillState) (item : PoolItem) : FillState :=
  if skip_item (st_used st) item then st
  else
    let potential_cost := (st_total st + total_cost item)%Q in
    if Qle_bool potential_cost (budget_limit strategy_name budget)
    then accept_item st item
    else st.

Definition run_strategy (strategy_name : Strategy) (budget : Q) (sorted_items : list PoolItem)
  : FillState :=
  fold_left (strategy_step strategy_name budget) sorted_items empty_fill.

Definition strategies (items_pool : list PoolItem) : list (Strategy * list PoolItem) :=
  [ (cost_ascending, sorted_by total_cost items_pool);
    (efficiency, sorted_by cost_per_unit items_pool);
    (cost_descending, sorted_by_reverse total_cost items_pool) ].

(** [if temp_total > best_total and temp_total <= budget] *)
Definition keep_best (budget : Q) (best temp : FillState) : FillState :=
  if Qlt_bool (st_total best) (st_total temp) && Qle_bool (st_total temp) budget
  then temp else best.

Definition strategy_results (budget : Q) (items_pool : list PoolItem) : list FillState :=
  map (fun s => run_strategy s.1 budget s.2) (strategies items_pool).

Definition best_of_strategies (budget : Q) (items_pool : list PoolItem) : FillState :=
  fold_left (keep_best budget) (strategy_results budget items_pool) empty_fill.

(** ** Phase 2: refinement loop *)

(** [df_filtered[(Category == cat) & (Item Name == name)]] *)
Definition item_match (df_filtered : list InventoryRow) (cat nm : string) : list InventoryRow :=
  List.filter (fun r => same_key (Category r) (Item_Name r) cat nm) df_filtered.

(** The inner [for i, (h_cat, h_name, h_qty) in enumerate(hamper)] loop:
    overwrite the first line of that key; [None] when there is none. *)
Fixpoint replace_line (cat nm : string) (new_qty : Z) (hamper : list Line) : option (list Line) :=
  match hamper with
  | [] => None
  | (h_cat, h_name, h_qty) :: rest =>
      if same_key h_cat h_name cat nm then Some ((cat, nm, new_qty) :: rest)
      else option_map (cons (h_cat, h_name, h_qty)) (replace_line cat nm new_qty rest)
  end.

Definition set_quantity (st : FillState) (cat nm : string) (new_qty : Z) (cost_increase : Q)
  : option FillState :=
  option_map (fun h => mkFill h (st_total st + cost_increase)%Q
                              (<[(cat, nm) := new_qty]> (st_used st)))
             (replace_line cat nm new_qty (st_hamper st)).

Fixpoint try_quantities (st : FillState) (cat nm : string) (current_qty : Z) (price remaining : Q)
    (new_qtys : list Z) : option FillState :=
  match new_qtys with
  | [] => None
  | new_qty :: rest =>
      let cost_increase := (price * inject_Z (new_qty - current_qty))%Q in
      if Qle_bool cost_increase remaining then
        match set_quantity st cat nm new_qty cost_increase with
        | Some st' => Some st'
        | None => try_quantities st cat nm current_qty price remaining rest
        end
      else try_quantities st cat nm current_qty price remaining rest
  end.

(** Strategy 1 of the loop body, over the copy [hamper[:]]. *)
Fixpoint increase_quantity (df_filtered : list InventoryRow) (remaining : Q) (st : FillState)
    (snapshot : list Line) : option FillState :=
  match snapshot with
  | [] => None
  | (cat, nm, current_qty) :: rest =>
      match item_match df_filtered cat nm with
      | row :: _ =>
          let max_available := Z.min (Available_Units row) 20 in
          match try_quantities st cat nm current_qty (MRP row) remaining
                               (range (current_qty + 1) (max_available + 1)) with
          | Some st' => Some st'
          | None => increase_quantity df_filtered remaining st rest
          end
      | [] => increase_quantity df_filtered remaining st rest
      end
  end.

Definition append_item (st : FillState) (item : PoolItem) : FillState :=
  mkFill (st_hamper st ++ [item_line item]) (st_total st + total_cost item)%Q
         (<[item_key item := qty item]> (st_used st)).

Definition not_used (used_items : gmap Key Z) (item : PoolItem) : bool :=
  match used_items !! item_key item with Some _ => false | None => true end.

(** Strategy 2 of the loop body. *)
Definition add_new_item (items_pool : list PoolItem) (remaining : Q) (st : FillState)
  : option FillState :=
  let available_items :=
    List.filter (fun item => not_used (st_used st) item && Qle_bool (total_cost item) remaining)
                items_pool in
  let available_items := sorted_by_reverse total_cost available_items in
  option_map (append_item st)
             (List.find (fun item => Qle_bool (total_cost item) remaining) available_items).

Definition max_iterations : nat := 100.

(** The [while total_cost < target_budget and iteration < max_iterations]
    loop; the first argument is [max_iterations - iteration]. *)
Fixpoint refine (iterations_left : nat) (budget target_budget : Q)
    (df_filtered : list InventoryRow) (items_pool : list PoolItem) (st : FillState) : FillState :=
  match iterations_left with
  | O => st
  | S n =>
      if Qlt_bool (st_total st) target_budget then
        let remaining_budget := (budget - st_total st)%Q in
        match increase_quantity df_filtered remaining_budget st (st_hamper st) with
        | Some st' => refine n budget target_budget df_filtered items_pool st'
        | None =>
            match add_new_item items_pool remaining_budget st with
            | Some st' => refine n budget target_budget df_filtered items_pool st'
            | None => st
            end
        end
      else st
  end.

(** ** Phase 3: final fill *)

(** Membership test of [small_items]. *)
Definition small_item (final_budget : Q) (used_items : gmap Key Z) (item : PoolItem) : bool :=
  Qle_bool (total_cost item) final_budget &&
  match used_items !! item_key item with
  | None => true
  | Some q =>
      (q <? qty item) &&
      Qle_bool (mrp item * inject_Z (qty item - q))%Q final_budget
  end.

Definition final_step (budget : Q) (st : FillState) (item : PoolItem) : FillState :=
  match st_used st !! item_key item with
  | None =>
      if Qle_bool (st_total st + total_cost item)%Q budget then append_item st item else st
  | Some current_qty =>
      if current_qty <? qty item then
        let cost_increase := (mrp item * inject_Z (qty item - current_qty))%Q in
        if Qle_bool (st_total st + cost_increase)%Q budget then
          match set_quantity st (category item) (name item) (qty item) cost_increase with
          | Some st' => st'
          | None => st
          end
        else st
      else st
  end.

Definition small_items (final_budget : Q) (items_pool : list PoolItem) (used_items : gmap Key Z)
  : list PoolItem :=
  sorted_by_reverse total_cost (List.filter (small_item final_budget used_items) items_pool).

Definition final_fill (budget : Q) (items_pool : list PoolItem) (st : FillState) : FillState :=
  let final_budget := (budget - st_total st)%Q in
  if Qlt_bool 0 final_budget then
    fold_left (final_step budget) (small_items final_budget items_pool (st_used st)) st
  else st.

(** ** [create_hamper] *)

Definition row_selected (today : Z) (selected_categories selected_inventory selected_status
    selected_brands : list string) (min_days max_days : Z) (r : InventoryRow) : bool :=
  isin (Category r) selected_categories &&
  isin (Inventory_Holding r) selected_inventory &&
  isin (Product_Status r) selected_status &&
  isin (Brand_Name r) selected_brands &&
  is_within_expiry today (Expiry_Date r) min_days max_days.

(** Everything after the [df_filtered.empty] test. *)
Definition fill_from (df_filtered : list InventoryRow) (budget : Q) : FillState :=
  let target_budget := (budget * (99 # 100))%Q in
  let unique_items := drop_duplicates df_filtered in
  let items_pool := build_pool unique_items in
  let best := best_of_strategies budget items_pool in
  let refined := refine max_iterations budget target_budget df_filtered items_pool best in
  final_fill budget items_pool refined.

(** The boolean-mask selection that builds [df_filtered]. *)
Definition filtered_view (data : list InventoryRow) (today : Z)
    (selected_categories selected_inventory selected_status selected_brands : list string)
    (min_days max_days : Z) : list InventoryRow :=
  List.filter (row_selected today selected_categories selected_inventory selected_status
                            selected_brands min_days max_days) data.

Definition create_hamper (data : list InventoryRow) (today : Z) (budget : Q)
    (selected_categories selected_inventory selected_status selected_brands : list string)
    (min_days max_days : Z) (box_type : string) : list Line * Q :=
  let df_filtered :=
    filtered_view data today selected_categories selected_inventory selected_status
                  selected_brands min_days max_days in
  match df_filtered with
  | [] => ([], 0%Q)
  | _ => let st := fill_from df_filtered budget in (st_hamper st, st_total st)
  end.

(** ** Replacement engine *)

Module Suggestion.
Record t := mk {
  name : string;
  mrp : Q;
  available : Z;
  expiry : string;
  brand : string
}.
End Suggestion.

Definition replacement_row (today : Z) (category current_item : string)
    (selected_inventory selected_status selected_brands : list string)
    (min_days max_days : Z) (r : InventoryRow) : bool :=
  String.eqb (Category r) category &&
  negb (String.eqb (Item_Name r) current_item) &&
  isin (Inventory_Holding r) selected_inventory &&
  isin (Product_Status r) selected_status &&
  isin (Brand_Name r) selected_brands &&
  is_within_expiry today (Expiry_Date r) min_days max_days.

(** [sort_values('MRP')] uses pandas' default sort kind, which promises an
    ascending order but no particular order among equal prices; the date
    formatter [strftime("%d-%b-%Y")] is a rendering of the day ordinal.
    Both are parameters of the engine. *)
Section ReplacementEngine.
Variable sort_values : list InventoryRow -> list InventoryRow.
Variable strftime : Z -> string.

Definition suggestion_of (row : InventoryRow) : Suggestion.t :=
  Suggestion.mk (Item_Name row) (MRP row) (Available_Units row)
                (strftime (Expiry_Date row)) (Brand_Name row).

Definition get_replacement_suggestions (data : list InventoryRow) (today : Z)
    (category current_item : string)
    (selected_inventory selected_status selected_brands : list string)
    (min_days max_days : Z) : list Suggestion.t :=
  let df_filtered :=
    List.filter (replacement_row today category current_item selected_inventory
                                 selected_status selected_brands min_days max_days) data in
  let df_filtered := firstn 7 (sort_values df_filtered) in
  map suggestion_of df_filtered.
End ReplacementEngine.

(** ** Box-type presets *)

(** The three [st.session_state] entries that [apply_box_type_defaults]
    reads and writes; an entry that was never set is [None]. *)
Module Session.
Record t := mk {
  box_applied : option string;
  min_days : option Z;
  max_days : option Z
}.
End Session.

Definition apply_box_type_defaults (box_type : string) (session_state : Session.t)
  : Session.t :=
  if match Session.box_applied session_state with
     | Some applied => String.eqb applied box_type
     | None => false
     end
  then session_state
  else if String.eqb box_type "Steal Deal" then Session.mk (Some box_type) (Some 15) (Some 60)
  else if String.eqb box_type "Green Box" then Session.mk (Some box_type) (Some 40) (Some 120)
  else if String.eqb box_type "Gift Box" then Session.mk (Some box_type) (Some 45) (Some 730)
  else Session.mk (Some box_type) (Session.min_days session_state)
                  (Session.max_days session_state).

(** ** The raw frame and the item lookup of the display *)

(** One row of [data_raw] after the coercions of [load_data]: a cell that
    failed to parse or was empty is [None]; brand, SKU, category and shipping
    weight have been filled with their defaults. *)
Record RawRow := mkRaw {
  raw_Item_Name : option string;
  raw_Category : string;
  raw_MRP : option Q;
  raw_Available_Units : option Z;
  raw_Expiry_Date : option Z;
  raw_Brand_Name : string;
  raw_Inventory_Holding : option string;
  raw_Product_Status : option string;
  raw_SKU : string;
  raw_Shipping_Weight : Q
}.

(** The row as the engine reads it, when the six required cells are there. *)
Definition to_inventory (r : RawRow) : option InventoryRow :=
  match raw_Item_Name r, raw_MRP r, raw_Available_Units r, raw_Expiry_Date r,
        raw_Inventory_Holding r, raw_Product_Status r with
  | Some nm, Some price, Some units, Some expiry, Some holding, Some status =>
      Some (mkRow (raw_Category r) nm price units expiry (raw_Brand_Name r) holding status)
  | _, _, _, _, _, _ => None
  end.

(** [df_raw.dropna(subset=[...])], the frame [data]. *)
Definition dropna_required (df_raw : list RawRow) : list RawRow :=
  List.filter (fun r => match to_inventory r with Some _ => true | None => false end) df_raw.

(** The rows of [data] as the fill engine and the replacement engine read
    them. *)
Definition inventory_view (data : list RawRow) : list InventoryRow :=
  omap to_inventory data.

(** [frame["Item Name"] == name] *)
Definition name_is (nm : string) (r : RawRow) : bool :=
  match raw_Item_Name r with
  | Some x => String.eqb x nm
  | None => false
  end.

(** The lookup of a hamper line: the rows of [data] of that name, narrowed
    to the category unless it is "Misc", and the rows of [data_raw] of that
    name when nothing is left. *)
Definition find_item (data data_raw : list RawRow) (cat nm : string) : list RawRow :=
  let item_df := List.filter (name_is nm) data in
  let item_df :=
    match item_df with
    | [] => item_df
    | _ :: _ =>
        if String.eqb cat "Misc" then item_df
        else List.filter (fun r => String.eqb (raw_Category r) cat) item_df
    end in
  match item_df with
  | [] => List.filter (name_is nm) data_raw
  | _ :: _ => item_df
  end.

(** [float(item["MRP"]) if pd.notnull(item["MRP"]) else 0] *)
Definition price_of (item : RawRow) : Q :=
  match raw_MRP item with Some price => price | None => 0%Q end.

(** [int(item["Available Units"]) if pd.notnull(...) else 1] *)
Definition available_of (item : RawRow) : Z :=
  match raw_Available_Units item with Some units => units | None => 1 end.

(** The initial value of a line's quantity input; [None] is the "not found
    in database" error. *)
Definition safe_qty (data data_raw : list RawRow) (line : Line) : option Z :=
  match find_item data data_raw line.1.1 line.1.2 with
  | [] => None
  | item :: _ => Some (Z.min line.2 (available_of item))
  end.

(** ** Deleting lines *)

(** [del l[idx]]; [None] is the IndexError. *)
Definition del_at {A} (idx : nat) (l : list A) : option (list A) :=
  if (idx <? length l)%nat then Some (delete idx l) else None.

(** The body of the deletion loop, on the hamper list and on the
    dictionary of pending replacements; [None] once a deletion has failed. *)
Definition remove_step (state : option (list Line * gmap nat Key)) (idx : nat)
  : option (list Line * gmap nat Key) :=
  match state with
  | Some (items, pending) =>
      match del_at idx items with
      | Some items' => Some (items', delete idx pending)
      | None => None
      end
  | None => None
  end.

(** The deletion loop over [sorted(to_remove, reverse=True)]. *)
Definition remove_items (to_remove : list nat) (all_hamper_items : list Line)
    (replacements : gmap nat Key) : option (list Line * gmap nat Key) :=
  fold_left remove_step
            (sorted_by_reverse (fun idx => inject_Z (Z.of_nat idx)) to_remove)
            (Some (all_hamper_items, replacements)).

(** ** Export *)

Module ExportRow.
Record t := mk {
  Item_Name : string;
  SKU : string;
  Expiry_Date : string;
  Quantity : Z;
  MRP : option Q;
  Available_Qty : option Z;
  Shipping_Weight : Q;
  Total_Amt : Q;
  Total_Weight : Q;
  CO2e_Unit : string;
  Total_CO2e : string
}.
End ExportRow.

Section ExportRows.
Variable strftime : Z -> string.
(** [Series.sum] of pandas; its order of summation is pandas' own. *)
Variable series_sum : list Q -> Q.

Definition export_row (nm : string) (qty : Z) (r : RawRow) : ExportRow.t :=
  ExportRow.mk nm (raw_SKU r)
            (match raw_Expiry_Date r with Some d => strftime d | None => "Missing"%string end)
            qty (raw_MRP r) (raw_Available_Units r) (raw_Shipping_Weight r)
            (price_of r * inject_Z qty)%Q (inject_Z qty * raw_Shipping_Weight r)%Q
            "Missing" "Missing".

(** The rows of [df_export]; a line that is not found is left out. *)
Definition export_rows (data data_raw : list RawRow) (final_items : list Line)
  : list ExportRow.t :=
  flat_map
    (fun line =>
       match find_item data data_raw line.1.1 line.1.2 with
       | [] => []
       | r :: _ => [export_row line.1.2 line.2 r]
       end)
    final_items.

(** The two sums of the TOTAL row; [None] is the KeyError of an export with
    no row, whose frame has no "Total Amt" column. *)
Definition export_totals (data data_raw : list RawRow) (final_items : list Line)
  : option (Q * Q) :=
  match export_rows data data_raw final_items with
  | [] => None
  | df_final =>
      Some (series_sum (map ExportRow.Total_Amt df_final),
            series_sum (map ExportRow.Total_Weight df_final))
  end.
End ExportRows.

(** * The fill engine in binary64 arithmetic *)

(** [main.py] computes prices and totals in Python floats: IEEE 754 binary64,
    each sum, difference and product rounded to nearest, ties to even.
    [Module Double] is [create_hamper] once more with that arithmetic, on
    the primitive floats of the kernel, which are the same binary64 numbers
    and operations; a decimal literal denotes the nearest binary64 number,
    as it does in Python. The inventory rows carry the price as the float
    that [load_data] produced; it is never NaN, the rows whose price did not
    parse being dropped there, so that [<=?] orders the keys of a sort as
    Python's [<] does. Everything that involves no price is shared with the
    embedding above, and each definition follows the one of the same name
    there. *)

#[local] Set Warnings "-inexact-float".

Module Double.

Record InventoryRow := mkRow {
  Category : string;
  Item_Name : string;
  MRP : float;
  Available_Units : Z;
  Expiry_Date : Z;
  Brand_Name : string;
  Inventory_Holding : string;
  Product_Status : string
}.

Record PoolItem := mkItem {
  category : string;
  name : string;
  mrp : float;
  qty : Z;
  total_cost : float;
  available_units : Z;
  cost_per_unit : float
}.

Definition item_key (item : PoolItem) : Key := (category item, name item).
Definition item_line (item : PoolItem) : Line := (category item, name item, qty item).

Record FillState := mkFill {
  st_hamper : list Line;
  st_total : float;
  st_used : gmap Key Z
}.

Definition empty_fill : FillState := mkFill [] 0%float ∅.

(** The float of a Python int, as in [mrp * qty]; exact for the quantities
    of the engine. *)
Definition of_int (n : Z) : float :=
  if n <? 0 then (- PrimFloat.of_uint63 (Uint63.of_Z (- n)))%float
  else PrimFloat.of_uint63 (Uint63.of_Z n).

(** [sorted(l, key=key)] and [sorted(l, key=key, reverse=True)] on float
    keys. *)
Definition sorted_by {A} (key : A -> float) (l : list A) : list A :=
  stable_sort (fun x y => (key x <=? key y)%float) l.
Definition sorted_by_reverse {A} (key : A -> float) (l : list A) : list A :=
  stable_sort (fun x y => (key y <=? key x)%float) l.

(** ** Candidate generator *)

Definition row_key (r : InventoryRow) : Key := (Category r, Item_Name r).

Fixpoint drop_duplicates_from (seen : list Key) (rows : list InventoryRow) : list InventoryRow :=
  match rows with
  | [] => []
  | r :: rest =>
      if existsb (key_eqb (row_key r)) seen then drop_duplicates_from seen rest
      else r :: drop_duplicates_from (row_key r :: seen) rest
  end.

Definition drop_duplicates (rows : list InventoryRow) : list InventoryRow :=
  drop_duplicates_from [] rows.

Definition row_entries (row : InventoryRow) : list PoolItem :=
  let max_available := Z.min (Available_Units row) 20 in
  let mrp := MRP row in
  map (fun qty => mkItem (Category row) (Item_Name row) mrp qty
                         (mrp * of_int qty)%float max_available mrp)
      (range 1 (max_available + 1)).

Definition build_pool (unique_items : list InventoryRow) : list PoolItem :=
  flat_map row_entries unique_items.

(** ** Phase 1: the three greedy strategies *)

Definition budget_limit (strategy_name : Strategy) (budget : float) : float :=
  match strategy_name with
  | cost_descending => (budget * 1.02)%float
  | _ => budget
  end.

(** [old_cost = item['mrp'] * old_qty; temp_total -= old_cost] on the first
    line of the key. *)
Fixpoint pop_line (cat nm : string) (price : float) (temp_hamper : list Line) (temp_total : float)
  : list Line * float :=
  match temp_hamper with
  | [] => ([], temp_total)
  | (c, n, old_qty) :: rest =>
      if same_key c n cat nm then (rest, (temp_total - price * of_int old_qty)%float)
      else let r := pop_line cat nm price rest temp_total in ((c, n, old_qty) :: r.1, r.2)
  end.

Definition skip_item (temp_used : gmap Key Z) (item : PoolItem) : bool :=
  match temp_used !! item_key item with
  | Some q => qty item <=? q
  | None => false
  end.

Definition accept_item (st : FillState) (item : PoolItem) : FillState :=
  let r := match st_used st !! item_key item with
           | Some _ => pop_line (category item) (name item) (mrp item) (st_hamper st) (st_total st)
           | None => (st_hamper st, st_total st)
           end in
  mkFill (r.1 ++ [item_line item]) (r.2 + total_cost item)%float
         (<[item_key item := qty item]> (st_used st)).

Definition strategy_step (strategy_name : Strategy) (budget : float)
    (st : FillState) (item : PoolItem) : FillState :=
  if skip_item (st_used st) item then st
  else
    let potential_cost := (st_total st + total_cost item)%float in
    if (potential_cost <=? budget_limit strategy_name budget)%float
    then accept_item st item
    else st.

Definition run_strategy (strategy_name : Strategy) (budget : float) (sorted_items : list PoolItem)
  : FillState :=
  fold_left (strategy_step strategy_name budget) sorted_items empty_fill.

Definition strategies (items_pool : list PoolItem) : list (Strategy * list PoolItem) :=
  [ (cost_ascending, sorted_by total_cost items_pool);
    (efficiency, sorted_by cost_per_unit items_pool);
    (cost_descending, sorted_by_reverse total_cost items_pool) ].

(** [if temp_total > best_total and temp_total <= budget] *)
Definition keep_best (budget : float) (best temp : FillState) : FillState :=
  if (st_total best <? st_total temp)%float && (st_total temp <=? budget)%float
  then temp else best.

Definition strategy_results (budget : float) (items_pool : list PoolItem) : list FillState :=
  map (fun s => run_strategy s.1 budget s.2) (strategies items_pool).

Definition best_of_strategies (budget : float) (items_pool : list PoolItem) : FillState :=
  fold_left (keep_best budget) (strategy_results budget items_pool) empty_fill.

(** ** Phase 2: refinement loop *)

Definition item_match (df_filtered : list InventoryRow) (cat nm : string) : list InventoryRow :=
  List.filter (fun r => same_key (Category r) (Item_Name r) cat nm) df_filtered.

Definition set_quantity (st : FillState) (cat nm : string) (new_qty : Z) (cost_increase : float)
  : option FillState :=
  option_map (fun h => mkFill h (st_total st + cost_increase)%float
                              (<[(cat, nm) := new_qty]> (st_used st)))
             (replace_line cat nm new_qty (st_hamper st)).

Fixpoint try_quantities (st : FillState) (cat nm : string) (current_qty : Z)
    (price remaining : float) (new_qtys : list Z) : option FillState :=
  match new_qtys with
  | [] => None
  | new_qty :: rest =>
      let cost_increase := (price * of_int (new_qty - current_qty))%float in
      if (cost_increase <=? remaining)%float then
        match set_quantity st cat nm new_qty cost_increase with
        | Some st' => Some st'
        | None => try_quantities st cat nm current_qty price remaining rest
        end
      else try_quantities st cat nm current_qty price remaining rest
  end.

Fixpoint increase_quantity (df_filtered : list InventoryRow) (remaining : float) (st : FillState)
    (snapshot : list Line) : option FillState :=
  match snapshot with
  | [] => None
  | (cat, nm, current_qty) :: rest =>
      match item_match df_filtered cat nm with
      | row :: _ =>
          let max_available := Z.min (Available_Units row) 20 in
          match try_quantities st cat nm current_qty (MRP row) remaining
                               (range (current_qty + 1) (max_available + 1)) with
          | Some st' => Some st'
          | None => increase_quantity df_filtered remaining st rest
          end
      | [] => increase_quantity df_filtered remaining st rest
      end
  end.

Definition append_item (st : FillState) (item : PoolItem) : FillState :=
  mkFill (st_hamper st ++ [item_line item]) (st_total st + total_cost item)%float
         (<[item_key item := qty item]> (st_used st)).

Definition not_used (used_items : gmap Key Z) (item : PoolItem) : bool :=
  match used_items !! item_key item with Some _ => false | None => true end.

Definition add_new_item (items_pool : list PoolItem) (remaining : float) (st : FillState)
  : option FillState :=
  let available_items :=
    List.filter (fun item => not_used (st_used st) item && (total_cost item <=? remaining)%float)
                items_pool in
  let available_items := sorted_by_reverse total_cost available_items in
  option_map (append_item st)
             (List.find (fun item => (total_cost item <=? remaining)%float) available_items).

(** The [while] loop: [remaining_budget = budget - total_cost] is rounded,
    each step is tested against it, and its cost is then added to
    [total_cost]. *)
Fixpoint refine (iterations_left : nat) (budget target_budget : float)
    (df_filtered : list InventoryRow) (items_pool : list PoolItem) (st : FillState) : FillState :=
  match iterations_left with
  | O => st
  | S n =>
      if (st_total st <? target_budget)%float then
        let remaining_budget := (budget - st_total st)%float in
        match increase_quantity df_filtered remaining_budget st (st_hamper st) with
        | Some st' => refine n budget target_budget df_filtered items_pool st'
        | None =>
            match add_new_item items_pool remaining_budget st with
            | Some st' => refine n budget target_budget df_filtered items_pool st'
            | None => st
            end
        end
      else st
  end.

(** ** Phase 3: final fill *)

Definition small_item (final_budget : float) (used_items : gmap Key Z) (item : PoolItem) : bool :=
  (total_cost item <=? final_budget)%float &&
  match used_items !! item_key item with
  | None => true
  | Some q =>
      (q <? qty item) &&
      (mrp item * of_int (qty item - q) <=? final_budget)%float
  end.

(** The final sweep tests [total_cost + cost <= budget], the sum that
    becomes the total. *)
Definition final_step (budget : float) (st : FillState) (item : PoolItem) : FillState :=
  match st_used st !! item_key item with
  | None =>
      if (st_total st + total_cost item <=? budget)%float then append_item st item else st
  | Some current_qty =>
      if current_qty <? qty item then
        let cost_increase := (mrp item * of_int (qty item - current_qty))%float in
        if (st_total st + cost_increase <=? budget)%float then
          match set_quantity st (category item) (name item) (qty item) cost_increase with
          | Some st' => st'
          | None => st
          end
        else st
      else st
  end.

Definition small_items (final_budget : float) (items_pool : list PoolItem)
    (used_items : gmap Key Z) : list PoolItem :=
  sorted_by_reverse total_cost (List.filter (small_item final_budget used_items) items_pool).

Definition final_fill (budget : float) (items_pool : list PoolItem) (st : FillState) : FillState :=
  let final_budget := (budget - st_total st)%float in
  if (0 <? final_budget)%float then
    fold_left (final_step budget) (small_items final_budget items_pool (st_used st)) st
  else st.

(** ** [create_hamper] *)

Definition row_selected (today : Z) (selected_categories selected_inventory selected_status
    selected_brands : list string) (min_days max_days : Z) (r : InventoryRow) : bool :=
  isin (Category r) selected_categories &&
  isin (Inventory_Holding r) selected_inventory &&
  isin (Product_Status r) selected_status &&
  isin (Brand_Name r) selected_brands &&
  is_within_expiry today (Expiry_Date r) min_days max_days.

Definition fill_from (df_filtered : list InventoryRow) (budget : float) : FillState :=
  let target_budget := (budget * 0.99)%float in
  let unique_items := drop_duplicates df_filtered in
  let items_pool := build_pool unique_items in
  let best := best_of_strategies budget items_pool in
  let refined := refine max_iterations budget target_budget df_filtered items_pool best in
  final_fill budget items_pool refined.

Definition filtered_view (data : list InventoryRow) (today : Z)
    (selected_categories selected_inventory selected_status selected_brands : list string)
    (min_days max_days : Z) : list InventoryRow :=
  List.filter (row_selected today selected_categories selected_inventory selected_status
                            selected_brands min_days max_days) data.

Definition create_hamper (data : list InventoryRow) (today : Z) (budget : float)
    (selected_categories selected_inventory selected_status selected_brands : list string)
    (min_days max_days : Z) (box_type : string) : list Line * float :=
  let df_filtered :=
    filtered_view data today selected_categories selected_inventory selected_status
                  selected_brands min_days max_days in
  match df_filtered with
  | [] => ([], 0%float)
  | _ => let st := fill_from df_filtered budget in (st_hamper st, st_total st)
  end.

(** ** Well-formed lines and states *)

(** As for the exact embedding: a line is well formed for a view when its
    quantity lies between 1 and the cap of the first row of its key, a pool
    entry when it carries that row's price, its product with the quantity
    and a quantity within the cap, and a state is consistent when its lines
    have distinct keys, its dictionary records their quantities and each
    line is well formed. *)
Definition line_ok (df : list InventoryRow) (l : Line) : Prop :=
  exists row, head (item_match df l.1.1 l.1.2) = Some row /\
              1 <= l.2 <= Z.min (Available_Units row) 20.

Definition item_ok (df : list InventoryRow) (item : PoolItem) : Prop :=
  exists row, head (item_match df (category item) (name item)) = Some row /\
              mrp item = MRP row /\
              total_cost item = (MRP row * of_int (qty item))%float /\
              1 <= qty item <= Z.min (Available_Units row) 20.

Record consistent (df : list InventoryRow) (st : FillState) : Prop := {
  cons_nodup : NoDup (map line_key (st_hamper st));
  cons_used : forall c n q, st_used st !! (c, n) = Some q <-> (c, n, q) ∈ st_hamper st;
  cons_lines : Forall (line_ok df) (st_hamper st)
}.

End Double.

(** * Specification vocabulary *)

(** Two elements are equivalent for a sort when each is [le] the other; a
    stable sort keeps the original order of equivalent elements. *)
Definition equivb {A} (le : A -> A -> bool) (x y : A) : bool := le x y && le y x.

(** A line is well formed for a view when its quantity lies between 1 and
    the cap of the first row of its key. *)
Definition line_ok (df : list InventoryRow) (l : Line) : Prop :=
  exists row, head (item_match df l.1.1 l.1.2) = Some row /\
              1 <= l.2 <= Z.min (Available_Units row) 20.

(** A pool entry is well formed for a view when it carries the price of the
    first row of its key, the product of price and quantity as line cost,
    and a quantity within that row's cap. *)
Definition item_ok (df : list InventoryRow) (item : PoolItem) : Prop :=
  exists row, head (item_match df (category item) (name item)) = Some row /\
              mrp item = MRP row /\
              total_cost item = (MRP row * inject_Z (qty item))%Q /\
              1 <= qty item <= Z.min (Available_Units row) 20.

(** Consistency of a fill state: the hamper has one line per key, the
    dictionary records exactly the quantities of the hamper's lines, and
    every line is within the cap of its item. *)
Record consistent (df : list InventoryRow) (st : FillState) : Prop := {
  cons_nodup : NoDup (map line_key (st_hamper st));
  cons_used : forall c n q, st_used st !! (c, n) = Some q <-> (c, n, q) ∈ st_hamper st;
  cons_lines : Forall (line_ok df) (st_hamper st)
}.

(** The cost of a hamper is re-resolved against the view: each line costs
    the price of the first row of its key times its quantity. *)
Definition line_cost (df : list InventoryRow) (l : Line) : Q :=
  match item_match df l.1.1 l.1.2 with
  | row :: _ => (MRP row * inject_Z l.2)%Q
  | [] => 0%Q
  end.

Definition hamper_cost (df : list InventoryRow) (h : list Line) : Q :=
  foldr (fun l acc => (line_cost df l + acc)%Q) 0%Q h.

(** The running total is the cost of the hamper's lines. *)
Definition costed (df : list InventoryRow) (st : FillState) : Prop :=
  (st_total st == hamper_cost df (st_hamper st))%Q.

(** A strategy state with no line is the initial state. *)
Definition fresh_if_empty (st : FillState) : Prop := st_hamper st = [] -> st = empty_fill.

(** The total a pass would reach if the entry replaced the line of its key:
    the old line's cost is removed first, then the entry's line cost is
    added. The specification words the acceptance test over this total. *)
Definition hypothetical_total (st : FillState) (item : PoolItem) : Q :=
  ((pop_line (category item) (name item) (mrp item) (st_hamper st) (st_total st)).2
   + total_cost item)%Q.

(** The test the code applies: the entry's quantity is above the quantity
    already chosen for its key, and the running total plus the entry's line
    cost, the old line's cost still included, is within the ceiling. *)
Definition fits (strategy_name : Strategy) (budget : Q) (st : FillState) (item : PoolItem) : Prop :=
  (forall q, st_used st !! item_key item = Some q -> q < qty item) /\
  (st_total st + total_cost item <= budget_limit strategy_name budget)%Q.

(** The state that reaches the final fill. *)
Definition before_final_fill (df_filtered : list InventoryRow) (budget : Q) : FillState :=
  let items_pool := build_pool (drop_duplicates df_filtered) in
  refine max_iterations budget (budget * (99 # 100))%Q df_filtered items_pool
         (best_of_strategies budget items_pool).

(** A pass over entries of the one key [(c, n)] holds no line or one line. *)
Definition single_state (c n : string) (a : option (Z * Q)) : FillState :=
  match a with
  | None => empty_fill
  | Some (q, t) => mkFill [(c, n, q)] t (<[(c, n) := q]> ∅)
  end.

(** The pool entry of key [(c, n)] at quantity [q]. *)
Definition entry (c n : string) (price : Q) (cap q : Z) : PoolItem :=
  mkItem c n price q (price * inject_Z q)%Q cap price.

(** The single row of the scenario "price 100, 5 units available", and its
    pool. *)
Definition scenario_row (c n b i s : string) (e : Z) : InventoryRow :=
  mkRow c n 100 5 e b i s.

Definition scenario_pool (c n : string) : list PoolItem :=
  map (entry c n 100 5) [1; 2; 3; 4; 5].

(** [strategy_step] on the quantity and total of the single line. *)
Definition single_step (price limit : Q) (a : option (Z * Q)) (q : Z) : option (Z * Q) :=
  match a with
  | None =>
      if Qle_bool (0 + price * inject_Z q) limit then Some (q, (0 + price * inject_Z q)%Q)
      else None
  | Some (q0, t) =>
      if q <=? q0 then a
      else if Qle_bool (t + price * inject_Z q) limit
           then Some (q, (t - price * inject_Z q0 + price * inject_Z q)%Q)
           else a
  end.

(** [grows st st']: every line of [st] is still in [st'], with at least the
    same quantity. *)
Definition grows (st st' : FillState) : Prop :=
  forall c n q, (c, n, q) ∈ st_hamper st -> exists q', q <= q' /\ (c, n, q') ∈ st_hamper st'.

(** The elements of [l] whose positions, counted from [i], are not in
    [positions]. *)
Fixpoint drop_positions {A} (positions : list nat) (i : nat) (l : list A) : list A :=
  match l with
  | [] => []
  | x :: l' =>
      if bool_decide (i ∈ positions) then drop_positions positions (S i) l'
      else x :: drop_positions positions (S i) l'
  end.


(** The box types of the sidebar. *)
Definition box_types : list string := ["Gift Box"; "Green Box"; "Steal Deal"]%string.

(** The number of units in a hamper. *)
Definition hamper_units (h : list Line) : Z := foldr (fun l acc => l.2 + acc) 0 h.

(** ** Example inventories *)

(** The one tag carried by every example row, as a filter selection. *)
Definition any_tag : list string := ["Any"%string].

(** One item at price 100 with 5 units, expiring in 30 days. *)
Definition one_item : list InventoryRow :=
  [ mkRow "Snacks" "Chips" 100 5 30 "Any" "Any" "Any" ].

(** One free item: price 0, one unit. *)
Definition free_item : list InventoryRow :=
  [ mkRow "Snacks" "Sample" 0 1 30 "Any" "Any" "Any" ].

(** Six items at price 1 with 20 units each. *)
Definition six_items : list InventoryRow :=
  map (fun nm => mkRow "Snacks" nm 1 20 30 "Any" "Any" "Any")
      ["Almonds"; "Biscuits"; "Cashews"; "Dates"; "Energy Bar"; "Figs"]%string.

(** Two snack items and a drink; the first snack is the one being replaced. *)
Definition three_items : list InventoryRow :=
  [ mkRow "Snacks" "Chips" 100 5 30 "Any" "Any" "Any";
    mkRow "Snacks" "Nuts" 80 3 40 "Any" "Any" "Any";
    mkRow "Drinks" "Juice" 60 8 20 "Any" "Any" "Any" ].


(** A raw frame of two rows: one complete, one without a price. *)
Definition raw_items : list RawRow :=
  [ mkRaw (Some "Chips"%string) "Snacks" (Some 100%Q) (Some 5) (Some 30) "Any"
          (Some "Any"%string) (Some "Any"%string) "SKU-1" 250;
    mkRaw (Some "Nuts"%string) "Snacks" None (Some 3) (Some 40) "Any"
          (Some "Any"%string) (Some "Any"%string) "SKU-2" 100 ].

(** Two items of one unit each, priced 4.43 and 96.09, in binary64. *)
Definition two_prices : list Double.InventoryRow :=
  [ Double.mkRow "Snacks" "Mints" 4.43 1 30 "Any" "Any" "Any";
    Double.mkRow "Snacks" "Cocoa" 96.09 1 30 "Any" "Any" "Any" ].

(** * Properties *)

(** ** Comparisons *)

Lemma Qlt_bool_iff (a b : Q) : Qlt_bool a b = true <-> (a < b)%Q.
Proof.
  unfold Qlt_bool. rewrite negb_true_iff.
  split.
  - intros H. apply Qnot_le_lt. intros Hle. apply Qle_bool_iff in Hle. congruence.
  - intros H. destruct (Qle_bool b a) eqn:E; [|reflexivity].
    apply Qle_bool_iff in E. exfalso. apply (Qlt_not_le _ _ H E).
Qed.

Lemma Qle_bool_false (a b : Q) : Qle_bool a b = false <-> (b < a)%Q.
Proof.
  rewrite <- Qlt_bool_iff. unfold Qlt_bool. rewrite negb_true_iff. reflexivity.
Qed.

Lemma same_key_iff (c n cat nm : string) : same_key c n cat nm = true <-> (c, n) = (cat, nm).
Proof.
  unfold same_key. rewrite andb_true_iff, !String.eqb_eq.
  split; [intros [-> ->]; reflexivity | intros [= -> ->]; auto].
Qed.

Lemma same_key_false (c n cat nm : string) : same_key c n cat nm = false <-> (c, n) <> (cat, nm).
Proof.
  rewrite <- same_key_iff. destruct (same_key c n cat nm); split; congruence.
Qed.

Lemma same_key_refl (c n : string) : same_key c n c n = true.
Proof. apply same_key_iff. reflexivity. Qed.

Lemma key_eqb_iff (k1 k2 : Key) : key_eqb k1 k2 = true <-> k1 = k2.
Proof. destruct k1, k2. apply same_key_iff. Qed.

Lemma elem_of_range (lo hi x : Z) : x ∈ range lo hi <-> lo <= x < hi.
Proof.
  unfold range. rewrite list_elem_of_In, in_map_iff. split.
  - intros (i & <- & Hi). apply in_seq in Hi. lia.
  - intros H. exists (Z.to_nat (x - lo)). split; [lia|]. apply in_seq. lia.
Qed.

(** ** The stable sort *)

Section StableSortFacts.
Context {A : Type}.
Variable le : A -> A -> bool.

Lemma insert_sorted_perm (x : A) (l : list A) : Permutation (insert_sorted le x l) (x :: l).
Proof.
  induction l as [|y l IH]; simpl; [reflexivity|].
  destruct (le x y); [reflexivity|].
  rewrite IH. apply perm_swap.
Qed.

Lemma stable_sort_perm (l : list A) : Permutation (stable_sort le l) l.
Proof.
  induction l as [|x l IH]; simpl; [reflexivity|].
  rewrite insert_sorted_perm. by constructor.
Qed.

Lemma elem_of_stable_sort (x : A) (l : list A) : x ∈ stable_sort le l <-> x ∈ l.
Proof. by rewrite (stable_sort_perm l). Qed.

Hypothesis le_total : forall x y, le x y = false -> le y x = true.
Hypothesis le_trans : forall x y z, le x y = true -> le y z = true -> le x z = true.

Lemma insert_sorted_sorted (x : A) (l : list A) :
  StronglySorted (fun a b => le a b = true) l ->
  StronglySorted (fun a b => le a b = true) (insert_sorted le x l).
Proof.
  induction 1 as [|y l Hs IH Hy]; simpl.
  - repeat constructor.
  - destruct (le x y) eqn:E.
    + constructor; [by constructor|].
      constructor; [done|].
      eapply Forall_impl; [exact Hy|]. intros z Hz. by eapply le_trans.
    + constructor; [done|].
      rewrite (insert_sorted_perm x l). constructor; [|done].
      by apply le_total.
Qed.

Lemma stable_sort_sorted (l : list A) :
  StronglySorted (fun a b => le a b = true) (stable_sort le l).
Proof.
  induction l as [|x l IH]; simpl; [constructor|].
  by apply insert_sorted_sorted.
Qed.

Lemma insert_sorted_stable (x a : A) (l : list A) :
  List.filter (equivb le x) (insert_sorted le a l) =
  List.filter (equivb le x) (a :: l).
Proof.
  induction l as [|y l IH]; [reflexivity|].
  simpl insert_sorted. destruct (le a y) eqn:E; [reflexivity|].
  change (List.filter (equivb le x) (y :: insert_sorted le a l))
    with (if equivb le x y then y :: List.filter (equivb le x) (insert_sorted le a l)
          else List.filter (equivb le x) (insert_sorted le a l)).
  rewrite IH. simpl.
  destruct (equivb le x a) eqn:Ea, (equivb le x y) eqn:Ey; try reflexivity.
  exfalso. unfold equivb in *.
  apply andb_true_iff in Ea as [Ea1 Ea2]. apply andb_true_iff in Ey as [Ey1 Ey2].
  rewrite (le_trans a x y Ea2 Ey1) in E. discriminate.
Qed.

Lemma stable_sort_stable (x : A) (l : list A) :
  List.filter (equivb le x) (stable_sort le l) = List.filter (equivb le x) l.
Proof.
  induction l as [|a l IH]; [reflexivity|].
  simpl stable_sort. rewrite insert_sorted_stable. simpl. by rewrite IH.
Qed.
End StableSortFacts.

(** ** The candidate pool *)

Lemma item_ok_line df item : item_ok df item -> line_ok df (item_line item).
Proof. intros (row & ? & ? & ? & ?). by exists row. Qed.

Lemma drop_duplicates_from_first seen rows r :
  r ∈ drop_duplicates_from seen rows ->
  existsb (key_eqb (row_key r)) seen = false /\
  head (item_match rows (Category r) (Item_Name r)) = Some r.
Proof.
  revert seen. induction rows as [|r0 rest IH]; intros seen; simpl.
  - intros H. by apply elem_of_nil in H.
  - destruct (existsb (key_eqb (row_key r0)) seen) eqn:E.
    + intros H. destruct (IH _ H) as [Hs Hh]. split; [done|].
      destruct (same_key (Category r0) (Item_Name r0) (Category r) (Item_Name r)) eqn:K; [|done].
      apply same_key_iff in K. exfalso.
      assert (row_key r0 = row_key r) as Hk by exact K.
      rewrite Hk in E. congruence.
    + intros H. apply elem_of_cons in H as [->|H].
      * split; [done|]. by rewrite same_key_refl.
      * destruct (IH _ H) as [Hs Hh]. simpl in Hs.
        apply orb_false_iff in Hs as [Hne Hs]. split; [done|].
        destruct (same_key (Category r0) (Item_Name r0) (Category r) (Item_Name r)) eqn:K; [|done].
        apply same_key_iff in K. exfalso.
        assert (key_eqb (row_key r) (row_key r0) = true) as Hk
          by (apply key_eqb_iff; symmetry; exact K).
        congruence.
Qed.

Lemma pool_item_ok df item : item ∈ build_pool (drop_duplicates df) -> item_ok df item.
Proof.
  unfold build_pool. rewrite list_elem_of_In, in_flat_map.
  intros (row & Hrow & Hitem).
  apply list_elem_of_In, drop_duplicates_from_first in Hrow as [_ Hrow].
  unfold row_entries in Hitem. apply in_map_iff in Hitem as (q & <- & Hq).
  apply list_elem_of_In, elem_of_range in Hq.
  exists row. simpl. repeat split; [done| lia | lia].
Qed.

(** ** Hamper lists: removing and overwriting the line of a key *)

Lemma key_split (c n : string) (h : list Line) :
  (c, n) ∈ map line_key h ->
  exists h1 q0 h2, h = h1 ++ (c, n, q0) :: h2 /\ ((c, n) ∉ map line_key h1).
Proof.
  induction h as [|[[c0 n0] q0] h IH]; simpl.
  - intros H. by apply elem_of_nil in H.
  - intros H. destruct (decide ((c0, n0) = (c, n))) as [[= -> ->]|Hne].
    + exists [], q0, h. split; [done|]. apply not_elem_of_nil.
    + apply elem_of_cons in H as [H|H]; [by symmetry in H|].
      destruct (IH H) as (h1 & q1 & h2 & -> & Hh1).
      exists ((c0, n0, q0) :: h1), q1, h2. split; [done|].
      simpl. rewrite elem_of_cons. intros [?|?]; [by apply Hne|done].
Qed.

Lemma pop_line_split c n price h1 q0 h2 t :
  (c, n) ∉ map line_key h1 ->
  pop_line c n price (h1 ++ (c, n, q0) :: h2) t = (h1 ++ h2, (t - price * inject_Z q0)%Q).
Proof.
  induction h1 as [|[[c1 n1] q1] h1 IH]; simpl; intros Hn.
  - by rewrite same_key_refl.
  - rewrite not_elem_of_cons in Hn. destruct Hn as [Hne Hn].
    assert (same_key c1 n1 c n = false) as ->
      by (apply same_key_false; intros [= -> ->]; by apply Hne).
    by rewrite (IH Hn).
Qed.

Lemma replace_line_split c n q h1 q0 h2 :
  (c, n) ∉ map line_key h1 ->
  replace_line c n q (h1 ++ (c, n, q0) :: h2) = Some (h1 ++ (c, n, q) :: h2).
Proof.
  induction h1 as [|[[c1 n1] q1] h1 IH]; simpl; intros Hn.
  - by rewrite same_key_refl.
  - rewrite not_elem_of_cons in Hn. destruct Hn as [Hne Hn].
    assert (same_key c1 n1 c n = false) as ->
      by (apply same_key_false; intros [= -> ->]; by apply Hne).
    by rewrite (IH Hn).
Qed.

Lemma replace_line_Some c n q h h' :
  replace_line c n q h = Some h' ->
  exists h1 q0 h2, h = h1 ++ (c, n, q0) :: h2 /\ ((c, n) ∉ map line_key h1) /\
                   h' = h1 ++ (c, n, q) :: h2.
Proof.
  revert h'. induction h as [|[[c1 n1] q1] h IH]; simpl; intros h' H; [done|].
  destruct (same_key c1 n1 c n) eqn:K.
  - apply same_key_iff in K as [= -> ->]. injection H as <-.
    exists [], q1, h. repeat split; [apply not_elem_of_nil].
  - destruct (replace_line c n q h) as [h0|]; [|done]. injection H as <-.
    destruct (IH _ eq_refl) as (h1 & q0 & h2 & -> & Hn & ->).
    exists ((c1, n1, q1) :: h1), q0, h2. repeat split.
    simpl. rewrite not_elem_of_cons. split; [|done].
    apply same_key_false in K. intros E. simpl in E. injection E as -> ->. by apply K.
Qed.

(** ** Consistency of a fill state *)

Lemma consistent_empty df : consistent df empty_fill.
Proof.
  split; simpl.
  - constructor.
  - intros c n q. rewrite lookup_empty. split; [done|]. intros H. by apply elem_of_nil in H.
  - constructor.
Qed.

Lemma consistent_key_in df st c n :
  consistent df st -> (is_Some (st_used st !! (c, n)) <-> (c, n) ∈ map line_key (st_hamper st)).
Proof.
  intros [_ Hu _]. split.
  - intros [q Hq]. apply Hu in Hq. apply list_elem_of_fmap. by exists (c, n, q).
  - intros H. apply list_elem_of_fmap in H as ([[c0 n0] q] & [= -> ->] & H).
    exists q. by apply Hu.
Qed.

Lemma consistent_append df st c n q tot :
  consistent df st -> st_used st !! (c, n) = None -> line_ok df (c, n, q) ->
  consistent df (mkFill (st_hamper st ++ [(c, n, q)]) tot (<[(c, n) := q]> (st_used st))).
Proof.
  intros Hc Hnone Hok. pose proof (consistent_key_in df st c n Hc) as Hin.
  destruct Hc as [Hnd Hu Hl].
  assert ((c, n) ∉ map line_key (st_hamper st)) as Hfresh.
  { intros H. apply Hin in H as [? H]. congruence. }
  split; simpl.
  - rewrite map_app. simpl. apply NoDup_app. split; [done|]. split.
    + intros k Hk Hk'. apply list_elem_of_singleton in Hk'. by subst.
    + apply NoDup_singleton.
  - intros c0 n0 q0. rewrite elem_of_app, list_elem_of_singleton.
    destruct (decide ((c, n) = (c0, n0))) as [[= <- <-]|Hne].
    + rewrite lookup_insert_eq. split.
      * intros [= <-]. by right.
      * intros [H|[= ->]]; [|done]. exfalso. apply Hfresh.
        apply list_elem_of_fmap. by exists (c, n, q0).
    + rewrite lookup_insert_ne by done. rewrite Hu. split; [by left|].
      intros [H|[= -> -> _]]; [done|]. by destruct Hne.
  - apply Forall_app. split; [done|]. by constructor.
Qed.

Section SplitHamper.
Variable df : list InventoryRow.
Variable st : FillState.
Variables (c n : string) (q0 : Z) (h1 h2 : list Line).
Hypothesis Hc : consistent df st.
Hypothesis Hsplit : st_hamper st = h1 ++ (c, n, q0) :: h2.

Lemma split_fresh : ((c, n) ∉ map line_key h1) /\ ((c, n) ∉ map line_key h2) /\
                    NoDup (map line_key (h1 ++ h2)).
Proof using Hc Hsplit.
  destruct Hc as [Hnd _ _]. rewrite Hsplit, map_app in Hnd. simpl in Hnd.
  apply NoDup_app in Hnd as (Hn1 & Hdisj & Hn2).
  apply NoDup_cons in Hn2 as [Hk Hn2]. repeat split.
  - intros H. apply (Hdisj _ H). by left.
  - done.
  - rewrite map_app. apply NoDup_app. repeat split; [done| |done].
    intros k Hk1 Hk2. apply (Hdisj _ Hk1). by right.
Qed.

Lemma split_lookup : st_used st !! (c, n) = Some q0.
Proof using Hc Hsplit.
  destruct Hc as [_ Hu _]. apply Hu. rewrite Hsplit.
  apply elem_of_app. right. by left.
Qed.

Lemma split_line_ok l : l ∈ h1 ++ h2 -> line_ok df l.
Proof using Hc Hsplit.
  destruct Hc as [_ _ Hl]. rewrite Hsplit in Hl. rewrite Forall_forall in Hl.
  intros H. apply Hl. rewrite elem_of_app, elem_of_cons.
  apply elem_of_app in H. tauto.
Qed.

Lemma split_used c0 n0 q : (c0, n0) <> (c, n) ->
  st_used st !! (c0, n0) = Some q <-> (c0, n0, q) ∈ h1 ++ h2.
Proof using Hc Hsplit.
  destruct Hc as [_ Hu _]. intros Hne. rewrite Hu, Hsplit.
  rewrite !elem_of_app, elem_of_cons. split; [|tauto].
  intros [?|[[= -> -> _]|?]]; [tauto| by destruct Hne |tauto].
Qed.

(** Overwriting the line in place. *)
Lemma consistent_overwrite q tot :
  line_ok df (c, n, q) ->
  consistent df (mkFill (h1 ++ (c, n, q) :: h2) tot (<[(c, n) := q]> (st_used st))).
Proof using Hc Hsplit.
  intros Hok. destruct split_fresh as (Hf1 & Hf2 & Hnd).
  split; simpl.
  - destruct Hc as [Hnd0 _ _]. rewrite Hsplit in Hnd0.
    by rewrite map_app in *.
  - intros c0 n0 q'. destruct (decide ((c0, n0) = (c, n))) as [[= -> ->]|Hne].
    + rewrite lookup_insert_eq. rewrite elem_of_app, elem_of_cons. split.
      * intros [= <-]. right. by left.
      * intros [H|[[= ->]|H]]; [|done|].
        -- exfalso. apply Hf1. apply list_elem_of_fmap. by exists (c, n, q').
        -- exfalso. apply Hf2. apply list_elem_of_fmap. by exists (c, n, q').
    + rewrite lookup_insert_ne by done. rewrite (split_used _ _ _ Hne).
      rewrite !elem_of_app, elem_of_cons. split; [tauto|].
      intros [?|[[= -> -> _]|?]]; [tauto| by destruct Hne |tauto].
  - rewrite Forall_forall. intros l Hl.
    apply elem_of_app in Hl as [Hl|Hl]; [apply split_line_ok, elem_of_app; by left|].
    apply elem_of_cons in Hl as [->|Hl]; [done|apply split_line_ok, elem_of_app; by right].
Qed.

(** Removing the line and appending its replacement at the end. *)
Lemma consistent_move q tot :
  line_ok df (c, n, q) ->
  consistent df (mkFill ((h1 ++ h2) ++ [(c, n, q)]) tot (<[(c, n) := q]> (st_used st))).
Proof using Hc Hsplit.
  intros Hok. destruct split_fresh as (Hf1 & Hf2 & Hnd).
  assert ((c, n) ∉ map line_key (h1 ++ h2)) as Hf.
  { rewrite map_app, elem_of_app. tauto. }
  split; simpl.
  - rewrite map_app. simpl. apply NoDup_app. repeat split; [done| |apply NoDup_singleton].
    intros k Hk Hk'. apply list_elem_of_singleton in Hk'. by subst.
  - intros c0 n0 q'. rewrite elem_of_app, list_elem_of_singleton.
    destruct (decide ((c0, n0) = (c, n))) as [[= -> ->]|Hne].
    + rewrite lookup_insert_eq. split.
      * intros [= <-]. by right.
      * intros [H|[= ->]]; [|done]. exfalso. apply Hf.
        apply list_elem_of_fmap. by exists (c, n, q').
    + rewrite lookup_insert_ne by done. rewrite (split_used _ _ _ Hne).
      split; [tauto|]. intros [?|[= -> -> _]]; [done|by destruct Hne].
  - apply Forall_app. split; [|by constructor].
    rewrite Forall_forall. intros l Hl. by apply split_line_ok.
Qed.
End SplitHamper.

(** ** Phase 1 keeps the state consistent *)

Section PhaseInvariants.
Variable df : list InventoryRow.

Lemma accept_item_consistent st item :
  consistent df st -> item_ok df item -> consistent df (accept_item st item).
Proof.
  intros Hc Hok. apply item_ok_line in Hok. unfold accept_item, item_key.
  destruct (st_used st !! (category item, name item)) as [q0|] eqn:E.
  - assert ((category item, name item) ∈ map line_key (st_hamper st)) as Hin
      by (apply (consistent_key_in df st); eauto).
    apply key_split in Hin as (h1 & q1 & h2 & Hsplit & Hfresh).
    rewrite Hsplit, pop_line_split by done. simpl.
    by eapply consistent_move.
  - simpl. by apply consistent_append.
Qed.

Lemma strategy_step_consistent s budget st item :
  consistent df st -> item_ok df item -> consistent df (strategy_step s budget st item).
Proof.
  intros Hc Hok. unfold strategy_step.
  destruct (skip_item _ _); [done|].
  destruct (Qle_bool _ _); [by apply accept_item_consistent|done].
Qed.

Lemma fold_strategy_consistent s budget items st :
  consistent df st -> Forall (item_ok df) items ->
  consistent df (fold_left (strategy_step s budget) items st).
Proof.
  revert st. induction items as [|item items IH]; simpl; intros st Hc Hok; [done|].
  inversion Hok; subst. apply IH; [|done]. by apply strategy_step_consistent.
Qed.

Lemma keep_best_consistent budget best temp :
  consistent df best -> consistent df temp -> consistent df (keep_best budget best temp).
Proof. intros ??. unfold keep_best. by destruct (_ && _). Qed.

Lemma fold_keep_best_consistent budget results best :
  consistent df best -> Forall (consistent df) results ->
  consistent df (fold_left (keep_best budget) results best).
Proof.
  revert best. induction results as [|r results IH]; simpl; intros best Hb Hr; [done|].
  inversion Hr; subst. apply IH; [|done]. by apply keep_best_consistent.
Qed.

Lemma sorted_by_ok {A} (P : A -> Prop) key (l : list A) :
  Forall P l -> Forall P (sorted_by key l).
Proof.
  rewrite !Forall_forall. intros H x Hx. apply H.
  by apply elem_of_stable_sort in Hx.
Qed.

Lemma sorted_by_reverse_ok {A} (P : A -> Prop) key (l : list A) :
  Forall P l -> Forall P (sorted_by_reverse key l).
Proof.
  rewrite !Forall_forall. intros H x Hx. apply H.
  by apply elem_of_stable_sort in Hx.
Qed.

Lemma best_of_strategies_consistent budget items_pool :
  Forall (item_ok df) items_pool -> consistent df (best_of_strategies budget items_pool).
Proof.
  intros Hpool. unfold best_of_strategies, strategy_results, strategies, run_strategy.
  apply fold_keep_best_consistent; [apply consistent_empty|].
  simpl. repeat constructor;
    apply fold_strategy_consistent;
    auto using consistent_empty, sorted_by_ok, sorted_by_reverse_ok.
Qed.

(** ** Phase 2 keeps the state consistent *)

Lemma set_quantity_consistent st c n q inc st' :
  consistent df st -> line_ok df (c, n, q) ->
  set_quantity st c n q inc = Some st' -> consistent df st'.
Proof.
  intros Hc Hok. unfold set_quantity.
  destruct (replace_line c n q (st_hamper st)) as [h|] eqn:E; [|done].
  intros [= <-]. apply replace_line_Some in E as (h1 & q0 & h2 & Hsplit & _ & ->).
  by eapply consistent_overwrite.
Qed.

Lemma try_quantities_consistent st c n cur price remaining qtys st' :
  consistent df st -> Forall (fun q => line_ok df (c, n, q)) qtys ->
  try_quantities st c n cur price remaining qtys = Some st' -> consistent df st'.
Proof.
  intros Hc. induction 1 as [|q qtys Hq Hqs IH]; simpl; [done|].
  destruct (Qle_bool _ _); [|done].
  destruct (set_quantity st c n q _) as [st0|] eqn:E; [|done].
  intros [= <-]. by eapply set_quantity_consistent.
Qed.

Lemma bump_range_ok c n cur row :
  line_ok df (c, n, cur) -> head (item_match df c n) = Some row ->
  Forall (fun q => line_ok df (c, n, q))
         (range (cur + 1) (Z.min (Available_Units row) 20 + 1)).
Proof.
  intros (row0 & Hrow0 & Hcur) Hrow. simpl in *.
  rewrite Forall_forall. intros q Hq. apply elem_of_range in Hq.
  exists row. simpl. split; [done|lia].
Qed.

Lemma increase_quantity_consistent remaining st snapshot st' :
  consistent df st -> Forall (line_ok df) snapshot ->
  increase_quantity df remaining st snapshot = Some st' -> consistent df st'.
Proof.
  intros Hc. induction 1 as [|[[c n] cur] snapshot Hl Hs IH]; simpl; [done|].
  destruct (item_match df c n) as [|row rows] eqn:E; [done|].
  destruct (try_quantities _ _ _ _ _ _ _) as [st0|] eqn:T; [|done].
  intros [= <-]. eapply try_quantities_consistent; [done| |exact T].
  apply bump_range_ok; [done|]. by rewrite E.
Qed.

Lemma append_item_consistent st item :
  consistent df st -> item_ok df item -> not_used (st_used st) item = true ->
  consistent df (append_item st item).
Proof.
  intros Hc Hok Hn. unfold append_item, not_used, item_key in *.
  destruct (st_used st !! (category item, name item)) eqn:E; [done|].
  apply consistent_append; [done..|]. by apply item_ok_line.
Qed.

Section WithPool.
Variable items_pool : list PoolItem.
Hypothesis Hpool : Forall (item_ok df) items_pool.

Lemma add_new_item_consistent remaining st st' :
  consistent df st -> add_new_item items_pool remaining st = Some st' -> consistent df st'.
Proof using Hpool.
  intros Hc. unfold add_new_item.
  destruct (List.find _ _) as [item|] eqn:F; [|done].
  intros [= <-]. apply find_some in F as [Hin _].
  apply list_elem_of_In, elem_of_stable_sort, list_elem_of_In, filter_In in Hin as [Hin Hf].
  apply andb_true_iff in Hf as [Hn _].
  apply append_item_consistent; [done| |done].
  rewrite Forall_forall in Hpool. by apply Hpool, list_elem_of_In.
Qed.

Lemma refine_consistent fuel budget target st :
  consistent df st -> consistent df (refine fuel budget target df items_pool st).
Proof using Hpool.
  revert st. induction fuel as [|fuel IH]; simpl; intros st Hc; [done|].
  destruct (Qlt_bool _ _); [|done].
  destruct (increase_quantity _ _ _ _) as [st1|] eqn:E.
  - apply IH. eapply increase_quantity_consistent; [done| |exact E]. by destruct Hc.
  - destruct (add_new_item _ _ _) as [st1|] eqn:N; [|done].
    apply IH. by eapply add_new_item_consistent.
Qed.

(** ** Phase 3 keeps the state consistent *)

Lemma final_step_consistent budget st item :
  consistent df st -> item_ok df item -> consistent df (final_step budget st item).
Proof.
  intros Hc Hok. unfold final_step.
  destruct (st_used st !! item_key item) as [cur|] eqn:E.
  - destruct (cur <? qty item); [|done].
    destruct (Qle_bool _ _); [|done].
    destruct (set_quantity _ _ _ _ _) as [st1|] eqn:S; [|done].
    eapply set_quantity_consistent; [done| |exact S].
    by apply item_ok_line in Hok.
  - destruct (Qle_bool _ _); [|done].
    apply append_item_consistent; [done..|]. unfold not_used. by rewrite E.
Qed.

Lemma fold_final_step_consistent budget items st :
  consistent df st -> Forall (item_ok df) items ->
  consistent df (fold_left (final_step budget) items st).
Proof.
  revert st. induction items as [|item items IH]; simpl; intros st Hc Hok; [done|].
  inversion Hok; subst. apply IH; [|done]. by apply final_step_consistent.
Qed.

Lemma final_fill_consistent budget st :
  consistent df st -> consistent df (final_fill budget items_pool st).
Proof using Hpool.
  intros Hc. unfold final_fill. destruct (Qlt_bool _ _); [|done].
  apply fold_final_step_consistent; [done|].
  unfold small_items. apply sorted_by_reverse_ok.
  rewrite Forall_forall in *. intros item Hin. apply Hpool.
  apply list_elem_of_In, filter_In in Hin as [Hin _]. by apply list_elem_of_In.
Qed.
End WithPool.

Lemma fill_from_consistent budget : consistent df (fill_from df budget).
Proof.
  unfold fill_from.
  assert (Forall (item_ok df) (build_pool (drop_duplicates df))) as Hpool.
  { rewrite Forall_forall. apply pool_item_ok. }
  apply final_fill_consistent; [done|].
  apply refine_consistent; [done|].
  by apply best_of_strategies_consistent.
Qed.
End PhaseInvariants.

(** ** The total after an overwrite *)

Lemma set_quantity_total st c n q inc st' :
  set_quantity st c n q inc = Some st' -> st_total st' = (st_total st + inc)%Q.
Proof.
  unfold set_quantity. destruct (replace_line _ _ _ _); [|done]. by intros [= <-].
Qed.

(** ** The total of a strategy pass, in exact arithmetic, is the cost of its lines *)

Section CostInvariant.
Variable df : list InventoryRow.

Lemma hamper_cost_app h1 h2 :
  (hamper_cost df (h1 ++ h2) == hamper_cost df h1 + hamper_cost df h2)%Q.
Proof.
  induction h1 as [|l h1 IH]; simpl; [lra|]. rewrite IH. lra.
Qed.

Lemma hamper_cost_split h1 l h2 :
  (hamper_cost df (h1 ++ l :: h2) == hamper_cost df (h1 ++ h2) + line_cost df l)%Q.
Proof. rewrite !hamper_cost_app. simpl. lra. Qed.

Lemma line_cost_row c n q row :
  head (item_match df c n) = Some row -> line_cost df (c, n, q) = (MRP row * inject_Z q)%Q.
Proof.
  unfold line_cost. simpl. destruct (item_match df c n); [done|]. by intros [= ->].
Qed.

Lemma item_line_cost item :
  item_ok df item -> line_cost df (item_line item) = total_cost item.
Proof.
  intros (row & Hrow & _ & Hcost & _). unfold item_line.
  by rewrite (line_cost_row _ _ _ _ Hrow).
Qed.

Lemma costed_empty : costed df empty_fill.
Proof. unfold costed. simpl. lra. Qed.

Lemma append_item_costed st item :
  costed df st -> item_ok df item -> costed df (append_item st item).
Proof.
  unfold costed. intros Hc Hok. simpl.
  rewrite hamper_cost_app. simpl. rewrite (item_line_cost _ Hok). lra.
Qed.

Lemma accept_item_costed st item :
  consistent df st -> costed df st -> item_ok df item -> costed df (accept_item st item).
Proof.
  intros Hc Hcost Hok. unfold accept_item, item_key.
  destruct (st_used st !! (category item, name item)) as [q0|] eqn:E.
  - assert ((category item, name item) ∈ map line_key (st_hamper st)) as Hin
      by (apply (consistent_key_in df st); eauto).
    apply key_split in Hin as (h1 & q1 & h2 & Hsplit & Hfresh).
    unfold costed in *. rewrite Hsplit in *. rewrite pop_line_split by done. simpl.
    rewrite hamper_cost_app. simpl. rewrite (item_line_cost _ Hok).
    rewrite hamper_cost_split in Hcost.
    destruct Hok as (row & Hrow & Hmrp & _).
    rewrite (line_cost_row _ _ _ _ Hrow) in Hcost. rewrite Hmrp. lra.
  - by apply append_item_costed.
Qed.

Lemma strategy_step_costed s budget st item :
  consistent df st -> costed df st -> item_ok df item ->
  costed df (strategy_step s budget st item).
Proof.
  intros Hc Hcost Hok. unfold strategy_step.
  destruct (skip_item _ _); [done|].
  destruct (Qle_bool _ _); [by apply accept_item_costed|done].
Qed.

Lemma fold_strategy_costed s budget items st :
  consistent df st -> costed df st -> Forall (item_ok df) items ->
  costed df (fold_left (strategy_step s budget) items st).
Proof.
  revert st. induction items as [|item items IH]; simpl; intros st Hc Hcost Hok; [done|].
  inversion Hok; subst.
  apply IH; [by apply strategy_step_consistent|by apply strategy_step_costed|done].
Qed.

End CostInvariant.

(** ** A non-empty hamper stays non-empty *)

Section NonEmpty.
Lemma accept_item_nonempty st item : st_hamper (accept_item st item) <> [].
Proof. unfold accept_item. simpl. intros H. by apply app_eq_nil in H as [_ ?]. Qed.

Lemma strategy_step_fresh s budget st item :
  fresh_if_empty st -> fresh_if_empty (strategy_step s budget st item).
Proof.
  unfold strategy_step. intros Hf.
  destruct (skip_item _ _); [done|].
  destruct (Qle_bool _ _); [|done].
  intros H. by apply accept_item_nonempty in H.
Qed.

Lemma run_strategy_fresh s budget items : fresh_if_empty (run_strategy s budget items).
Proof.
  unfold run_strategy. assert (fresh_if_empty empty_fill) as H by done.
  revert H. generalize empty_fill. induction items as [|item items IH]; simpl; [done|].
  intros st Hst. by apply IH, strategy_step_fresh.
Qed.

Lemma best_of_strategies_fresh budget items_pool :
  fresh_if_empty (best_of_strategies budget items_pool).
Proof.
  unfold best_of_strategies, strategy_results.
  assert (Forall fresh_if_empty
                 (map (fun s => run_strategy s.1 budget s.2) (strategies items_pool))) as Hr
    by (apply Forall_map, Forall_forall; intros; apply run_strategy_fresh).
  revert Hr. generalize (map (fun s => run_strategy s.1 budget s.2) (strategies items_pool)).
  assert (fresh_if_empty empty_fill) as H by done.
  revert H. generalize empty_fill. intros best Hb rs. revert best Hb.
  induction rs as [|r rs IH]; simpl; intros best Hb Hr; [done|].
  inversion Hr; subst. apply IH; [|done]. unfold keep_best. by destruct (_ && _).
Qed.

Lemma set_quantity_nonempty st c n q inc st' :
  set_quantity st c n q inc = Some st' -> st_hamper st' <> [].
Proof.
  unfold set_quantity. destruct (replace_line _ _ _ _) as [h|] eqn:E; [|done].
  intros [= <-]. apply replace_line_Some in E as (h1 & q0 & h2 & _ & _ & ->).
  simpl. intros H. by apply app_eq_nil in H as [_ ?].
Qed.

Lemma try_quantities_nonempty st c n cur price remaining qtys st' :
  try_quantities st c n cur price remaining qtys = Some st' -> st_hamper st' <> [].
Proof.
  induction qtys as [|q qtys IH]; simpl; [done|].
  destruct (Qle_bool _ _); [|done].
  destruct (set_quantity st c n q _) as [st0|] eqn:S; [|done].
  intros [= <-]. by eapply set_quantity_nonempty.
Qed.

Lemma increase_quantity_nonempty df remaining st snapshot st' :
  increase_quantity df remaining st snapshot = Some st' -> st_hamper st' <> [].
Proof.
  induction snapshot as [|[[c n] cur] snapshot IH]; simpl; [done|].
  destruct (item_match df c n) as [|row rows]; [done|].
  destruct (try_quantities _ _ _ _ _ _ _) as [st0|] eqn:T; [|done].
  intros [= <-]. by eapply try_quantities_nonempty.
Qed.

Lemma add_new_item_nonempty items_pool remaining st st' :
  add_new_item items_pool remaining st = Some st' -> st_hamper st' <> [].
Proof.
  unfold add_new_item. destruct (List.find _ _); [|done].
  intros [= <-]. simpl. intros H. by apply app_eq_nil in H as [_ ?].
Qed.

Lemma refine_nonempty fuel budget target df items_pool st :
  st_hamper st <> [] -> st_hamper (refine fuel budget target df items_pool st) <> [].
Proof.
  revert st. induction fuel as [|fuel IH]; simpl; intros st Hne; [done|].
  destruct (Qlt_bool _ _); [|done].
  destruct (increase_quantity _ _ _ _) as [st1|] eqn:E.
  - by eapply IH, increase_quantity_nonempty.
  - destruct (add_new_item _ _ _) as [st1|] eqn:N; [|done].
    by eapply IH, add_new_item_nonempty.
Qed.

Lemma final_step_nonempty budget st item :
  st_hamper st <> [] -> st_hamper (final_step budget st item) <> [].
Proof.
  unfold final_step. intros Hne.
  destruct (st_used st !! item_key item) as [cur|].
  - destruct (cur <? qty item); [|done].
    destruct (Qle_bool _ _); [|done].
    destruct (set_quantity _ _ _ _ _) as [st1|] eqn:S; [|done].
    by eapply set_quantity_nonempty.
  - destruct (Qle_bool _ _); [|done]. simpl. intros H. by apply app_eq_nil in H as [_ ?].
Qed.

Lemma final_fill_nonempty budget items_pool st :
  st_hamper st <> [] -> st_hamper (final_fill budget items_pool st) <> [].
Proof.
  unfold final_fill. intros Hne. destruct (Qlt_bool _ _); [|done].
  generalize (small_items (budget - st_total st) items_pool (st_used st)).
  intros items. revert st Hne.
  induction items as [|item items IH]; simpl; intros st Hne; [done|].
  by apply IH, final_step_nonempty.
Qed.

(** From the empty state the first iteration appends an affordable entry. *)
Lemma add_new_item_empty items_pool budget item :
  item ∈ items_pool -> (total_cost item <= budget)%Q ->
  exists st', add_new_item items_pool (budget - st_total empty_fill) empty_fill = Some st'.
Proof.
  intros Hin Hcost. unfold add_new_item.
  set (keep := fun it => not_used (st_used empty_fill) it &&
                         Qle_bool (total_cost it) (budget - st_total empty_fill)).
  assert (Qle_bool (total_cost item) (budget - st_total empty_fill) = true) as Hle.
  { apply Qle_bool_iff. simpl. lra. }
  assert (item ∈ sorted_by_reverse total_cost (List.filter keep items_pool)) as Hs.
  { apply elem_of_stable_sort, list_elem_of_In, filter_In. split; [by apply list_elem_of_In|].
    unfold keep. rewrite Hle. unfold not_used. simpl. by rewrite lookup_empty. }
  destruct (List.find _ _) as [found|] eqn:F; [by eexists|].
  exfalso. apply list_elem_of_In in Hs.
  pose proof (find_none _ _ F _ Hs) as Hnone. cbv beta in Hnone. congruence.
Qed.

Lemma refine_step n budget target df items_pool st :
  refine (S n) budget target df items_pool st =
  if Qlt_bool (st_total st) target then
    match increase_quantity df (budget - st_total st) st (st_hamper st) with
    | Some st' => refine n budget target df items_pool st'
    | None =>
        match add_new_item items_pool (budget - st_total st) st with
        | Some st' => refine n budget target df items_pool st'
        | None => st
        end
    end
  else st.
Proof. reflexivity. Qed.

Lemma refine_from_empty budget df items_pool item :
  (0 < budget)%Q -> item ∈ items_pool -> (total_cost item <= budget)%Q ->
  st_hamper (refine max_iterations budget (budget * (99 # 100)) df items_pool empty_fill) <> [].
Proof.
  intros Hb Hin Hcost.
  assert (max_iterations = S 99) as -> by reflexivity.
  rewrite refine_step.
  assert (Qlt_bool (st_total empty_fill) (budget * (99 # 100)) = true) as ->.
  { apply Qlt_bool_iff. simpl. lra. }
  destruct (add_new_item_empty items_pool budget item Hin Hcost) as [st' Hst'].
  change (increase_quantity df (budget - st_total empty_fill) empty_fill
                            (st_hamper empty_fill)) with (@None FillState).
  cbv iota. rewrite Hst'. by eapply refine_nonempty, add_new_item_nonempty.
Qed.
End NonEmpty.

(** * The fill engine as a whole *)

Section CreateHamper.
Variables (data : list InventoryRow) (today : Z) (budget : Q).
Variables (selected_categories selected_inventory selected_status selected_brands : list string).
Variables (min_days max_days : Z) (box_type : string).

Lemma create_hamper_cases :
  let df_filtered :=
    filtered_view data today selected_categories selected_inventory selected_status
                  selected_brands min_days max_days in
  let result :=
    create_hamper data today budget selected_categories selected_inventory selected_status
                  selected_brands min_days max_days box_type in
  (df_filtered = [] /\ result = ([], 0%Q)) \/
  (df_filtered <> [] /\
   result = (st_hamper (fill_from df_filtered budget), st_total (fill_from df_filtered budget))).
Proof.
  cbv zeta. unfold create_hamper.
  destruct (filtered_view _ _ _ _ _ _ _ _); [by left|by right].
Qed.

(** C2: the hamper returned by [create_hamper] has at most one line per
    (category, name) key. *)
Theorem create_hamper_unique_keys :
  let result :=
    create_hamper data today budget selected_categories selected_inventory selected_status
                  selected_brands min_days max_days box_type in
  NoDup (map line_key result.1).
Proof.
  intros result.
  destruct create_hamper_cases as [[_ Hr]|[_ Hr]]; fold result in Hr; rewrite Hr; simpl.
  - constructor.
  - eapply cons_nodup, fill_from_consistent.
Qed.

(** C8: every line of the returned hamper has a quantity between 1 and
    min(available units, 20) of its item, the first row of that key in the
    filtered view. *)
Theorem create_hamper_quantity_cap (c n : string) (q : Z) :
  (c, n, q) ∈ (create_hamper data today budget selected_categories selected_inventory
                             selected_status selected_brands min_days max_days box_type).1 ->
  let df_filtered :=
    filtered_view data today selected_categories selected_inventory selected_status
                  selected_brands min_days max_days in
  exists row, head (item_match df_filtered c n) = Some row /\
              row ∈ df_filtered /\
              1 <= q <= Z.min (Available_Units row) 20.
Proof.
  intros Hin df_filtered.
  destruct create_hamper_cases as [[_ Hr]|[_ Hr]]; fold df_filtered in Hr;
    rewrite Hr in Hin; simpl in Hin.
  - by apply elem_of_nil in Hin.
  - pose proof (cons_lines df_filtered _ (fill_from_consistent df_filtered budget)) as Hl.
    rewrite Forall_forall in Hl. destruct (Hl _ Hin) as (row & Hrow & Hq).
    exists row. repeat split; [done| |apply Hq..].
    simpl in Hrow. unfold item_match in Hrow.
    destruct (List.filter _ df_filtered) as [|r rs] eqn:E; [done|].
    injection Hrow as ->.
    assert (In row (List.filter
              (fun r => same_key (Category r) (Item_Name r) c n) df_filtered)) as Hf
      by (rewrite E; by left).
    apply filter_In in Hf as [Hf _]. by apply list_elem_of_In.
Qed.

(** C10: with a positive budget, as soon as the candidate pool holds an
    entry whose line cost is within the budget, the returned hamper is not
    empty. *)
Theorem create_hamper_nonempty (item : PoolItem) :
  (0 < budget)%Q ->
  item ∈ build_pool (drop_duplicates
                       (filtered_view data today selected_categories selected_inventory
                                      selected_status selected_brands min_days max_days)) ->
  (total_cost item <= budget)%Q ->
  (create_hamper data today budget selected_categories selected_inventory selected_status
                 selected_brands min_days max_days box_type).1 <> [].
Proof.
  intros Hb Hin Hcost.
  destruct create_hamper_cases as [[Hdf _]|[_ ->]].
  - rewrite Hdf in Hin. by apply elem_of_nil in Hin.
  - simpl. unfold fill_from. apply final_fill_nonempty.
    match goal with |- context [best_of_strategies budget ?p] => set (pool := p) in * end.
    destruct (st_hamper (best_of_strategies budget pool)) eqn:E.
    + rewrite (best_of_strategies_fresh budget pool E).
      by eapply refine_from_empty.
    + apply refine_nonempty. by rewrite E.
Qed.
End CreateHamper.

Lemma create_hamper_quantity_cap_witness :
  exists row,
    head (item_match (filtered_view one_item 0 ["Snacks"%string] any_tag any_tag any_tag 0 60)
                     "Snacks" "Chips") = Some row /\
    row ∈ filtered_view one_item 0 ["Snacks"%string] any_tag any_tag any_tag 0 60 /\
    1 <= 2 <= Z.min (Available_Units row) 20.
Proof.
  apply (create_hamper_quantity_cap one_item 0 250 ["Snacks"%string] any_tag any_tag any_tag
                                    0 60 "Gift Box" "Snacks" "Chips" 2).
  vm_compute. left.
Defined.

Lemma create_hamper_nonempty_witness :
  (create_hamper one_item 0 250 ["Snacks"%string] any_tag any_tag any_tag 0 60 "Gift Box").1
  <> [].
Proof.
  apply (create_hamper_nonempty one_item 0 250 ["Snacks"%string] any_tag any_tag any_tag
                                0 60 "Gift Box" (mkItem "Snacks" "Chips" 100 2 200 5 100)).
  - reflexivity.
  - vm_compute. right. left.
  - vm_compute. discriminate.
Defined.

(** * The total in binary64 arithmetic *)

(** The strategy passes and the final fill test the sum that becomes the
    total; the refinement loop tests the cost of its step against
    [budget - total_cost], as rounded, and then adds the cost to the total,
    which is rounded again. *)

Lemma double_keep_best_within budget best temp :
  (Double.st_total best <=? budget)%float = true ->
  (Double.st_total (Double.keep_best budget best temp) <=? budget)%float = true.
Proof.
  intros Hbest. unfold Double.keep_best.
  destruct (Double.st_total best <? Double.st_total temp)%float; [|done].
  by destruct (Double.st_total temp <=? budget)%float eqn:E.
Qed.

Lemma double_fold_keep_best_within budget results best :
  (Double.st_total best <=? budget)%float = true ->
  (Double.st_total (fold_left (Double.keep_best budget) results best) <=? budget)%float = true.
Proof.
  revert best. induction results as [|temp results IH]; intros best Hbest; [done|].
  simpl. by apply IH, double_keep_best_within.
Qed.

Lemma double_final_step_within budget st item :
  (Double.st_total st <=? budget)%float = true ->
  (Double.st_total (Double.final_step budget st item) <=? budget)%float = true.
Proof.
  intros Hst. unfold Double.final_step.
  destruct (Double.st_used st !! Double.item_key item) as [current_qty|].
  - destruct (current_qty <? Double.qty item); [|done].
    destruct (Double.st_total st + _ <=? budget)%float eqn:E; [|done].
    unfold Double.set_quantity.
    by destruct (replace_line _ _ _ _).
  - by destruct (Double.st_total st + Double.total_cost item <=? budget)%float eqn:E.
Qed.

Lemma double_final_sweep_within budget items st :
  (Double.st_total st <=? budget)%float = true ->
  (Double.st_total (fold_left (Double.final_step budget) items st) <=? budget)%float = true.
Proof.
  revert st. induction items as [|item items IH]; intros st Hst; [done|].
  simpl. by apply IH, double_final_step_within.
Qed.


(** X22: in binary64 arithmetic, for a budget that is not negative, the
    total of the best strategy result is within the budget, and the final
    fill takes no total that is within the budget above it: a total above
    the budget comes out of the refinement loop. *)
Theorem binary64_total_guards (budget : float) (items_pool : list Double.PoolItem) :
  (0 <=? budget)%float = true ->
  (Double.st_total (Double.best_of_strategies budget items_pool) <=? budget)%float = true /\
  (forall st,
     (Double.st_total st <=? budget)%float = true ->
     (Double.st_total (Double.final_fill budget items_pool st) <=? budget)%float = true).
Proof.
  intros Hbudget. split.
  - unfold Double.best_of_strategies. by apply double_fold_keep_best_within.
  - intros st Hst. unfold Double.final_fill.
    destruct (0 <? budget - Double.st_total st)%float; [|done].
    by apply double_final_sweep_within.
Qed.

Lemma binary64_total_guards_witness :
  (Double.st_total (Double.best_of_strategies 100.52 (Double.build_pool two_prices))
   <=? 100.52)%float = true.
Proof.
  apply (binary64_total_guards 100.52 (Double.build_pool two_prices)).
  reflexivity.
Defined.

(** * The shape of the hamper in binary64 arithmetic *)

(** The invariant of the working variables does not depend on what the
    comparisons of prices return: it is kept by the binary64 engine as it is
    by the exact one. *)

Section DoubleInvariants.
Import Double.

(** ** The candidate pool of the binary64 engine *)

Lemma double_item_ok_line df item : item_ok df item -> line_ok df (item_line item).
Proof. intros (row & ? & ? & ? & ?). by exists row. Qed.

Lemma double_drop_duplicates_from_first seen rows r :
  r ∈ drop_duplicates_from seen rows ->
  existsb (key_eqb (row_key r)) seen = false /\
  head (item_match rows (Category r) (Item_Name r)) = Some r.
Proof.
  revert seen. induction rows as [|r0 rest IH]; intros seen; simpl.
  - intros H. by apply elem_of_nil in H.
  - destruct (existsb (key_eqb (row_key r0)) seen) eqn:E.
    + intros H. destruct (IH _ H) as [Hs Hh]. split; [done|].
      destruct (same_key (Category r0) (Item_Name r0) (Category r) (Item_Name r)) eqn:K; [|done].
      apply same_key_iff in K. exfalso.
      assert (row_key r0 = row_key r) as Hk by exact K.
      rewrite Hk in E. congruence.
    + intros H. apply elem_of_cons in H as [->|H].
      * split; [done|]. by rewrite same_key_refl.
      * destruct (IH _ H) as [Hs Hh]. simpl in Hs.
        apply orb_false_iff in Hs as [Hne Hs]. split; [done|].
        destruct (same_key (Category r0) (Item_Name r0) (Category r) (Item_Name r)) eqn:K; [|done].
        apply same_key_iff in K. exfalso.
        assert (key_eqb (row_key r) (row_key r0) = true) as Hk
          by (apply key_eqb_iff; symmetry; exact K).
        congruence.
Qed.

Lemma double_pool_item_ok df item : item ∈ build_pool (drop_duplicates df) -> item_ok df item.
Proof.
  unfold build_pool. rewrite list_elem_of_In, in_flat_map.
  intros (row & Hrow & Hitem).
  apply list_elem_of_In, double_drop_duplicates_from_first in Hrow as [_ Hrow].
  unfold row_entries in Hitem. apply in_map_iff in Hitem as (q & <- & Hq).
  apply list_elem_of_In, elem_of_range in Hq.
  exists row. simpl. repeat split; [done| lia | lia].
Qed.



Lemma double_pop_line_split c n price h1 q0 h2 t :
  (c, n) ∉ map line_key h1 ->
  pop_line c n price (h1 ++ (c, n, q0) :: h2) t = (h1 ++ h2, (t - price * of_int q0)%float).
Proof.
  induction h1 as [|[[c1 n1] q1] h1 IH]; simpl; intros Hn.
  - by rewrite same_key_refl.
  - rewrite not_elem_of_cons in Hn. destruct Hn as [Hne Hn].
    assert (same_key c1 n1 c n = false) as ->
      by (apply same_key_false; intros [= -> ->]; by apply Hne).
    by rewrite (IH Hn).
Qed.

(** ** Consistency of a binary64 fill state *)

Lemma double_consistent_empty df : consistent df empty_fill.
Proof.
  split; simpl.
  - constructor.
  - intros c n q. rewrite lookup_empty. split; [done|]. intros H. by apply elem_of_nil in H.
  - constructor.
Qed.

Lemma double_consistent_key_in df st c n :
  consistent df st -> (is_Some (st_used st !! (c, n)) <-> (c, n) ∈ map line_key (st_hamper st)).
Proof.
  intros [_ Hu _]. split.
  - intros [q Hq]. apply Hu in Hq. apply list_elem_of_fmap. by exists (c, n, q).
  - intros H. apply list_elem_of_fmap in H as ([[c0 n0] q] & [= -> ->] & H).
    exists q. by apply Hu.
Qed.

Lemma double_consistent_append df st c n q tot :
  consistent df st -> st_used st !! (c, n) = None -> line_ok df (c, n, q) ->
  consistent df (mkFill (st_hamper st ++ [(c, n, q)]) tot (<[(c, n) := q]> (st_used st))).
Proof.
  intros Hc Hnone Hok. pose proof (double_consistent_key_in df st c n Hc) as Hin.
  destruct Hc as [Hnd Hu Hl].
  assert ((c, n) ∉ map line_key (st_hamper st)) as Hfresh.
  { intros H. apply Hin in H as [? H]. congruence. }
  split; simpl.
  - rewrite map_app. simpl. apply NoDup_app. split; [done|]. split.
    + intros k Hk Hk'. apply list_elem_of_singleton in Hk'. by subst.
    + apply NoDup_singleton.
  - intros c0 n0 q0. rewrite elem_of_app, list_elem_of_singleton.
    destruct (decide ((c, n) = (c0, n0))) as [[= <- <-]|Hne].
    + rewrite lookup_insert_eq. split.
      * intros [= <-]. by right.
      * intros [H|[= ->]]; [|done]. exfalso. apply Hfresh.
        apply list_elem_of_fmap. by exists (c, n, q0).
    + rewrite lookup_insert_ne by done. rewrite Hu. split; [by left|].
      intros [H|[= -> -> _]]; [done|]. by destruct Hne.
  - apply Forall_app. split; [done|]. by constructor.
Qed.

Section DoubleSplitHamper.
Variable df : list InventoryRow.
Variable st : FillState.
Variables (c n : string) (q0 : Z) (h1 h2 : list Line).
Hypothesis Hc : consistent df st.
Hypothesis Hsplit : st_hamper st = h1 ++ (c, n, q0) :: h2.

Lemma double_split_fresh : ((c, n) ∉ map line_key h1) /\ ((c, n) ∉ map line_key h2) /\
                    NoDup (map line_key (h1 ++ h2)).
Proof using Hc Hsplit.
  destruct Hc as [Hnd _ _]. rewrite Hsplit, map_app in Hnd. simpl in Hnd.
  apply NoDup_app in Hnd as (Hn1 & Hdisj & Hn2).
  apply NoDup_cons in Hn2 as [Hk Hn2]. repeat split.
  - intros H. apply (Hdisj _ H). by left.
  - done.
  - rewrite map_app. apply NoDup_app. repeat split; [done| |done].
    intros k Hk1 Hk2. apply (Hdisj _ Hk1). by right.
Qed.

Lemma double_split_lookup : st_used st !! (c, n) = Some q0.
Proof using Hc Hsplit.
  destruct Hc as [_ Hu _]. apply Hu. rewrite Hsplit.
  apply elem_of_app. right. by left.
Qed.

Lemma double_split_line_ok l : l ∈ h1 ++ h2 -> line_ok df l.
Proof using Hc Hsplit.
  destruct Hc as [_ _ Hl]. rewrite Hsplit in Hl. rewrite Forall_forall in Hl.
  intros H. apply Hl. rewrite elem_of_app, elem_of_cons.
  apply elem_of_app in H. tauto.
Qed.

Lemma double_split_used c0 n0 q : (c0, n0) <> (c, n) ->
  st_used st !! (c0, n0) = Some q <-> (c0, n0, q) ∈ h1 ++ h2.
Proof using Hc Hsplit.
  destruct Hc as [_ Hu _]. intros Hne. rewrite Hu, Hsplit.
  rewrite !elem_of_app, elem_of_cons. split; [|tauto].
  intros [?|[[= -> -> _]|?]]; [tauto| by destruct Hne |tauto].
Qed.

(** Overwriting the line in place. *)
Lemma double_consistent_overwrite q tot :
  line_ok df (c, n, q) ->
  consistent df (mkFill (h1 ++ (c, n, q) :: h2) tot (<[(c, n) := q]> (st_used st))).
Proof using Hc Hsplit.
  intros Hok. destruct double_split_fresh as (Hf1 & Hf2 & Hnd).
  split; simpl.
  - destruct Hc as [Hnd0 _ _]. rewrite Hsplit in Hnd0.
    by rewrite map_app in *.
  - intros c0 n0 q'. destruct (decide ((c0, n0) = (c, n))) as [[= -> ->]|Hne].
    + rewrite lookup_insert_eq. rewrite elem_of_app, elem_of_cons. split.
      * intros [= <-]. right. by left.
      * intros [H|[[= ->]|H]]; [|done|].
        -- exfalso. apply Hf1. apply list_elem_of_fmap. by exists (c, n, q').
        -- exfalso. apply Hf2. apply list_elem_of_fmap. by exists (c, n, q').
    + rewrite lookup_insert_ne by done. rewrite (double_split_used _ _ _ Hne).
      rewrite !elem_of_app, elem_of_cons. split; [tauto|].
      intros [?|[[= -> -> _]|?]]; [tauto| by destruct Hne |tauto].
  - rewrite Forall_forall. intros l Hl.
    apply elem_of_app in Hl as [Hl|Hl]; [apply double_split_line_ok, elem_of_app; by left|].
    apply elem_of_cons in Hl as [->|Hl]; [done|apply double_split_line_ok, elem_of_app; by right].
Qed.

(** Removing the line and appending its replacement at the end. *)
Lemma double_consistent_move q tot :
  line_ok df (c, n, q) ->
  consistent df (mkFill ((h1 ++ h2) ++ [(c, n, q)]) tot (<[(c, n) := q]> (st_used st))).
Proof using Hc Hsplit.
  intros Hok. destruct double_split_fresh as (Hf1 & Hf2 & Hnd).
  assert ((c, n) ∉ map line_key (h1 ++ h2)) as Hf.
  { rewrite map_app, elem_of_app. tauto. }
  split; simpl.
  - rewrite map_app. simpl. apply NoDup_app. repeat split; [done| |apply NoDup_singleton].
    intros k Hk Hk'. apply list_elem_of_singleton in Hk'. by subst.
  - intros c0 n0 q'. rewrite elem_of_app, list_elem_of_singleton.
    destruct (decide ((c0, n0) = (c, n))) as [[= -> ->]|Hne].
    + rewrite lookup_insert_eq. split.
      * intros [= <-]. by right.
      * intros [H|[= ->]]; [|done]. exfalso. apply Hf.
        apply list_elem_of_fmap. by exists (c, n, q').
    + rewrite lookup_insert_ne by done. rewrite (double_split_used _ _ _ Hne).
      split; [tauto|]. intros [?|[= -> -> _]]; [done|by destruct Hne].
  - apply Forall_app. split; [|by constructor].
    rewrite Forall_forall. intros l Hl. by apply double_split_line_ok.
Qed.
End DoubleSplitHamper.

(** ** Phase 1 of the binary64 engine keeps the state consistent *)

Section DoublePhaseInvariants.
Variable df : list InventoryRow.

Lemma double_accept_item_consistent st item :
  consistent df st -> item_ok df item -> consistent df (accept_item st item).
Proof.
  intros Hc Hok. apply double_item_ok_line in Hok. unfold accept_item, item_key.
  destruct (st_used st !! (category item, name item)) as [q0|] eqn:E.
  - assert ((category item, name item) ∈ map line_key (st_hamper st)) as Hin
      by (apply (double_consistent_key_in df st); eauto).
    apply key_split in Hin as (h1 & q1 & h2 & Hsplit & Hfresh).
    rewrite Hsplit, double_pop_line_split by done. simpl.
    by eapply double_consistent_move.
  - simpl. by apply double_consistent_append.
Qed.

Lemma double_strategy_step_consistent s budget st item :
  consistent df st -> item_ok df item -> consistent df (strategy_step s budget st item).
Proof.
  intros Hc Hok. unfold strategy_step.
  destruct (skip_item _ _); [done|].
  destruct (_ <=? _)%float; [by apply double_accept_item_consistent|done].
Qed.

Lemma double_fold_strategy_consistent s budget items st :
  consistent df st -> Forall (item_ok df) items ->
  consistent df (fold_left (strategy_step s budget) items st).
Proof.
  revert st. induction items as [|item items IH]; simpl; intros st Hc Hok; [done|].
  inversion Hok; subst. apply IH; [|done]. by apply double_strategy_step_consistent.
Qed.

Lemma double_keep_best_consistent budget best temp :
  consistent df best -> consistent df temp -> consistent df (keep_best budget best temp).
Proof. intros ??. unfold keep_best. by destruct (_ && _). Qed.

Lemma double_fold_keep_best_consistent budget results best :
  consistent df best -> Forall (consistent df) results ->
  consistent df (fold_left (keep_best budget) results best).
Proof.
  revert best. induction results as [|r results IH]; simpl; intros best Hb Hr; [done|].
  inversion Hr; subst. apply IH; [|done]. by apply double_keep_best_consistent.
Qed.

Lemma double_sorted_by_ok {A} (P : A -> Prop) key (l : list A) :
  Forall P l -> Forall P (sorted_by key l).
Proof.
  rewrite !Forall_forall. intros H x Hx. apply H.
  by apply elem_of_stable_sort in Hx.
Qed.

Lemma double_sorted_by_reverse_ok {A} (P : A -> Prop) key (l : list A) :
  Forall P l -> Forall P (sorted_by_reverse key l).
Proof.
  rewrite !Forall_forall. intros H x Hx. apply H.
  by apply elem_of_stable_sort in Hx.
Qed.

Lemma double_best_of_strategies_consistent budget items_pool :
  Forall (item_ok df) items_pool -> consistent df (best_of_strategies budget items_pool).
Proof.
  intros Hpool. unfold best_of_strategies, strategy_results, strategies, run_strategy.
  apply double_fold_keep_best_consistent; [apply double_consistent_empty|].
  simpl. repeat constructor;
    apply double_fold_strategy_consistent;
    auto using double_consistent_empty, double_sorted_by_ok, double_sorted_by_reverse_ok.
Qed.

(** ** Phase 2 of the binary64 engine keeps the state consistent *)

Lemma double_set_quantity_consistent st c n q inc st' :
  consistent df st -> line_ok df (c, n, q) ->
  set_quantity st c n q inc = Some st' -> consistent df st'.
Proof.
  intros Hc Hok. unfold set_quantity.
  destruct (replace_line c n q (st_hamper st)) as [h|] eqn:E; [|done].
  intros [= <-]. apply replace_line_Some in E as (h1 & q0 & h2 & Hsplit & _ & ->).
  by eapply double_consistent_overwrite.
Qed.

Lemma double_try_quantities_consistent st c n cur price remaining qtys st' :
  consistent df st -> Forall (fun q => line_ok df (c, n, q)) qtys ->
  try_quantities st c n cur price remaining qtys = Some st' -> consistent df st'.
Proof.
  intros Hc. induction 1 as [|q qtys Hq Hqs IH]; simpl; [done|].
  destruct (_ <=? _)%float; [|done].
  destruct (set_quantity st c n q _) as [st0|] eqn:E; [|done].
  intros [= <-]. by eapply double_set_quantity_consistent.
Qed.

Lemma double_bump_range_ok c n cur row :
  line_ok df (c, n, cur) -> head (item_match df c n) = Some row ->
  Forall (fun q => line_ok df (c, n, q))
         (range (cur + 1) (Z.min (Available_Units row) 20 + 1)).
Proof.
  intros (row0 & Hrow0 & Hcur) Hrow. simpl in *.
  rewrite Forall_forall. intros q Hq. apply elem_of_range in Hq.
  exists row. simpl. split; [done|lia].
Qed.

Lemma double_increase_quantity_consistent remaining st snapshot st' :
  consistent df st -> Forall (line_ok df) snapshot ->
  increase_quantity df remaining st snapshot = Some st' -> consistent df st'.
Proof.
  intros Hc. induction 1 as [|[[c n] cur] snapshot Hl Hs IH]; simpl; [done|].
  destruct (item_match df c n) as [|row rows] eqn:E; [done|].
  destruct (try_quantities _ _ _ _ _ _ _) as [st0|] eqn:T; [|done].
  intros [= <-]. eapply double_try_quantities_consistent; [done| |exact T].
  apply double_bump_range_ok; [done|]. by rewrite E.
Qed.

Lemma double_append_item_consistent st item :
  consistent df st -> item_ok df item -> not_used (st_used st) item = true ->
  consistent df (append_item st item).
Proof.
  intros Hc Hok Hn. unfold append_item, not_used, item_key in *.
  destruct (st_used st !! (category item, name item)) eqn:E; [done|].
  apply double_consistent_append; [done..|]. by apply double_item_ok_line.
Qed.

Section WithPool.
Variable items_pool : list PoolItem.
Hypothesis Hpool : Forall (item_ok df) items_pool.

Lemma double_add_new_item_consistent remaining st st' :
  consistent df st -> add_new_item items_pool remaining st = Some st' -> consistent df st'.
Proof using Hpool.
  intros Hc. unfold add_new_item.
  destruct (List.find _ _) as [item|] eqn:F; [|done].
  intros [= <-]. apply find_some in F as [Hin _].
  apply list_elem_of_In, elem_of_stable_sort, list_elem_of_In, filter_In in Hin as [Hin Hf].
  apply andb_true_iff in Hf as [Hn _].
  apply double_append_item_consistent; [done| |done].
  rewrite Forall_forall in Hpool. by apply Hpool, list_elem_of_In.
Qed.

Lemma double_refine_consistent fuel budget target st :
  consistent df st -> consistent df (refine fuel budget target df items_pool st).
Proof using Hpool.
  revert st. induction fuel as [|fuel IH]; simpl; intros st Hc; [done|].
  destruct (_ <? _)%float; [|done].
  destruct (increase_quantity _ _ _ _) as [st1|] eqn:E.
  - apply IH. eapply double_increase_quantity_consistent; [done| |exact E]. by destruct Hc.
  - destruct (add_new_item _ _ _) as [st1|] eqn:N; [|done].
    apply IH. by eapply double_add_new_item_consistent.
Qed.

(** ** Phase 3 of the binary64 engine keeps the state consistent *)

Lemma double_final_step_consistent budget st item :
  consistent df st -> item_ok df item -> consistent df (final_step budget st item).
Proof.
  intros Hc Hok. unfold final_step.
  destruct (st_used st !! item_key item) as [cur|] eqn:E.
  - destruct (cur <? qty item); [|done].
    destruct (_ <=? _)%float; [|done].
    destruct (set_quantity _ _ _ _ _) as [st1|] eqn:S; [|done].
    eapply double_set_quantity_consistent; [done| |exact S].
    by apply double_item_ok_line in Hok.
  - destruct (_ <=? _)%float; [|done].
    apply double_append_item_consistent; [done..|]. unfold not_used. by rewrite E.
Qed.

Lemma double_fold_final_step_consistent budget items st :
  consistent df st -> Forall (item_ok df) items ->
  consistent df (fold_left (final_step budget) items st).
Proof.
  revert st. induction items as [|item items IH]; simpl; intros st Hc Hok; [done|].
  inversion Hok; subst. apply IH; [|done]. by apply double_final_step_consistent.
Qed.

Lemma double_final_fill_consistent budget st :
  consistent df st -> consistent df (final_fill budget items_pool st).
Proof using Hpool.
  intros Hc. unfold final_fill. destruct (_ <? _)%float; [|done].
  apply double_fold_final_step_consistent; [done|].
  unfold small_items. apply double_sorted_by_reverse_ok.
  rewrite Forall_forall in *. intros item Hin. apply Hpool.
  apply list_elem_of_In, filter_In in Hin as [Hin _]. by apply list_elem_of_In.
Qed.
End WithPool.

Lemma double_fill_from_consistent budget : consistent df (fill_from df budget).
Proof.
  unfold fill_from.
  assert (Forall (item_ok df) (build_pool (drop_duplicates df))) as Hpool.
  { rewrite Forall_forall. apply double_pool_item_ok. }
  apply double_final_fill_consistent; [done|].
  apply double_refine_consistent; [done|].
  by apply double_best_of_strategies_consistent.
Qed.
End DoublePhaseInvariants.

Lemma double_create_hamper_cases (data : list InventoryRow) (today : Z) (budget : float)
    (selected_categories selected_inventory selected_status selected_brands : list string)
    (min_days max_days : Z) (box_type : string) :
  let df_filtered :=
    filtered_view data today selected_categories selected_inventory selected_status
                  selected_brands min_days max_days in
  let result :=
    create_hamper data today budget selected_categories selected_inventory selected_status
                  selected_brands min_days max_days box_type in
  (df_filtered = [] /\ result = ([], 0%float)) \/
  (df_filtered <> [] /\
   result = (st_hamper (fill_from df_filtered budget), st_total (fill_from df_filtered budget))).
Proof.
  cbv zeta. unfold create_hamper.
  destruct (filtered_view _ _ _ _ _ _ _ _); [by left|by right].
Qed.
End DoubleInvariants.

(** X23: in binary64 arithmetic too, whatever the comparisons of the rounded
    totals return, the hamper that [create_hamper] returns has at most one
    line per (category, name) key, and every line has a quantity between 1
    and min(available units, 20) of the first row of its key in the filtered
    view. *)
Theorem binary64_hamper_well_formed (data : list Double.InventoryRow) (today : Z)
    (budget : float)
    (selected_categories selected_inventory selected_status selected_brands : list string)
    (min_days max_days : Z) (box_type : string) :
  let df_filtered :=
    Double.filtered_view data today selected_categories selected_inventory selected_status
                         selected_brands min_days max_days in
  let result :=
    Double.create_hamper data today budget selected_categories selected_inventory
                         selected_status selected_brands min_days max_days box_type in
  NoDup (map line_key result.1) /\
  forall c n q,
    (c, n, q) ∈ result.1 ->
    exists row, head (Double.item_match df_filtered c n) = Some row /\
                row ∈ df_filtered /\
                1 <= q <= Z.min (Double.Available_Units row) 20.
Proof.
  intros df_filtered result.
  destruct (double_create_hamper_cases data today budget selected_categories selected_inventory
              selected_status selected_brands min_days max_days box_type) as [[_ Hr]|[_ Hr]];
    fold df_filtered result in Hr; rewrite Hr; simpl.
  - split; [constructor|]. intros c n q Hin. by apply elem_of_nil in Hin.
  - pose proof (double_fill_from_consistent df_filtered budget) as [Hnd _ Hl].
    split; [done|]. intros c n q Hin.
    rewrite Forall_forall in Hl. destruct (Hl _ Hin) as (row & Hrow & Hq).
    exists row. repeat split; [done| |apply Hq..].
    simpl in Hrow. unfold Double.item_match in Hrow.
    destruct (List.filter _ df_filtered) as [|r rs] eqn:E; [done|].
    injection Hrow as ->.
    assert (In row (List.filter
              (fun r => same_key (Double.Category r) (Double.Item_Name r) c n) df_filtered))
      as Hf by (rewrite E; by left).
    apply filter_In in Hf as [Hf _]. by apply list_elem_of_In.
Qed.

(** * Best of the three strategies *)

Section BestOfThree.
Variable budget : Q.

(** What [fold_left keep_best] returns: either the initial state, when no
    result beats it within the budget, or the first result of the largest
    total among those within the budget that beat the initial state. *)
Lemma fold_keep_best_spec (rs : list FillState) (acc : FillState) :
  let res := fold_left (keep_best budget) rs acc in
  (res = acc /\
   forall r, r ∈ rs -> ~ (st_total acc < st_total r /\ st_total r <= budget)%Q)
  \/
  (exists i, rs !! i = Some res /\
     (st_total acc < st_total res)%Q /\ (st_total res <= budget)%Q /\
     forall j r, rs !! j = Some r -> (st_total r <= budget)%Q ->
       (st_total r <= st_total res)%Q /\ ((j < i)%nat -> (st_total r < st_total res)%Q)).
Proof.
  revert acc. induction rs as [|r rs IH]; intros acc; cbn [fold_left]; cbv zeta.
  - left. split; [done|]. intros r Hr. by apply elem_of_nil in Hr.
  - destruct (Qlt_bool (st_total acc) (st_total r) && Qle_bool (st_total r) budget) eqn:E.
    + assert (keep_best budget acc r = r) as -> by (unfold keep_best; by rewrite E).
      apply andb_true_iff in E as [E1 E2].
      apply Qlt_bool_iff in E1. apply Qle_bool_iff in E2.
      right. destruct (IH r) as [[Hres Hnone]|(i & Hi & Hlt & Hle & Hmax)].
      * exists 0%nat. rewrite Hres. split; [done|]. split; [done|]. split; [done|].
        intros [|j] r' Hr' Hb; simpl in Hr'.
        -- injection Hr' as <-. split; [lra|lia].
        -- split; [|lia]. apply list_elem_of_lookup_2 in Hr'.
           destruct (Qlt_le_dec (st_total r) (st_total r')) as [Hlt|Hge]; [|done].
           exfalso. by apply (Hnone r' Hr').
      * exists (S i). split; [done|]. split; [lra|]. split; [done|].
        intros [|j] r' Hr' Hb; simpl in Hr'.
        -- injection Hr' as <-. split; [lra|]. intros _. done.
        -- destruct (Hmax j r' Hr' Hb) as [H1 H2]. split; [done|]. intros ?. apply H2. lia.
    + assert (keep_best budget acc r = acc) as -> by (unfold keep_best; by rewrite E).
      assert (~ (st_total acc < st_total r /\ st_total r <= budget)%Q) as Hno.
      { intros [H1 H2]. apply Qlt_bool_iff in H1. apply Qle_bool_iff in H2.
        rewrite H1, H2 in E. discriminate. }
      destruct (IH acc) as [[Hres Hnone]|(i & Hi & Hlt & Hle & Hmax)].
      * left. split; [done|]. intros r' Hr'.
        apply elem_of_cons in Hr' as [->|Hr']; [done|by apply Hnone].
      * right. exists (S i). split; [done|]. split; [done|]. split; [done|].
        intros [|j] r' Hr' Hb; simpl in Hr'.
        -- injection Hr' as <-.
           assert (st_total r <= st_total acc)%Q.
           { destruct (Qlt_le_dec (st_total acc) (st_total r)); [|done].
             exfalso. by apply Hno. }
           split; [lra|]. intros _. lra.
        -- destruct (Hmax j r' Hr' Hb) as [H1 H2]. split; [done|]. intros ?. apply H2. lia.
Qed.
End BestOfThree.

(** C4 (as amended): the three results are those of the cost-ascending, the
    efficiency and the cost-descending strategy in that order. When no result
    has a total in (0, budget], the chosen result is the empty hamper with
    total zero; otherwise it is the first result, in declaration order, of
    the largest total among those with a total in (0, budget]. *)
Theorem best_of_strategies_spec (budget : Q) (items_pool : list PoolItem) :
  let results := strategy_results budget items_pool in
  let chosen := best_of_strategies budget items_pool in
  results = [ run_strategy cost_ascending budget (sorted_by total_cost items_pool);
              run_strategy efficiency budget (sorted_by cost_per_unit items_pool);
              run_strategy cost_descending budget (sorted_by_reverse total_cost items_pool) ]
  /\
  ((forall r, r ∈ results -> ~ (0 < st_total r /\ st_total r <= budget)%Q) ->
   chosen = empty_fill)
  /\
  ((exists r, r ∈ results /\ (0 < st_total r)%Q /\ (st_total r <= budget)%Q) ->
   exists i, results !! i = Some chosen /\
     (0 < st_total chosen)%Q /\ (st_total chosen <= budget)%Q /\
     forall j r, results !! j = Some r -> (st_total r <= budget)%Q ->
       (st_total r <= st_total chosen)%Q /\
       ((j < i)%nat -> (st_total r < st_total chosen)%Q)).
Proof.
  intros results chosen. split; [reflexivity|].
  pose proof (fold_keep_best_spec budget results empty_fill) as H.
  fold (best_of_strategies budget items_pool) in H. fold chosen in H. simpl in H.
  split.
  - intros Hnone. destruct H as [[Hres _]|(i & Hi & Hlt & Hle & _)]; [done|].
    exfalso. apply list_elem_of_lookup_2 in Hi. by apply (Hnone _ Hi).
  - intros (r & Hr & Hpos & Hle). destruct H as [[_ Hnone]|H]; [|done].
    exfalso. by apply (Hnone r Hr).
Qed.

(** C4, the claim as stated fails: with a free item (price 0) every strategy
    returns a non-empty hamper of total 0, within the budget, yet the chosen
    result is the empty hamper, which is none of the three results. *)
Lemma best_of_strategies_free_item_counterexample :
  let items_pool := build_pool (drop_duplicates free_item) in
  let results := strategy_results 100 items_pool in
  let chosen := best_of_strategies 100 items_pool in
  Forall (fun r => (st_total r <= 100)%Q /\ st_hamper r = [("Snacks", "Sample", 1)]%string)
         results /\
  st_hamper chosen = [] /\
  ~ (exists r, r ∈ results /\ st_hamper chosen = st_hamper r).
Proof.
  assert (Forall (fun r => (st_total r <= 100)%Q /\
                           st_hamper r = [("Snacks", "Sample", 1)]%string)
                 (strategy_results 100 (build_pool (drop_duplicates free_item)))) as Hall.
  { repeat constructor; vm_compute; congruence. }
  assert (st_hamper (best_of_strategies 100 (build_pool (drop_duplicates free_item))) = [])
    as Hchosen by (vm_compute; reflexivity).
  cbv zeta. split; [done|]. split; [done|].
  intros (r & Hr & Heq). rewrite Forall_forall in Hall.
  destruct (Hall r Hr) as [_ Hh]. rewrite Hchosen, Hh in Heq. discriminate.
Qed.

(** * One step of a strategy pass *)

Lemma skip_item_false used item :
  skip_item used item = false <-> (forall q, used !! item_key item = Some q -> q < qty item).
Proof.
  unfold skip_item. destruct (used !! item_key item) as [q0|].
  - rewrite Z.leb_gt. split.
    + intros H q [= <-]. done.
    + intros H. by apply H.
  - split; [intros _ q Hq; discriminate|done].
Qed.

Lemma accept_item_changes st item :
  (forall q, st_used st !! item_key item = Some q -> q < qty item) ->
  accept_item st item <> st.
Proof.
  intros Hq Heq. apply (f_equal (fun s => st_used s !! item_key item)) in Heq.
  unfold accept_item in Heq. simpl in Heq. rewrite lookup_insert_eq in Heq.
  symmetry in Heq. apply Hq in Heq. lia.
Qed.

Lemma accept_item_lines df st item :
  consistent df st ->
  forall l, l ∈ st_hamper (accept_item st item) <->
            l = item_line item \/ (l ∈ st_hamper st /\ line_key l <> item_key item).
Proof.
  intros Hc l. pose proof (consistent_key_in df st (category item) (name item) Hc) as Hin.
  unfold accept_item, item_key, item_line in *.
  destruct (st_used st !! (category item, name item)) as [q0|] eqn:E.
  - assert ((category item, name item) ∈ map line_key (st_hamper st)) as Hk
      by (apply Hin; eauto).
    apply key_split in Hk as (h1 & q1 & h2 & Hsplit & _).
    destruct (split_fresh df st _ _ q1 h1 h2 Hc Hsplit) as (Hf1 & Hf2 & _).
    rewrite Hsplit, pop_line_split by done. simpl.
    rewrite !elem_of_app, list_elem_of_singleton, elem_of_cons.
    assert (forall h, (category item, name item) ∉ map line_key h -> l ∈ h ->
                      line_key l <> (category item, name item)) as Hother.
    { intros h Hh Hl Heq. apply Hh. rewrite <- Heq. apply list_elem_of_fmap. by exists l. }
    split.
    + intros [[H|H]|H]; [right; split; [tauto|exact (Hother h1 Hf1 H)]
                        |right; split; [tauto|exact (Hother h2 Hf2 H)]
                        |by left].
    + intros [H|[[H|[H|H]] Hne]]; [tauto|tauto| |tauto].
      subst l. by destruct Hne.
  - simpl. rewrite elem_of_app, list_elem_of_singleton. split.
    + intros [H|H]; [right|by left]. split; [done|]. intros Heq.
      assert (is_Some (None : option Z)) as [? ?]; [|done].
      apply Hin. rewrite <- Heq. apply list_elem_of_fmap. by exists l.
    + intros [H|[H _]]; tauto.
Qed.

(** C3 (as amended): in each strategy pass an entry is accepted if and only
    if no line of its key is already chosen with an equal or larger quantity
    and the running total plus the entry's line cost, computed before the
    old line of that key is removed, is within the ceiling: the budget for
    cost-ascending and efficiency, 1.02 times the budget for cost-descending.
    An accepted entry records its quantity for the key, takes the last place
    of the hamper and, in a consistent state, leaves the other keys' lines as
    they were and no other line of its own key. *)
Theorem strategy_step_accepts (strategy_name : Strategy) (budget : Q)
    (st : FillState) (item : PoolItem) :
  let st' := strategy_step strategy_name budget st item in
  budget_limit cost_ascending budget = budget /\
  budget_limit efficiency budget = budget /\
  budget_limit cost_descending budget = (budget * (102 # 100))%Q /\
  (fits strategy_name budget st item <-> st' <> st) /\
  (fits strategy_name budget st item ->
     st' = accept_item st item /\
     st_used st' !! item_key item = Some (qty item) /\
     last (st_hamper st') = Some (item_line item) /\
     forall df, consistent df st ->
       forall l, l ∈ st_hamper st' <->
                 l = item_line item \/ (l ∈ st_hamper st /\ line_key l <> item_key item)).
Proof.
  intros st'. do 3 (split; [reflexivity|]).
  assert (fits strategy_name budget st item -> st' = accept_item st item) as Hacc.
  { intros [Hq Hle]. unfold st', strategy_step.
    apply skip_item_false in Hq as ->. apply Qle_bool_iff in Hle. by rewrite Hle. }
  split; [split|].
  - intros Hf. rewrite (Hacc Hf). apply accept_item_changes. by destruct Hf.
  - intros Hne. unfold st', strategy_step in Hne.
    destruct (skip_item (st_used st) item) eqn:S; [done|].
    destruct (Qle_bool _ _) eqn:L; [|done].
    split; [by apply skip_item_false|by apply Qle_bool_iff].
  - intros Hf. rewrite (Hacc Hf). split; [done|]. split; [|split].
    + unfold accept_item. simpl. apply lookup_insert_eq.
    + unfold accept_item. simpl. apply last_snoc.
    + intros df Hc. by apply (accept_item_lines df).
Qed.

(** C3, the claim as stated fails twice on the single item of price 100.
    In the cost-ascending pass at budget 250, once quantity 1 is chosen the
    entry for quantity 2 would bring the total to 200 after the old line is
    removed, within the ceiling, yet it is not accepted. In the
    cost-descending pass, once quantity 2 is chosen the entry for quantity 1
    would bring the total to 100, yet it is skipped. *)
Lemma strategy_step_hypothetical_counterexample :
  let q1 := mkItem "Snacks" "Chips" 100 1 100 5 100 in
  let q2 := mkItem "Snacks" "Chips" 100 2 200 5 100 in
  let after_q1 := run_strategy cost_ascending 250 [q1] in
  let after_q2 := run_strategy cost_descending 250 [q2] in
  (q1 ∈ build_pool (drop_duplicates one_item) /\ q2 ∈ build_pool (drop_duplicates one_item)) /\
  ((hypothetical_total after_q1 q2 <= budget_limit cost_ascending 250)%Q /\
   strategy_step cost_ascending 250 after_q1 q2 = after_q1 /\
   st_hamper after_q1 = [("Snacks", "Chips", 1)]%string) /\
  ((hypothetical_total after_q2 q1 <= budget_limit cost_descending 250)%Q /\
   strategy_step cost_descending 250 after_q2 q1 = after_q2 /\
   st_hamper after_q2 = [("Snacks", "Chips", 2)]%string).
Proof.
  cbv zeta. repeat split; try (vm_compute; congruence).
  - vm_compute. left.
  - vm_compute. right. left.
Qed.

(** * The sorts by key *)

Lemma StronglySorted_weaken {A} (R1 R2 : A -> A -> Prop) (l : list A) :
  (forall x y, R1 x y -> R2 x y) -> StronglySorted R1 l -> StronglySorted R2 l.
Proof.
  intros HR. induction 1 as [|x l Hs IH Hx]; constructor; [done|].
  eapply Forall_impl; [exact Hx|]. intros y. apply HR.
Qed.

Lemma StronglySorted_app_le {A} (R : A -> A -> Prop) (l1 l2 : list A) :
  StronglySorted R (l1 ++ l2) -> forall a b, a ∈ l1 -> b ∈ l2 -> R a b.
Proof.
  induction l1 as [|x l1 IH]; simpl; intros Hs a b Ha Hb; [by apply elem_of_nil in Ha|].
  apply StronglySorted_inv in Hs as [Hs Hx].
  apply elem_of_cons in Ha as [->|Ha]; [|by apply IH].
  rewrite Forall_forall in Hx. apply Hx, elem_of_app. by right.
Qed.

Section SortByKey.
Context {A : Type}.
Variable key : A -> Q.

Lemma Qle_bool_total (a b : Q) : Qle_bool a b = false -> Qle_bool b a = true.
Proof. intros H. apply Qle_bool_false in H. apply Qle_bool_iff. lra. Qed.

Lemma Qle_bool_trans (a b c : Q) :
  Qle_bool a b = true -> Qle_bool b c = true -> Qle_bool a c = true.
Proof. rewrite !Qle_bool_iff. lra. Qed.

Lemma Qeq_bool_le (a b : Q) : Qeq_bool a b = Qle_bool a b && Qle_bool b a.
Proof.
  destruct (Qeq_bool a b) eqn:E.
  - apply Qeq_bool_iff in E. symmetry. apply andb_true_iff.
    rewrite !Qle_bool_iff. lra.
  - destruct (Qle_bool a b) eqn:E1, (Qle_bool b a) eqn:E2; try reflexivity.
    apply Qle_bool_iff in E1, E2.
    assert (Qeq_bool a b = true) by (apply Qeq_bool_iff; lra). congruence.
Qed.

Lemma sorted_by_perm (l : list A) : Permutation (sorted_by key l) l.
Proof. apply stable_sort_perm. Qed.

Lemma sorted_by_reverse_perm (l : list A) : Permutation (sorted_by_reverse key l) l.
Proof. apply stable_sort_perm. Qed.

Lemma sorted_by_ascending (l : list A) :
  StronglySorted (fun a b => (key a <= key b)%Q) (sorted_by key l).
Proof.
  eapply StronglySorted_weaken; [|apply stable_sort_sorted].
  - intros x y. apply Qle_bool_iff.
  - intros x y. apply Qle_bool_total.
  - intros x y z. apply Qle_bool_trans.
Qed.

Lemma sorted_by_reverse_descending (l : list A) :
  StronglySorted (fun a b => (key b <= key a)%Q) (sorted_by_reverse key l).
Proof.
  eapply StronglySorted_weaken; [|apply stable_sort_sorted].
  - intros x y. apply Qle_bool_iff.
  - intros x y. apply Qle_bool_total.
  - intros x y z H1 H2. by apply (Qle_bool_trans _ (key y)).
Qed.


Lemma sorted_by_reverse_stable (x : A) (l : list A) :
  List.filter (fun y => Qeq_bool (key y) (key x)) (sorted_by_reverse key l) =
  List.filter (fun y => Qeq_bool (key y) (key x)) l.
Proof.
  pose proof (stable_sort_stable (fun a b => Qle_bool (key b) (key a))) as H.
  unfold equivb in H.
  rewrite !(filter_ext (fun y => Qeq_bool (key y) (key x))
                       (fun y => Qle_bool (key y) (key x) && Qle_bool (key x) (key y))).
  - apply H. intros a b c H1 H2. by apply (Qle_bool_trans _ (key b)).
  - intros y. apply Qeq_bool_le.
  - intros y. apply Qeq_bool_le.
Qed.
End SortByKey.

(** * The candidates of the final fill *)

Lemma before_final_fill_consistent df budget : consistent df (before_final_fill df budget).
Proof.
  unfold before_final_fill. apply refine_consistent.
  - rewrite Forall_forall. apply pool_item_ok.
  - apply best_of_strategies_consistent. rewrite Forall_forall. apply pool_item_ok.
Qed.

Lemma fill_from_final df budget :
  fill_from df budget =
  final_fill budget (build_pool (drop_duplicates df)) (before_final_fill df budget).
Proof. unfold fill_from, before_final_fill. reflexivity. Qed.

Lemma small_item_iff df st R item :
  consistent df st ->
  small_item R (st_used st) item = true <->
  (total_cost item <= R)%Q /\
  (item_key item ∉ map line_key (st_hamper st) \/
   exists q, (category item, name item, q) ∈ st_hamper st /\ q < qty item /\
             (mrp item * inject_Z (qty item - q) <= R)%Q).
Proof.
  intros Hc. pose proof (consistent_key_in df st (category item) (name item) Hc) as Hin.
  unfold small_item, item_key in *. rewrite andb_true_iff, Qle_bool_iff.
  destruct (st_used st !! (category item, name item)) as [q0|] eqn:E.
  - rewrite andb_true_iff, Z.ltb_lt, Qle_bool_iff.
    apply (cons_used df st Hc) in E. split.
    + intros [H1 [H2 H3]]. split; [done|]. right. by exists q0.
    + intros [H1 [H2|(q & Hq & H2 & H3)]].
      * exfalso. apply H2, Hin. eauto.
      * apply (cons_used df st Hc) in Hq, E. assert (q = q0) as -> by congruence. done.
  - split; [|tauto]. intros [H1 _]. split; [done|]. left.
    intros H. apply Hin in H as [? ?]. done.
Qed.

(** C5 (as amended): when the remaining budget R = budget - total is
    positive, the final fill sweeps once over the candidate list, which
    holds exactly the pool entries with line cost at most R that are either
    for a key not in the hamper, or for a key in the hamper with a strictly
    larger quantity and an incremental cost at most R; the list is in
    descending line cost, entries of equal line cost in pool order. *)
Theorem final_fill_candidates (df : list InventoryRow) (budget : Q)
    (items_pool : list PoolItem) (st : FillState) :
  consistent df st ->
  (0 < budget - st_total st)%Q ->
  let R := (budget - st_total st)%Q in
  let candidates := small_items R items_pool (st_used st) in
  final_fill budget items_pool st = fold_left (final_step budget) candidates st /\
  (forall item, item ∈ candidates <->
     item ∈ items_pool /\ (total_cost item <= R)%Q /\
     (item_key item ∉ map line_key (st_hamper st) \/
      exists q, (category item, name item, q) ∈ st_hamper st /\ q < qty item /\
                (mrp item * inject_Z (qty item - q) <= R)%Q)) /\
  StronglySorted (fun a b => (total_cost b <= total_cost a)%Q) candidates /\
  (forall x, List.filter (fun y => Qeq_bool (total_cost y) (total_cost x)) candidates =
             List.filter (fun y => Qeq_bool (total_cost y) (total_cost x))
                         (List.filter (small_item R (st_used st)) items_pool)).
Proof.
  intros Hc HR R candidates. split; [|split; [|split]].
  - unfold final_fill. fold R. apply Qlt_bool_iff in HR. fold R in HR. by rewrite HR.
  - intros item. unfold candidates, small_items, sorted_by_reverse.
    rewrite elem_of_stable_sort, list_elem_of_In, filter_In, <- list_elem_of_In.
    by rewrite (small_item_iff df st R item Hc).
  - apply sorted_by_reverse_descending.
  - intros x. apply sorted_by_reverse_stable.
Qed.

Lemma final_fill_candidates_witness :
  let st := before_final_fill six_items 100 in
  (0 < 100 - st_total st)%Q /\
  final_fill 100 (build_pool (drop_duplicates six_items)) st =
  fold_left (final_step 100)
            (small_items (100 - st_total st) (build_pool (drop_duplicates six_items))
                         (st_used st)) st.
Proof.
  cbv zeta. split; [by vm_compute|].
  apply (final_fill_candidates six_items 100 (build_pool (drop_duplicates six_items))
                               (before_final_fill six_items 100)).
  - apply before_final_fill_consistent.
  - by vm_compute.
Defined.

(** C5, the claim as stated fails: with six items at price 1 and budget 100
    the refinement stops at total 99 with 14 units of Energy Bar chosen. The
    entry for 15 units has an incremental cost of 1, within the remaining 1,
    so the claim puts it in the candidate list; its line cost 15 is above
    the remaining budget, and the list of the code is empty. *)
Lemma final_fill_candidates_counterexample :
  let items_pool := build_pool (drop_duplicates six_items) in
  let st := before_final_fill six_items 100 in
  let R := (100 - st_total st)%Q in
  let item := mkItem "Snacks" "Energy Bar" 1 15 15 20 1 in
  (0 < R)%Q /\ item ∈ items_pool /\
  ("Snacks", "Energy Bar", 14)%string ∈ st_hamper st /\ 14 < qty item /\
  (mrp item * inject_Z (qty item - 14) <= R)%Q /\
  small_items R items_pool (st_used st) = [] /\
  fill_from six_items 100 = st.
Proof.
  cbv zeta.
  assert (st_hamper (before_final_fill six_items 100) =
          [("Snacks", "Almonds", 20); ("Snacks", "Biscuits", 20); ("Snacks", "Cashews", 20);
           ("Snacks", "Dates", 20); ("Snacks", "Energy Bar", 14); ("Snacks", "Figs", 5)]%string)
    as Hh by (vm_compute; reflexivity).
  assert (small_items (100 - st_total (before_final_fill six_items 100))
                      (build_pool (drop_duplicates six_items))
                      (st_used (before_final_fill six_items 100)) = []) as Hs
    by (vm_compute; reflexivity).
  assert (0 < 100 - st_total (before_final_fill six_items 100))%Q as HR by (by vm_compute).
  split; [exact HR|].
  split.
  { apply list_elem_of_In. unfold build_pool. apply in_flat_map.
    exists (mkRow "Snacks" "Energy Bar" 1 20 30 "Any" "Any" "Any").
    split; vm_compute; tauto. }
  split; [rewrite Hh; apply list_elem_of_In; simpl; tauto|].
  split; [simpl; lia|].
  split; [vm_compute; discriminate|].
  split; [exact Hs|].
  rewrite fill_from_final. unfold final_fill.
  apply Qlt_bool_iff in HR. rewrite HR, Hs. reflexivity.
Qed.

(** * A view with a single item *)

Section SingleKey.
Variables c n : string.
Variables (price : Q) (cap : Z).

Lemma strategy_step_single s budget a q :
  strategy_step s budget (single_state c n a) (entry c n price cap q) =
  single_state c n (single_step price (budget_limit s budget) a q).
Proof.
  unfold strategy_step, skip_item, accept_item, item_key.
  destruct a as [[q0 t]|]; cbn [single_state single_step entry category name qty total_cost mrp
                                st_used st_total st_hamper empty_fill].
  - rewrite lookup_insert_eq. destruct (q <=? q0); [done|].
    destruct (Qle_bool _ _); [|done].
    cbn [pop_line]. rewrite same_key_refl. cbn [fst snd app].
    by rewrite insert_insert_eq.
  - rewrite lookup_empty. destruct (Qle_bool _ _); [|done]. done.
Qed.

Lemma run_strategy_single s budget qs :
  run_strategy s budget (map (entry c n price cap) qs) =
  single_state c n (fold_left (single_step price (budget_limit s budget)) qs None).
Proof.
  unfold run_strategy. change empty_fill with (single_state c n None).
  generalize (@None (Z * Q)). induction qs as [|q qs IH]; intros a; [done|].
  cbn [map fold_left]. by rewrite strategy_step_single, IH.
Qed.

Lemma try_quantities_none st cur remaining qtys :
  Forall (fun q => Qle_bool (price * inject_Z (q - cur)) remaining = false) qtys ->
  try_quantities st c n cur price remaining qtys = None.
Proof. induction 1 as [|q qtys Hq _ IH]; [done|]. cbn [try_quantities]. by rewrite Hq. Qed.

Lemma add_new_item_single qs remaining q t :
  add_new_item (map (entry c n price cap) qs) remaining (single_state c n (Some (q, t))) = None.
Proof.
  unfold add_new_item.
  assert (List.filter
            (fun item => not_used (st_used (single_state c n (Some (q, t)))) item &&
                         Qle_bool (total_cost item) remaining)
            (map (entry c n price cap) qs) = []) as ->; [|done].
  induction qs as [|q' qs IH]; [done|]. cbn [map List.filter].
  unfold not_used at 1, item_key. cbn [entry category name single_state st_used].
  by rewrite lookup_insert_eq.
Qed.

Lemma small_items_none final_budget items_pool used_items :
  Forall (fun item => Qle_bool (total_cost item) final_budget = false) items_pool ->
  small_items final_budget items_pool used_items = [].
Proof.
  intros H. unfold small_items.
  assert (List.filter (small_item final_budget used_items) items_pool = []) as ->; [|done].
  induction H as [|item items Hi _ IH]; [done|]. cbn [List.filter].
  unfold small_item at 1. by rewrite Hi.
Qed.
End SingleKey.

Section SingleItem.
Variables c n b i s : string.
Variable e : Z.

Lemma single_pool :
  build_pool (drop_duplicates [scenario_row c n b i s e]) = scenario_pool c n.
Proof. reflexivity. Qed.

Lemma single_strategy_results :
  strategy_results 250 (scenario_pool c n) =
  [ single_state c n (Some (1, 100%Q)); single_state c n (Some (1, 100%Q));
    single_state c n (Some (2, 200%Q)) ].
Proof.
  change (strategy_results 250 (scenario_pool c n)) with
    [ run_strategy cost_ascending 250 (sorted_by total_cost (scenario_pool c n));
      run_strategy efficiency 250 (sorted_by cost_per_unit (scenario_pool c n));
      run_strategy cost_descending 250 (sorted_by_reverse total_cost (scenario_pool c n)) ].
  assert (sorted_by total_cost (scenario_pool c n) = map (entry c n 100 5) [1; 2; 3; 4; 5])
    as -> by (vm_compute; reflexivity).
  assert (sorted_by cost_per_unit (scenario_pool c n) = map (entry c n 100 5) [1; 2; 3; 4; 5])
    as -> by (vm_compute; reflexivity).
  assert (sorted_by_reverse total_cost (scenario_pool c n)
          = map (entry c n 100 5) [5; 4; 3; 2; 1])
    as -> by (vm_compute; reflexivity).
  rewrite !run_strategy_single.
  repeat f_equal; vm_compute; reflexivity.
Qed.

Lemma single_best :
  best_of_strategies 250 (scenario_pool c n) = single_state c n (Some (2, 200%Q)).
Proof.
  unfold best_of_strategies. rewrite single_strategy_results.
  reflexivity.
Qed.

Lemma single_refine :
  refine max_iterations 250 (250 * (99 # 100)) [scenario_row c n b i s e] (scenario_pool c n)
         (single_state c n (Some (2, 200%Q))) =
  single_state c n (Some (2, 200%Q)).
Proof.
  unfold scenario_row, scenario_pool.
  assert (max_iterations = S 99) as -> by reflexivity. rewrite refine_step.
  cbn [single_state st_total st_hamper increase_quantity].
  assert (Qlt_bool 200 (250 * (99 # 100)) = true) as -> by reflexivity.
  assert (item_match [mkRow c n 100 5 e b i s] c n = [mkRow c n 100 5 e b i s]) as ->
    by (unfold item_match; cbn [List.filter Category Item_Name];
        by rewrite same_key_refl).
  rewrite try_quantities_none by (repeat constructor).
  fold (single_state c n (Some (2, 200%Q))).
  by rewrite add_new_item_single.
Qed.

Lemma single_final_fill :
  final_fill 250 (scenario_pool c n) (single_state c n (Some (2, 200%Q))) =
  single_state c n (Some (2, 200%Q)).
Proof.
  unfold final_fill. cbn [single_state st_total st_used].
  assert (Qlt_bool 0 (250 - 200) = true) as -> by reflexivity.
  rewrite small_items_none; [done|]. repeat constructor.
Qed.

Lemma fill_from_single :
  fill_from [scenario_row c n b i s e] 250 = single_state c n (Some (2, 200%Q)).
Proof.
  unfold fill_from. rewrite single_pool, single_best, single_refine.
  apply single_final_fill.
Qed.
End SingleItem.

(** C6: when the filtered view holds exactly one item, of unit price 100 with
    5 available units, [create_hamper] at budget 250 returns the single line
    of that item at quantity 2 and the total 200. *)
Theorem create_hamper_single_item (data : list InventoryRow) (today : Z)
    (selected_categories selected_inventory selected_status selected_brands : list string)
    (min_days max_days : Z) (box_type : string) (row : InventoryRow) :
  filtered_view data today selected_categories selected_inventory selected_status
                selected_brands min_days max_days = [row] ->
  MRP row = 100%Q -> Available_Units row = 5 ->
  create_hamper data today 250 selected_categories selected_inventory selected_status
                selected_brands min_days max_days box_type =
  ([(Category row, Item_Name row, 2)], 200%Q).
Proof.
  intros Hview Hprice Hunits. unfold create_hamper. rewrite Hview.
  destruct row as [c n p a e b i s]. simpl in Hprice, Hunits. subst p a.
  change (mkRow c n 100 5 e b i s) with (scenario_row c n b i s e).
  by rewrite fill_from_single.
Qed.

Lemma create_hamper_single_item_witness :
  create_hamper one_item 0 250 ["Snacks"%string] any_tag any_tag any_tag 0 60 "Gift Box" =
  ([("Snacks", "Chips", 2)]%string, 200%Q).
Proof.
  apply (create_hamper_single_item one_item 0 ["Snacks"%string] any_tag any_tag any_tag 0 60
                                   "Gift Box" (mkRow "Snacks" "Chips" 100 5 30 "Any" "Any" "Any"));
    reflexivity.
Defined.

(** * The replacement engine *)

Lemma isin_iff (x : string) (selected : list string) : isin x selected = true <-> x ∈ selected.
Proof.
  unfold isin. rewrite existsb_exists. split.
  - intros (y & Hy & E). apply String.eqb_eq in E. subst. by apply list_elem_of_In.
  - intros H. exists x. split; [by apply list_elem_of_In|apply String.eqb_refl].
Qed.

Lemma is_within_expiry_iff (today expiry_date min_days max_days : Z) :
  is_within_expiry today expiry_date min_days max_days = true <->
  min_days <= expiry_date - today <= max_days.
Proof. unfold is_within_expiry. rewrite andb_true_iff, !Z.leb_le. tauto. Qed.

Lemma replacement_row_iff today category current_item selected_inventory selected_status
    selected_brands min_days max_days r :
  replacement_row today category current_item selected_inventory selected_status
                  selected_brands min_days max_days r = true <->
  Category r = category /\ Item_Name r <> current_item /\
  Inventory_Holding r ∈ selected_inventory /\ Product_Status r ∈ selected_status /\
  Brand_Name r ∈ selected_brands /\
  min_days <= Expiry_Date r - today <= max_days.
Proof.
  unfold replacement_row.
  rewrite !andb_true_iff, negb_true_iff, !isin_iff, is_within_expiry_iff, String.eqb_eq.
  rewrite <- not_true_iff_false, String.eqb_eq. tauto.
Qed.

Lemma filter_none {A} (f : A -> bool) (l : list A) :
  (forall x, x ∈ l -> f x = false) -> List.filter f l = [].
Proof.
  induction l as [|x l IH]; intros H; [done|]. simpl.
  rewrite (H x) by (by left). apply IH. intros y Hy. apply H. by right.
Qed.

Lemma elem_of_firstn {A} (x : A) (k : nat) (l : list A) : x ∈ firstn k l -> x ∈ l.
Proof.
  intros H. apply elem_of_take in H as (i & Hi & _). by eapply list_elem_of_lookup_2.
Qed.

Lemma StronglySorted_firstn {A} (R : A -> A -> Prop) (k : nat) (l : list A) :
  StronglySorted R l -> StronglySorted R (firstn k l).
Proof.
  intros H. revert k. induction H as [|x l Hs IH Hx]; intros [|k]; simpl; try constructor.
  - apply IH.
  - rewrite Forall_forall in Hx. rewrite Forall_forall.
    intros y Hy. apply Hx. by eapply elem_of_firstn.
Qed.

Lemma StronglySorted_map {A B} (R : B -> B -> Prop) (f : A -> B) (l : list A) :
  StronglySorted (fun a b => R (f a) (f b)) l -> StronglySorted R (map f l).
Proof.
  induction 1 as [|x l Hs IH Hx]; simpl; constructor; [done|].
  rewrite Forall_forall in Hx. rewrite Forall_forall. intros y Hy.
  apply list_elem_of_In, in_map_iff in Hy as (a & <- & Ha). by apply Hx, list_elem_of_In.
Qed.

(** C7: the suggestions never name the excluded item, are at most 7, are in
    ascending unit price, each come from a row of the requested category
    that passes the inventory-holding, status, brand and expiry-window
    filters, and are the empty list, not an error, when no row qualifies.
    The sort behind [sort_values] is any function that returns its input
    rearranged in ascending price. *)
Theorem get_replacement_suggestions_spec
    (sort_values : list InventoryRow -> list InventoryRow) (strftime : Z -> string)
    (data : list InventoryRow) (today : Z) (category current_item : string)
    (selected_inventory selected_status selected_brands : list string) (min_days max_days : Z) :
  (forall l, Permutation (sort_values l) l) ->
  (forall l, StronglySorted (fun a b => (MRP a <= MRP b)%Q) (sort_values l)) ->
  let suggestions :=
    get_replacement_suggestions sort_values strftime data today category current_item
                                selected_inventory selected_status selected_brands
                                min_days max_days in
  (forall s, s ∈ suggestions -> Suggestion.name s <> current_item) /\
  (length suggestions <= 7)%nat /\
  StronglySorted (fun a b => (Suggestion.mrp a <= Suggestion.mrp b)%Q) suggestions /\
  (forall s, s ∈ suggestions ->
     exists row, row ∈ data /\ s = suggestion_of strftime row /\
       Category row = category /\ Item_Name row <> current_item /\
       Inventory_Holding row ∈ selected_inventory /\ Product_Status row ∈ selected_status /\
       Brand_Name row ∈ selected_brands /\
       min_days <= Expiry_Date row - today <= max_days) /\
  ((forall row, row ∈ data ->
      replacement_row today category current_item selected_inventory selected_status
                      selected_brands min_days max_days row = false) ->
   suggestions = []).
Proof.
  intros Hperm Hsorted suggestions.
  set (keep := replacement_row today category current_item selected_inventory selected_status
                               selected_brands min_days max_days).
  assert (forall s, s ∈ suggestions ->
            exists row, row ∈ data /\ s = suggestion_of strftime row /\ keep row = true) as Hrows.
  { intros s Hs. unfold suggestions, get_replacement_suggestions in Hs.
    apply list_elem_of_In, in_map_iff in Hs as (row & <- & Hrow).
    apply list_elem_of_In, elem_of_firstn in Hrow.
    rewrite (Hperm _) in Hrow. apply list_elem_of_In, filter_In in Hrow as [Hin Hk].
    exists row. split; [by apply list_elem_of_In|done]. }
  split; [|split; [|split; [|split]]].
  - intros s Hs. destruct (Hrows s Hs) as (row & _ & -> & Hk).
    apply replacement_row_iff in Hk. simpl. tauto.
  - unfold suggestions, get_replacement_suggestions. rewrite length_map.
    apply firstn_le_length.
  - unfold suggestions, get_replacement_suggestions.
    apply StronglySorted_map, StronglySorted_firstn. simpl. apply Hsorted.
  - intros s Hs. destruct (Hrows s Hs) as (row & Hin & -> & Hk).
    apply replacement_row_iff in Hk. exists row. tauto.
  - intros Hnone. unfold suggestions, get_replacement_suggestions. fold keep.
    rewrite (filter_none keep data Hnone).
    pose proof (Hperm []) as Hnil. symmetry in Hnil.
    apply Permutation_nil in Hnil. by rewrite Hnil.
Qed.

Lemma get_replacement_suggestions_spec_witness :
  (length (get_replacement_suggestions (sorted_by MRP) (fun _ => "01-Jan-2027"%string)
             three_items 0 "Snacks" "Chips" any_tag any_tag any_tag 0 60) <= 7)%nat.
Proof.
  apply (get_replacement_suggestions_spec (sorted_by MRP) (fun _ => "01-Jan-2027"%string)
           three_items 0 "Snacks" "Chips" any_tag any_tag any_tag 0 60).
  - intros l. apply sorted_by_perm.
  - intros l. apply sorted_by_ascending.
Defined.

(** * The sorts and the order of the results *)

Section StableOrderUnique.
Context {A : Type}.
Variable le : A -> A -> bool.
Hypothesis le_refl : forall x, le x x = true.



End StableOrderUnique.

Section KeyOrder.
Context {A : Type}.
Variable key : A -> Q.





End KeyOrder.






(** * Further properties of the candidate generator *)

Lemma item_match_head_key df c n row :
  head (item_match df c n) = Some row -> Category row = c /\ Item_Name row = n /\ row ∈ df.
Proof.
  unfold item_match. intros H.
  destruct (List.filter _ df) as [|r rs] eqn:E; [done|]. injection H as ->.
  assert (In row (List.filter (fun r => same_key (Category r) (Item_Name r) c n) df)) as Hf
    by (rewrite E; by left).
  apply filter_In in Hf as [Hin Hk]. apply same_key_iff in Hk as [= -> ->].
  split; [done|]. split; [done|]. by apply list_elem_of_In.
Qed.

Lemma drop_duplicates_from_keeps seen rows r :
  existsb (key_eqb (row_key r)) seen = false ->
  head (item_match rows (Category r) (Item_Name r)) = Some r ->
  r ∈ drop_duplicates_from seen rows.
Proof.
  revert seen. induction rows as [|r0 rest IH]; intros seen Hseen; simpl; [done|].
  destruct (same_key (Category r0) (Item_Name r0) (Category r) (Item_Name r)) eqn:K.
  - simpl. intros [= ->]. rewrite Hseen. by left.
  - intros Hhead. destruct (existsb (key_eqb (row_key r0)) seen) eqn:E.
    + by apply IH.
    + right. apply IH; [|done]. simpl. rewrite Hseen, orb_false_r.
      destruct (key_eqb (row_key r) (row_key r0)) eqn:K'; [|done].
      apply key_eqb_iff in K'. apply same_key_false in K. exfalso. apply K.
      symmetry. exact K'.
Qed.

Lemma drop_duplicates_from_nodup seen rows :
  NoDup (map row_key (drop_duplicates_from seen rows)).
Proof.
  revert seen. induction rows as [|r0 rest IH]; intros seen; simpl; [constructor|].
  destruct (existsb (key_eqb (row_key r0)) seen) eqn:E; [apply IH|].
  simpl. constructor; [|apply IH].
  intros Hin. apply list_elem_of_fmap in Hin as (r & Hk & Hr).
  apply drop_duplicates_from_first in Hr as [Hs _]. simpl in Hs.
  apply orb_false_iff in Hs as [Hs _].
  assert (key_eqb (row_key r) (row_key r0) = true) by (by apply key_eqb_iff).
  congruence.
Qed.

Lemma drop_duplicates_from_sublist seen rows :
  sublist (drop_duplicates_from seen rows) rows.
Proof.
  revert seen. induction rows as [|r0 rest IH]; intros seen; simpl; [constructor|].
  destruct (existsb _ seen); [apply sublist_cons|apply sublist_skip]; apply IH.
Qed.

(** X1: [drop_duplicates] keeps exactly the first row of every
    (category, name) key: the rows it returns have distinct keys, appear in
    the order of the input, are the first rows of their keys, and every key
    of the input is still there. *)
Theorem drop_duplicates_first_rows (rows : list InventoryRow) :
  NoDup (map row_key (drop_duplicates rows)) /\
  sublist (drop_duplicates rows) rows /\
  (forall r, r ∈ drop_duplicates rows <->
             head (item_match rows (Category r) (Item_Name r)) = Some r) /\
  (forall r, r ∈ rows -> row_key r ∈ map row_key (drop_duplicates rows)).
Proof.
  split; [apply drop_duplicates_from_nodup|].
  split; [apply drop_duplicates_from_sublist|].
  assert (forall r, r ∈ drop_duplicates rows <->
                    head (item_match rows (Category r) (Item_Name r)) = Some r) as Hiff.
  { intros r. split.
    - intros H. by apply drop_duplicates_from_first in H as [_ H].
    - intros H. by apply drop_duplicates_from_keeps. }
  split; [exact Hiff|].
  intros r Hr.
  destruct (item_match rows (Category r) (Item_Name r)) as [|r' rs] eqn:E.
  - exfalso. apply list_elem_of_In in Hr.
    assert (In r (item_match rows (Category r) (Item_Name r))) as Hin
      by (apply filter_In; split; [done|apply same_key_refl]).
    by rewrite E in Hin.
  - assert (head (item_match rows (Category r) (Item_Name r)) = Some r') as Hh by (by rewrite E).
    destruct (item_match_head_key _ _ _ _ Hh) as (Hc & Hn & _).
    apply list_elem_of_fmap. exists r'. split; [unfold row_key; congruence|].
    apply Hiff. by rewrite Hc, Hn.
Qed.

Lemma first_row_in_pool df c n row q :
  head (item_match df c n) = Some row ->
  1 <= q <= Z.min (Available_Units row) 20 ->
  mkItem c n (MRP row) q (MRP row * inject_Z q)%Q (Z.min (Available_Units row) 20) (MRP row)
  ∈ build_pool (drop_duplicates df).
Proof.
  intros Hrow Hq. destruct (item_match_head_key _ _ _ _ Hrow) as (Hc & Hn & _).
  unfold build_pool. apply list_elem_of_In, in_flat_map. exists row. split.
  - apply list_elem_of_In, drop_duplicates_from_keeps; [done|]. by rewrite Hc, Hn.
  - unfold row_entries. apply in_map_iff. exists q. split; [by rewrite Hc, Hn|].
    apply list_elem_of_In, elem_of_range. lia.
Qed.

Lemma pool_entry_row df item :
  item ∈ build_pool (drop_duplicates df) ->
  exists row q,
    head (item_match df (category item) (name item)) = Some row /\
    1 <= q <= Z.min (Available_Units row) 20 /\
    item = mkItem (Category row) (Item_Name row) (MRP row) q (MRP row * inject_Z q)%Q
                  (Z.min (Available_Units row) 20) (MRP row).
Proof.
  unfold build_pool. rewrite list_elem_of_In, in_flat_map.
  intros (row & Hrow & Hitem).
  apply list_elem_of_In, drop_duplicates_from_first in Hrow as [_ Hrow].
  unfold row_entries in Hitem. apply in_map_iff in Hitem as (q & <- & Hq).
  apply list_elem_of_In, elem_of_range in Hq.
  exists row, q. simpl. split; [done|]. split; [lia|done].
Qed.

Lemma range_nodup lo hi : NoDup (range lo hi).
Proof.
  unfold range. apply NoDup_fmap_2; [|apply NoDup_seq].
  intros i j Hij. lia.
Qed.

Lemma row_entries_nodup row : NoDup (row_entries row).
Proof.
  unfold row_entries. apply NoDup_fmap_2; [|apply range_nodup].
  intros q1 q2 Heq. by injection Heq.
Qed.

Lemma row_entries_key row item : item ∈ row_entries row -> item_key item = row_key row.
Proof.
  unfold row_entries. intros Hin. apply list_elem_of_fmap in Hin as (q & -> & _). done.
Qed.

Lemma build_pool_nodup rows : NoDup (map row_key rows) -> NoDup (build_pool rows).
Proof.
  unfold build_pool. induction rows as [|r rest IH]; simpl; [constructor|].
  intros Hnd. apply NoDup_cons in Hnd as [Hr Hnd].
  apply NoDup_app. split; [apply row_entries_nodup|]. split; [|by apply IH].
  intros item Hitem Hrest. apply Hr.
  apply list_elem_of_In, in_flat_map in Hrest as (r' & Hr' & Hitem').
  apply list_elem_of_In in Hr', Hitem'.
  apply list_elem_of_fmap. exists r'. split; [|done].
  rewrite <- (row_entries_key r item Hitem). by apply row_entries_key.
Qed.

(** X2: the candidate pool holds exactly one entry per item, the first row
    of its key in the view, and per quantity from 1 to min(available units,
    20), priced at that row's price times the quantity: no entry is listed
    twice, and the entries are those and no others. *)
Theorem build_pool_entries (df : list InventoryRow) :
  NoDup (build_pool (drop_duplicates df)) /\
  forall item,
    item ∈ build_pool (drop_duplicates df) <->
    exists row q,
      head (item_match df (category item) (name item)) = Some row /\
      1 <= q <= Z.min (Available_Units row) 20 /\
      item = mkItem (Category row) (Item_Name row) (MRP row) q (MRP row * inject_Z q)%Q
                    (Z.min (Available_Units row) 20) (MRP row).
Proof.
  split; [apply build_pool_nodup, drop_duplicates_from_nodup|].
  intros item. split; [apply pool_entry_row|].
  intros (row & q & Hrow & Hq & ->). simpl in Hrow.
  by apply first_row_in_pool.
Qed.

Lemma length_range lo hi : length (range lo hi) = Z.to_nat (hi - lo).
Proof. unfold range. by rewrite length_map, length_seq. Qed.

(** X3: a row contributes min(available units, 20) entries to the pool, none
    when it has no unit available, so the pool has at most 20 entries per
    row. *)
Theorem build_pool_size (rows : list InventoryRow) :
  (forall row, length (row_entries row) = Z.to_nat (Z.min (Available_Units row) 20)) /\
  (forall row, Available_Units row <= 0 -> row_entries row = []) /\
  (length (build_pool rows) <= 20 * length rows)%nat.
Proof.
  assert (forall row, length (row_entries row) = Z.to_nat (Z.min (Available_Units row) 20))
    as Hlen.
  { intros row. unfold row_entries. rewrite length_map, length_range. f_equal. lia. }
  split; [exact Hlen|]. split.
  - intros row Hrow. apply length_zero_iff_nil. rewrite Hlen. lia.
  - induction rows as [|row rows IH]; simpl; [lia|].
    rewrite length_app, Hlen. lia.
Qed.

(** * Further properties of the fill *)

Lemma row_selected_iff today selected_categories selected_inventory selected_status
    selected_brands min_days max_days r :
  row_selected today selected_categories selected_inventory selected_status
               selected_brands min_days max_days r = true <->
  Category r ∈ selected_categories /\ Inventory_Holding r ∈ selected_inventory /\
  Product_Status r ∈ selected_status /\ Brand_Name r ∈ selected_brands /\
  min_days <= Expiry_Date r - today <= max_days.
Proof.
  unfold row_selected. rewrite !andb_true_iff, !isin_iff, is_within_expiry_iff. tauto.
Qed.

(** X4: when one of the four selections is empty, or the expiry window is
    empty (max_days < min_days), [create_hamper] returns the empty hamper
    with total 0, whatever the inventory and the budget. *)
Theorem create_hamper_nothing_selected (data : list InventoryRow) (today : Z) (budget : Q)
    (selected_categories selected_inventory selected_status selected_brands : list string)
    (min_days max_days : Z) (box_type : string) :
  selected_categories = [] \/ selected_inventory = [] \/ selected_status = [] \/
  selected_brands = [] \/ max_days < min_days ->
  create_hamper data today budget selected_categories selected_inventory selected_status
                selected_brands min_days max_days box_type = ([], 0%Q).
Proof.
  intros H. unfold create_hamper, filtered_view. rewrite filter_none; [done|].
  intros r _. apply not_true_iff_false. rewrite row_selected_iff.
  intros (Hc & Hi & Hs & Hb & Hw).
  destruct H as [->|[->|[->|[->|H]]]];
    try (by eapply not_elem_of_nil); lia.
Qed.

Lemma create_hamper_nothing_selected_witness :
  create_hamper one_item 0 250 ["Snacks"%string] any_tag any_tag any_tag 60 0 "Gift Box" =
  ([], 0%Q).
Proof.
  apply (create_hamper_nothing_selected one_item 0 250 ["Snacks"%string] any_tag any_tag any_tag
                                        60 0 "Gift Box").
  right. right. right. right. reflexivity.
Defined.

(** X5: every line of the returned hamper names an item of the inventory
    that passes all the active filters: its category, inventory holding,
    status and brand are selected and its expiry is inside the window. *)
Theorem create_hamper_lines_pass_filters (data : list InventoryRow) (today : Z) (budget : Q)
    (selected_categories selected_inventory selected_status selected_brands : list string)
    (min_days max_days : Z) (box_type : string) (c n : string) (q : Z) :
  (c, n, q) ∈ (create_hamper data today budget selected_categories selected_inventory
                             selected_status selected_brands min_days max_days box_type).1 ->
  c ∈ selected_categories /\
  exists row, row ∈ data /\ Category row = c /\ Item_Name row = n /\
              Inventory_Holding row ∈ selected_inventory /\
              Product_Status row ∈ selected_status /\
              Brand_Name row ∈ selected_brands /\
              min_days <= Expiry_Date row - today <= max_days.
Proof.
  intros Hin.
  set (df := filtered_view data today selected_categories selected_inventory selected_status
                           selected_brands min_days max_days).
  assert (exists row, head (item_match df c n) = Some row) as [row Hrow].
  { destruct (create_hamper_cases data today budget selected_categories selected_inventory
                selected_status selected_brands min_days max_days box_type)
      as [[_ Hr]|[_ Hr]]; rewrite Hr in Hin; simpl in Hin.
    - by apply elem_of_nil in Hin.
    - pose proof (cons_lines df _ (fill_from_consistent df budget)) as Hl.
      rewrite Forall_forall in Hl. destruct (Hl _ Hin) as (row & Hrow & _). by exists row. }
  destruct (item_match_head_key _ _ _ _ Hrow) as (Hc & Hn & Hdf).
  unfold df, filtered_view in Hdf. apply list_elem_of_In, filter_In in Hdf as [Hdata Hsel].
  apply row_selected_iff in Hsel as (H1 & H2 & H3 & H4 & H5).
  split; [by rewrite <- Hc|]. exists row. split; [by apply list_elem_of_In|]. tauto.
Qed.

Lemma create_hamper_lines_pass_filters_witness :
  "Snacks"%string ∈ ["Snacks"%string] /\
  exists row, row ∈ one_item /\ Category row = "Snacks"%string /\
              Item_Name row = "Chips"%string /\
              Inventory_Holding row ∈ any_tag /\ Product_Status row ∈ any_tag /\
              Brand_Name row ∈ any_tag /\ 0 <= Expiry_Date row - 0 <= 60.
Proof.
  apply (create_hamper_lines_pass_filters one_item 0 250 ["Snacks"%string] any_tag any_tag
           any_tag 0 60 "Gift Box" "Snacks" "Chips" 2).
  vm_compute. left.
Defined.

(** ** The three passes stay within their ceilings *)

Section NonNegativePrices.
Variable df : list InventoryRow.
Hypothesis Hprices : forall row, row ∈ df -> (0 <= MRP row)%Q.

Lemma item_ok_price item : item_ok df item -> (0 <= mrp item)%Q /\ (0 <= total_cost item)%Q.
Proof using Hprices.
  intros (row & Hrow & Hmrp & Hcost & Hq).
  destruct (item_match_head_key _ _ _ _ Hrow) as (_ & _ & Hin).
  pose proof (Hprices row Hin) as Hp. rewrite Hmrp, Hcost. split; [done|].
  apply Qmult_le_0_compat; [done|]. change 0%Q with (inject_Z 0).
  rewrite <- Zle_Qle. lia.
Qed.

Lemma accept_item_total st item :
  consistent df st -> item_ok df item ->
  (st_total (accept_item st item) <= st_total st + total_cost item)%Q.
Proof using Hprices.
  intros Hc Hok. unfold accept_item, item_key.
  destruct (st_used st !! (category item, name item)) as [q0|] eqn:E; simpl; [|lra].
  assert ((category item, name item) ∈ map line_key (st_hamper st)) as Hin
    by (apply (consistent_key_in df st); eauto).
  apply key_split in Hin as (h1 & q1 & h2 & Hsplit & Hfresh).
  rewrite Hsplit, pop_line_split by done. simpl.
  assert (0 <= mrp item * inject_Z q1)%Q; [|lra].
  apply Qmult_le_0_compat; [by apply item_ok_price|].
  pose proof (cons_lines df st Hc) as Hl. rewrite Hsplit, Forall_forall in Hl.
  destruct (Hl (category item, name item, q1)) as (row & _ & Hq).
  { apply elem_of_app. right. by left. }
  simpl in Hq. change 0%Q with (inject_Z 0). rewrite <- Zle_Qle. lia.
Qed.

Lemma fold_strategy_within_limit s budget items st :
  consistent df st -> Forall (item_ok df) items ->
  (st_total st <= budget_limit s budget)%Q ->
  (st_total (fold_left (strategy_step s budget) items st) <= budget_limit s budget)%Q.
Proof using Hprices.
  revert st. induction items as [|item items IH]; simpl; intros st Hc Hok Hle; [done|].
  inversion Hok; subst.
  apply IH; [by apply strategy_step_consistent|done|].
  unfold strategy_step. destruct (skip_item _ _); [done|].
  destruct (Qle_bool _ _) eqn:E; [|done]. apply Qle_bool_iff in E.
  pose proof (accept_item_total st item Hc ltac:(done)). lra.
Qed.

(** Totals never decrease in the refinement loop and in the final fill. *)
Lemma try_quantities_total_grows st c n cur row remaining qtys st' :
  row ∈ df -> Forall (fun q => cur < q) qtys ->
  try_quantities st c n cur (MRP row) remaining qtys = Some st' ->
  (st_total st <= st_total st')%Q.
Proof using Hprices.
  intros Hrow. induction 1 as [|q qtys Hq _ IH]; simpl; [done|].
  destruct (Qle_bool _ _); [|done].
  destruct (set_quantity st c n q _) as [st0|] eqn:S; [|done].
  intros [= <-]. rewrite (set_quantity_total _ _ _ _ _ _ S).
  assert (0 <= MRP row * inject_Z (q - cur))%Q; [|lra].
  apply Qmult_le_0_compat; [by apply Hprices|].
  change 0%Q with (inject_Z 0). rewrite <- Zle_Qle. lia.
Qed.

Lemma increase_quantity_total_grows remaining st snapshot st' :
  increase_quantity df remaining st snapshot = Some st' -> (st_total st <= st_total st')%Q.
Proof using Hprices.
  induction snapshot as [|[[c n] cur] snapshot IH]; simpl; [done|].
  destruct (item_match df c n) as [|row rows] eqn:E; [done|].
  destruct (try_quantities _ _ _ _ _ _ _) as [st0|] eqn:T; [|done].
  intros [= <-]. eapply try_quantities_total_grows; [| |exact T].
  - assert (head (item_match df c n) = Some row) as Hh by (by rewrite E).
    by destruct (item_match_head_key _ _ _ _ Hh) as (_ & _ & ?).
  - rewrite Forall_forall. intros q Hq. apply elem_of_range in Hq. lia.
Qed.

Section WithPool.
Variable items_pool : list PoolItem.
Hypothesis Hpool : Forall (item_ok df) items_pool.

Lemma add_new_item_total_grows remaining st st' :
  add_new_item items_pool remaining st = Some st' -> (st_total st <= st_total st')%Q.
Proof using Hprices Hpool.
  unfold add_new_item. destruct (List.find _ _) as [item|] eqn:F; [|done].
  intros [= <-]. apply find_some in F as [Hin _].
  apply list_elem_of_In, elem_of_stable_sort, list_elem_of_In, filter_In in Hin as [Hin _].
  rewrite Forall_forall in Hpool. apply list_elem_of_In, Hpool, item_ok_price in Hin.
  simpl. lra.
Qed.

Lemma refine_total_grows fuel budget target st :
  (st_total st <= st_total (refine fuel budget target df items_pool st))%Q.
Proof using Hprices Hpool.
  revert st. induction fuel as [|fuel IH]; simpl; intros st; [lra|].
  destruct (Qlt_bool _ _); [|lra].
  destruct (increase_quantity _ _ _ _) as [st1|] eqn:E.
  - apply increase_quantity_total_grows in E. specialize (IH st1). lra.
  - destruct (add_new_item _ _ _) as [st1|] eqn:N; [|lra].
    apply add_new_item_total_grows in N. specialize (IH st1). lra.
Qed.

Lemma final_step_total_grows budget st item :
  item_ok df item -> (st_total st <= st_total (final_step budget st item))%Q.
Proof using Hprices.
  intros Hok. unfold final_step.
  destruct (st_used st !! item_key item) as [cur|].
  - destruct (cur <? qty item) eqn:L; [|lra].
    destruct (Qle_bool _ _); [|lra].
    destruct (set_quantity _ _ _ _ _) as [st1|] eqn:S; [|lra].
    rewrite (set_quantity_total _ _ _ _ _ _ S). apply Z.ltb_lt in L.
    assert (0 <= mrp item * inject_Z (qty item - cur))%Q; [|lra].
    apply Qmult_le_0_compat; [by apply item_ok_price|].
    change 0%Q with (inject_Z 0). rewrite <- Zle_Qle. lia.
  - destruct (Qle_bool _ _); [|lra]. simpl. apply item_ok_price in Hok. lra.
Qed.

Lemma final_fill_total_grows budget st :
  (st_total st <= st_total (final_fill budget items_pool st))%Q.
Proof using Hprices Hpool.
  unfold final_fill. destruct (Qlt_bool _ _); [|lra].
  assert (Forall (item_ok df) (small_items (budget - st_total st) items_pool (st_used st)))
    as Hitems.
  { unfold small_items. apply sorted_by_reverse_ok.
    rewrite Forall_forall in *. intros item Hin. apply Hpool.
    apply list_elem_of_In, filter_In in Hin as [Hin _]. by apply list_elem_of_In. }
  revert Hitems. generalize (small_items (budget - st_total st) items_pool (st_used st)).
  intros items. revert st.
  induction items as [|item items IH]; simpl; intros st Hitems; [lra|].
  inversion Hitems; subst.
  pose proof (final_step_total_grows budget st item ltac:(done)).
  specialize (IH (final_step budget st item) ltac:(done)). lra.
Qed.
End WithPool.
End NonNegativePrices.

(** X6: with non-negative prices and a non-negative budget, each strategy
    pass ends within its own ceiling: the cost-ascending and the efficiency
    pass never pass the budget, the cost-descending pass never passes 1.02
    times the budget. *)
Theorem strategy_results_within_ceiling (df : list InventoryRow) (budget : Q) :
  (forall row, row ∈ df -> (0 <= MRP row)%Q) ->
  (0 <= budget)%Q ->
  forall i s items,
    strategies (build_pool (drop_duplicates df)) !! i = Some (s, items) ->
    (st_total (run_strategy s budget items) <= budget_limit s budget)%Q /\
    (s <> cost_descending -> (st_total (run_strategy s budget items) <= budget)%Q).
Proof.
  intros Hprices Hb i s items Hi.
  assert (Forall (item_ok df) items) as Hitems.
  { assert (Forall (item_ok df) (build_pool (drop_duplicates df))) as Hpool
      by (rewrite Forall_forall; apply pool_item_ok).
    unfold strategies in Hi.
    destruct i as [|[|[|i]]]; simpl in Hi; try done; injection Hi as <- <-;
      auto using sorted_by_ok, sorted_by_reverse_ok. }
  assert (st_total (run_strategy s budget items) <= budget_limit s budget)%Q as Hle.
  { unfold run_strategy. apply (fold_strategy_within_limit df Hprices);
      [apply consistent_empty|done|]. destruct s; simpl; lra. }
  split; [done|]. intros Hs. by destruct s.
Qed.

Lemma strategy_results_within_ceiling_witness :
  (st_total (run_strategy cost_descending 250
               (sorted_by_reverse total_cost (build_pool (drop_duplicates one_item))))
   <= budget_limit cost_descending 250)%Q.
Proof.
  refine (proj1 (strategy_results_within_ceiling one_item 250 _ _ 2%nat cost_descending
                   (sorted_by_reverse total_cost (build_pool (drop_duplicates one_item))) _)).
  - intros row Hrow. apply list_elem_of_singleton in Hrow as ->. by vm_compute.
  - by vm_compute.
  - unfold strategies. reflexivity.
Defined.

(** X7: with non-negative prices, refinement and final fill never lower the
    total: the returned total of a non-empty view is at least the total of
    the best strategy result. *)
Theorem fill_from_total_at_least_best (df : list InventoryRow) (budget : Q) :
  (forall row, row ∈ df -> (0 <= MRP row)%Q) ->
  (st_total (best_of_strategies budget (build_pool (drop_duplicates df)))
   <= st_total (fill_from df budget))%Q.
Proof.
  intros Hprices. unfold fill_from.
  assert (Forall (item_ok df) (build_pool (drop_duplicates df))) as Hpool
    by (rewrite Forall_forall; apply pool_item_ok).
  set (pool := build_pool (drop_duplicates df)) in *.
  pose proof (refine_total_grows df Hprices pool Hpool max_iterations budget
                (budget * (99 # 100)) (best_of_strategies budget pool)) as H1.
  pose proof (final_fill_total_grows df Hprices pool Hpool budget
                (refine max_iterations budget (budget * (99 # 100)) df pool
                        (best_of_strategies budget pool))) as H2.
  lra.
Qed.

Lemma fill_from_total_at_least_best_witness :
  (st_total (best_of_strategies 250 (build_pool (drop_duplicates one_item)))
   <= st_total (fill_from one_item 250))%Q.
Proof.
  apply (fill_from_total_at_least_best one_item 250).
  intros row Hrow. apply list_elem_of_singleton in Hrow as ->. by vm_compute.
Defined.

(** ** A budget below every entry *)

Section BelowCheapest.
Variables (df : list InventoryRow) (budget : Q).
Hypothesis Hbudget : (0 < budget)%Q.
Hypothesis Hdear :
  forall item, item ∈ build_pool (drop_duplicates df) -> (budget < total_cost item)%Q.

Lemma line_cost_above l : line_ok df l -> (budget < line_cost df l)%Q.
Proof using Hdear.
  destruct l as [[c n] q]. intros (row & Hrow & Hq). simpl in *.
  rewrite (line_cost_row df c n q row Hrow).
  apply (Hdear _ (first_row_in_pool df c n row q Hrow Hq)).
Qed.

Lemma hamper_cost_above h :
  Forall (line_ok df) h ->
  (0 <= hamper_cost df h)%Q /\ (h <> [] -> (budget < hamper_cost df h)%Q).
Proof using Hbudget Hdear.
  induction 1 as [|l h Hl _ [IH0 IH]]; simpl; [split; [lra|done]|].
  apply line_cost_above in Hl. split; [lra|]. intros _. lra.
Qed.

Lemma run_strategy_not_chosen s items :
  Forall (item_ok df) items ->
  ~ (0 < st_total (run_strategy s budget items) /\
     st_total (run_strategy s budget items) <= budget)%Q.
Proof using Hbudget Hdear.
  intros Hitems [Hpos Hle].
  pose proof (fold_strategy_consistent df s budget items empty_fill
                (consistent_empty df) Hitems) as Hc.
  pose proof (fold_strategy_costed df s budget items empty_fill
                (consistent_empty df) (costed_empty df) Hitems) as Hcost.
  fold (run_strategy s budget items) in Hc, Hcost.
  destruct (st_hamper (run_strategy s budget items)) eqn:E.
  - rewrite (run_strategy_fresh s budget items E) in Hpos. simpl in Hpos. lra.
  - destruct (hamper_cost_above _ (cons_lines df _ Hc)) as [_ Habove].
    unfold costed in Hcost. rewrite E in *. specialize (Habove ltac:(done)). lra.
Qed.

Lemma best_of_strategies_below_cheapest :
  best_of_strategies budget (build_pool (drop_duplicates df)) = empty_fill.
Proof using Hbudget Hdear.
  set (pool := build_pool (drop_duplicates df)).
  assert (Forall (item_ok df) pool) as Hpool by (rewrite Forall_forall; apply pool_item_ok).
  destruct (fold_keep_best_spec budget (strategy_results budget pool) empty_fill)
    as [[Hres _]|(i & Hi & Hlt & Hle & _)]; [done|].
  exfalso. fold (best_of_strategies budget pool) in Hi, Hlt, Hle.
  unfold strategy_results, strategies in Hi.
  change (st_total empty_fill) with 0%Q in Hlt.
  destruct i as [|[|[|i]]]; simpl in Hi; try done; injection Hi as Hi;
    rewrite <- Hi in Hlt, Hle;
    refine (run_strategy_not_chosen _ _ _ (conj Hlt Hle));
    auto using sorted_by_ok, sorted_by_reverse_ok.
Qed.

Lemma fill_from_below_cheapest : fill_from df budget = empty_fill.
Proof using Hbudget Hdear.
  unfold fill_from. rewrite best_of_strategies_below_cheapest.
  set (pool := build_pool (drop_duplicates df)).
  assert (Forall (fun item => Qle_bool (total_cost item) (budget - st_total empty_fill) = false)
                 pool) as Hnone.
  { rewrite Forall_forall. intros item Hin. apply Qle_bool_false. simpl.
    pose proof (Hdear item Hin). lra. }
  assert (refine max_iterations budget (budget * (99 # 100)) df pool empty_fill = empty_fill)
    as ->.
  { assert (max_iterations = S 99) as -> by reflexivity. rewrite refine_step.
    assert (Qlt_bool (st_total empty_fill) (budget * (99 # 100)) = true) as ->
      by (apply Qlt_bool_iff; simpl; lra).
    change (increase_quantity df (budget - st_total empty_fill) empty_fill
                              (st_hamper empty_fill)) with (@None FillState).
    cbv iota. unfold add_new_item.
    rewrite filter_none; [done|].
    intros item Hin. rewrite Forall_forall in Hnone. rewrite (Hnone item Hin).
    apply andb_false_r. }
  unfold final_fill.
  assert (Qlt_bool 0 (budget - st_total empty_fill) = true) as ->
    by (apply Qlt_bool_iff; simpl; lra).
  by rewrite small_items_none.
Qed.
End BelowCheapest.

(** X8: with a positive budget below the line cost of every pool entry,
    [create_hamper] returns the empty hamper with total 0; an entry that
    only fits the 1.02 ceiling of the cost-descending pass is never
    returned. *)
Theorem create_hamper_below_cheapest (data : list InventoryRow) (today : Z) (budget : Q)
    (selected_categories selected_inventory selected_status selected_brands : list string)
    (min_days max_days : Z) (box_type : string) :
  (0 < budget)%Q ->
  (forall item,
     item ∈ build_pool (drop_duplicates
                          (filtered_view data today selected_categories selected_inventory
                                         selected_status selected_brands min_days max_days)) ->
     (budget < total_cost item)%Q) ->
  create_hamper data today budget selected_categories selected_inventory selected_status
                selected_brands min_days max_days box_type = ([], 0%Q).
Proof.
  intros Hb Hdear. unfold create_hamper.
  destruct (filtered_view _ _ _ _ _ _ _ _) as [|r rs] eqn:E; [done|].
  by rewrite (fill_from_below_cheapest (r :: rs) budget Hb Hdear).
Qed.

Lemma create_hamper_below_cheapest_witness :
  create_hamper one_item 0 99 ["Snacks"%string] any_tag any_tag any_tag 0 60 "Gift Box" =
  ([], 0%Q).
Proof.
  apply (create_hamper_below_cheapest one_item 0 99 ["Snacks"%string] any_tag any_tag any_tag
                                      0 60 "Gift Box").
  - reflexivity.
  - intros item Hin.
    change (filtered_view one_item 0 ["Snacks"%string] any_tag any_tag any_tag 0 60)
      with one_item in Hin.
    apply pool_entry_row in Hin as (row & q & Hrow & Hq & ->).
    apply item_match_head_key in Hrow as (_ & _ & Hrow).
    apply list_elem_of_singleton in Hrow as ->. simpl in *.
    assert (inject_Z 1 <= inject_Z q)%Q as Hone by (rewrite <- Zle_Qle; lia).
    change (inject_Z 1) with 1%Q in Hone. lra.
Defined.

(** ** Refinement and final fill only add *)

Lemma grows_refl st : grows st st.
Proof. intros c n q H. exists q. split; [lia|done]. Qed.

Lemma grows_trans st1 st2 st3 : grows st1 st2 -> grows st2 st3 -> grows st1 st3.
Proof.
  intros H12 H23 c n q H. destruct (H12 _ _ _ H) as (q' & Hq' & H').
  destruct (H23 _ _ _ H') as (q'' & Hq'' & H''). exists q''. split; [lia|done].
Qed.

Lemma append_item_grows st item : grows st (append_item st item).
Proof.
  intros c n q H. exists q. split; [lia|]. simpl. apply elem_of_app. by left.
Qed.

Section Grows.
Variable df : list InventoryRow.

Lemma set_quantity_grows st c n cur q inc st' :
  consistent df st -> (c, n, cur) ∈ st_hamper st -> cur <= q ->
  set_quantity st c n q inc = Some st' -> grows st st'.
Proof.
  intros Hc Hcur Hle. unfold set_quantity.
  destruct (replace_line c n q (st_hamper st)) as [h|] eqn:E; [|done].
  intros [= <-]. apply replace_line_Some in E as (h1 & q0 & h2 & Hsplit & _ & ->).
  assert (q0 = cur) as ->.
  { pose proof (split_lookup df st c n q0 h1 h2 Hc Hsplit) as H0.
    apply (cons_used df st Hc) in Hcur. congruence. }
  intros c0 n0 q1 H. rewrite Hsplit in H. simpl.
  apply elem_of_app in H as [H|H].
  - exists q1. split; [lia|]. apply elem_of_app. by left.
  - apply elem_of_cons in H as [[= -> -> ->]|H].
    + exists q. split; [done|]. apply elem_of_app. right. by left.
    + exists q1. split; [lia|]. apply elem_of_app. right. by right.
Qed.

Lemma try_quantities_grows st c n cur price remaining qtys st' :
  consistent df st -> (c, n, cur) ∈ st_hamper st -> Forall (fun q => cur < q) qtys ->
  try_quantities st c n cur price remaining qtys = Some st' -> grows st st'.
Proof.
  intros Hc Hcur. induction 1 as [|q qtys Hq _ IH]; simpl; [done|].
  destruct (Qle_bool _ _); [|done].
  destruct (set_quantity st c n q _) as [st0|] eqn:S; [|done].
  intros [= <-]. eapply set_quantity_grows; [done..| |exact S]. lia.
Qed.

Lemma increase_quantity_grows remaining st snapshot st' :
  consistent df st -> snapshot ⊆ st_hamper st ->
  increase_quantity df remaining st snapshot = Some st' -> grows st st'.
Proof.
  intros Hc. induction snapshot as [|[[c n] cur] snapshot IH]; simpl; [done|].
  intros Hsub.
  assert (snapshot ⊆ st_hamper st) as Hsub' by (intros l Hl; apply Hsub; by right).
  destruct (item_match df c n) as [|row rows] eqn:E; [by apply IH|].
  destruct (try_quantities _ _ _ _ _ _ _) as [st0|] eqn:T; [|by apply IH].
  intros [= <-]. eapply try_quantities_grows; [done| | |exact T].
  - apply Hsub. by left.
  - rewrite Forall_forall. intros q Hq. apply elem_of_range in Hq. lia.
Qed.

Lemma add_new_item_grows items_pool remaining st st' :
  add_new_item items_pool remaining st = Some st' -> grows st st'.
Proof.
  unfold add_new_item. destruct (List.find _ _) as [item|]; [|done].
  intros [= <-]. apply append_item_grows.
Qed.

Lemma refine_grows fuel budget target items_pool st :
  Forall (item_ok df) items_pool -> consistent df st ->
  grows st (refine fuel budget target df items_pool st).
Proof.
  intros Hpool. revert st. induction fuel as [|fuel IH]; simpl; intros st Hc;
    [apply grows_refl|].
  destruct (Qlt_bool _ _); [|apply grows_refl].
  destruct (increase_quantity _ _ _ _) as [st1|] eqn:E.
  - eapply grows_trans; [by eapply increase_quantity_grows|]. apply IH.
    eapply increase_quantity_consistent; [done| |exact E]. by destruct Hc.
  - destruct (add_new_item _ _ _) as [st1|] eqn:N; [|apply grows_refl].
    eapply grows_trans; [by eapply add_new_item_grows|]. apply IH.
    by eapply add_new_item_consistent.
Qed.

Lemma final_step_grows budget st item :
  consistent df st -> grows st (final_step budget st item).
Proof.
  intros Hc. unfold final_step, item_key.
  destruct (st_used st !! (category item, name item)) as [cur|] eqn:E.
  - destruct (cur <? qty item) eqn:L; [|apply grows_refl].
    destruct (Qle_bool _ _); [|apply grows_refl].
    destruct (set_quantity _ _ _ _ _) as [st1|] eqn:S; [|apply grows_refl].
    apply Z.ltb_lt in L.
    eapply (set_quantity_grows _ _ _ cur); [done| | |exact S];
      [by apply (cons_used df st Hc)|lia].
  - destruct (Qle_bool _ _); [|apply grows_refl]. apply append_item_grows.
Qed.

Lemma final_fill_grows budget items_pool st :
  Forall (item_ok df) items_pool -> consistent df st ->
  grows st (final_fill budget items_pool st).
Proof.
  intros Hpool Hc. unfold final_fill. destruct (Qlt_bool _ _); [|apply grows_refl].
  assert (Forall (item_ok df) (small_items (budget - st_total st) items_pool (st_used st)))
    as Hitems.
  { unfold small_items. apply sorted_by_reverse_ok.
    rewrite Forall_forall in *. intros item Hin. apply Hpool.
    apply list_elem_of_In, filter_In in Hin as [Hin _]. by apply list_elem_of_In. }
  revert Hitems. generalize (small_items (budget - st_total st) items_pool (st_used st)).
  intros items. revert st Hc.
  induction items as [|item items IH]; simpl; intros st Hc Hitems; [apply grows_refl|].
  inversion Hitems; subst.
  eapply grows_trans; [by apply final_step_grows|].
  apply IH; [by apply final_step_consistent|done].
Qed.
End Grows.

(** X9: refinement and final fill never remove a line and never lower a
    quantity: every line of the best strategy result is in the hamper that
    [fill_from] returns, with at least the same quantity. *)
Theorem fill_from_keeps_best_lines (df : list InventoryRow) (budget : Q) (c n : string) (q : Z) :
  (c, n, q) ∈ st_hamper (best_of_strategies budget (build_pool (drop_duplicates df))) ->
  exists q', q <= q' /\ (c, n, q') ∈ st_hamper (fill_from df budget).
Proof.
  assert (Forall (item_ok df) (build_pool (drop_duplicates df))) as Hpool
    by (rewrite Forall_forall; apply pool_item_ok).
  pose proof (best_of_strategies_consistent df budget _ Hpool) as Hc.
  unfold fill_from.
  eapply (grows_trans _ _ _ (refine_grows df _ _ _ _ _ Hpool Hc)).
  apply (final_fill_grows df); [done|]. by apply refine_consistent.
Qed.

Lemma fill_from_keeps_best_lines_witness :
  exists q', 2 <= q' /\ ("Snacks", "Chips", q')%string ∈ st_hamper (fill_from one_item 250).
Proof.
  apply (fill_from_keeps_best_lines one_item 250 "Snacks" "Chips" 2).
  vm_compute. left.
Defined.

(** * Further properties of the replacement engine *)

(** X10: the suggestions are the cheapest qualifying rows: they are built,
    in order, from min(7, number of qualifying rows) of the rows that pass
    the filters, and every qualifying row left out costs at least as much
    as every row suggested. *)
Theorem get_replacement_suggestions_cheapest
    (sort_values : list InventoryRow -> list InventoryRow) (strftime : Z -> string)
    (data : list InventoryRow) (today : Z) (category current_item : string)
    (selected_inventory selected_status selected_brands : list string) (min_days max_days : Z) :
  (forall l, Permutation (sort_values l) l) ->
  (forall l, StronglySorted (fun a b => (MRP a <= MRP b)%Q) (sort_values l)) ->
  let qualifying :=
    List.filter (replacement_row today category current_item selected_inventory
                                 selected_status selected_brands min_days max_days) data in
  exists taken left_out,
    Permutation (taken ++ left_out) qualifying /\
    get_replacement_suggestions sort_values strftime data today category current_item
                                selected_inventory selected_status selected_brands
                                min_days max_days
    = map (suggestion_of strftime) taken /\
    length taken = Nat.min 7 (length qualifying) /\
    (forall a b, a ∈ taken -> b ∈ left_out -> (MRP a <= MRP b)%Q).
Proof.
  intros Hperm Hsorted qualifying.
  exists (firstn 7 (sort_values qualifying)), (skipn 7 (sort_values qualifying)).
  split; [by rewrite firstn_skipn|]. split; [done|]. split.
  - rewrite length_firstn. by rewrite (Permutation_length (Hperm qualifying)).
  - apply StronglySorted_app_le. rewrite firstn_skipn. apply Hsorted.
Qed.

Lemma get_replacement_suggestions_cheapest_witness :
  exists taken left_out,
    Permutation (taken ++ left_out)
                (List.filter (replacement_row 0 "Snacks" "Chips" any_tag any_tag any_tag 0 60)
                             three_items) /\
    get_replacement_suggestions (sorted_by MRP) (fun _ => "01-Jan-2027"%string)
                                three_items 0 "Snacks" "Chips" any_tag any_tag any_tag 0 60
    = map (suggestion_of (fun _ => "01-Jan-2027"%string)) taken /\
    length taken = Nat.min 7 (length (List.filter
                     (replacement_row 0 "Snacks" "Chips" any_tag any_tag any_tag 0 60)
                     three_items)) /\
    (forall a b, a ∈ taken -> b ∈ left_out -> (MRP a <= MRP b)%Q).
Proof.
  apply (get_replacement_suggestions_cheapest (sorted_by MRP) (fun _ => "01-Jan-2027"%string)
           three_items 0 "Snacks" "Chips" any_tag any_tag any_tag 0 60).
  - intros l. apply sorted_by_perm.
  - intros l. apply sorted_by_ascending.
Defined.

(** * Box-type presets *)

Lemma apply_box_type_defaults_applied box_type session_state :
  Session.box_applied (apply_box_type_defaults box_type session_state) = Some box_type.
Proof.
  unfold apply_box_type_defaults.
  destruct (Session.box_applied session_state) as [applied|] eqn:E.
  - destruct (String.eqb applied box_type) eqn:K.
    + apply String.eqb_eq in K. by rewrite E, K.
    + by repeat destruct (String.eqb box_type _).
  - by repeat destruct (String.eqb box_type _).
Qed.

(** X12: [apply_box_type_defaults] records the box type it was called with,
    leaves the session untouched when that box type is already the applied
    one, so the expiry days set by hand since are kept, and applying the
    same box type twice is the same as applying it once. *)
Theorem apply_box_type_defaults_idempotent (box_type : string) (session_state : Session.t) :
  Session.box_applied (apply_box_type_defaults box_type session_state) = Some box_type /\
  (Session.box_applied session_state = Some box_type ->
   apply_box_type_defaults box_type session_state = session_state) /\
  apply_box_type_defaults box_type (apply_box_type_defaults box_type session_state) =
  apply_box_type_defaults box_type session_state.
Proof.
  assert (forall s, Session.box_applied s = Some box_type ->
                    apply_box_type_defaults box_type s = s) as Hkeep.
  { intros s Hs. unfold apply_box_type_defaults. by rewrite Hs, String.eqb_refl. }
  split; [apply apply_box_type_defaults_applied|]. split; [apply Hkeep|].
  apply Hkeep, apply_box_type_defaults_applied.
Qed.

(** X13: a box type of the sidebar that is not yet the applied one sets both
    expiry days, to values inside the ranges of the two sliders: the minimum
    within 0..365 and the maximum within minimum+1..730. A box type that is
    none of the three leaves the days as they were. *)
Theorem apply_box_type_defaults_presets (box_type : string) (session_state : Session.t) :
  Session.box_applied session_state <> Some box_type ->
  (box_type ∈ box_types ->
   exists lo hi,
     apply_box_type_defaults box_type session_state =
     Session.mk (Some box_type) (Some lo) (Some hi) /\
     0 <= lo <= 365 /\ lo + 1 <= hi <= 730) /\
  (box_type ∉ box_types ->
   apply_box_type_defaults box_type session_state =
   Session.mk (Some box_type) (Session.min_days session_state)
              (Session.max_days session_state)).
Proof.
  intros Hnew. unfold apply_box_type_defaults.
  assert (match Session.box_applied session_state with
          | Some applied => String.eqb applied box_type
          | None => false
          end = false) as ->.
  { destruct (Session.box_applied session_state) as [applied|]; [|done].
    apply not_true_iff_false. rewrite String.eqb_eq. congruence. }
  unfold box_types. split.
  - intros Hin. rewrite !elem_of_cons in Hin.
    destruct Hin as [->|[->|[->|Hin]]]; [..|by apply elem_of_nil in Hin]; simpl;
      eexists _, _; (split; [reflexivity|lia]).
  - intros Hout. rewrite !not_elem_of_cons in Hout. destruct Hout as (H1 & H2 & H3 & _).
    apply String.eqb_neq in H1, H2, H3. by rewrite H3, H2, H1.
Qed.

Lemma apply_box_type_defaults_presets_witness :
  exists lo hi,
    apply_box_type_defaults "Green Box" (Session.mk (Some "Gift Box"%string) (Some 45) (Some 730)) =
    Session.mk (Some "Green Box"%string) (Some lo) (Some hi) /\
    0 <= lo <= 365 /\ lo + 1 <= hi <= 730.
Proof.
  apply (apply_box_type_defaults_presets "Green Box"
           (Session.mk (Some "Gift Box"%string) (Some 45) (Some 730))).
  - simpl. discriminate.
  - unfold box_types. right. left.
Defined.

(** * The display of a created hamper *)

Lemma to_inventory_Some r row :
  to_inventory r = Some row ->
  raw_Item_Name r = Some (Item_Name row) /\ raw_Category r = Category row /\
  raw_MRP r = Some (MRP row) /\ raw_Available_Units r = Some (Available_Units row).
Proof.
  unfold to_inventory.
  destruct (raw_Item_Name r), (raw_MRP r), (raw_Available_Units r), (raw_Expiry_Date r),
    (raw_Inventory_Holding r), (raw_Product_Status r); try done.
  by intros [= <-].
Qed.

Lemma name_is_true nm r : name_is nm r = true <-> raw_Item_Name r = Some nm.
Proof.
  unfold name_is. destruct (raw_Item_Name r) as [x|]; [|done].
  rewrite String.eqb_eq. split; [by intros ->|by intros [= ->]].
Qed.

Section DisplayedHamper.
Variables (df_raw : list RawRow) (today : Z) (budget : Q).
Variables (selected_categories selected_inventory selected_status selected_brands : list string).
Variables (min_days max_days : Z) (box_type : string).

(** Each line of the created hamper comes from a row of [data]. *)
Lemma created_line_row c n q :
  (c, n, q) ∈ (create_hamper (inventory_view (dropna_required df_raw)) today budget
                 selected_categories selected_inventory selected_status selected_brands
                 min_days max_days box_type).1 ->
  exists r row,
    r ∈ dropna_required df_raw /\ to_inventory r = Some row /\
    Category row = c /\ Item_Name row = n /\
    line_cost (filtered_view (inventory_view (dropna_required df_raw)) today selected_categories
                 selected_inventory selected_status selected_brands min_days max_days)
              (c, n, q) = (MRP row * inject_Z q)%Q /\
    1 <= q <= Z.min (Available_Units row) 20.
Proof.
  intros Hin.
  set (df := filtered_view (inventory_view (dropna_required df_raw)) today selected_categories
               selected_inventory selected_status selected_brands min_days max_days).
  destruct (create_hamper_cases (inventory_view (dropna_required df_raw)) today budget
              selected_categories selected_inventory selected_status selected_brands
              min_days max_days box_type) as [[_ Hr]|[_ Hr]]; rewrite Hr in Hin; simpl in Hin.
  { by apply elem_of_nil in Hin. }
  pose proof (cons_lines df _ (fill_from_consistent df budget)) as Hl.
  rewrite Forall_forall in Hl. destruct (Hl _ Hin) as (row & Hrow & Hq). simpl in Hrow, Hq.
  destruct (item_match_head_key _ _ _ _ Hrow) as (Hc & Hn & Hdf).
  unfold df, filtered_view in Hdf. apply list_elem_of_In, filter_In in Hdf as [Hdata _].
  apply list_elem_of_In in Hdata. unfold inventory_view in Hdata.
  apply list_elem_of_omap in Hdata as (r & Hr' & Hrow').
  exists r, row. repeat split; try done; try lia.
  by apply line_cost_row.
Qed.

(** X14: every line of a hamper that [create_hamper] returns is found by the
    display lookup in [data] itself: the lookup never falls back to the raw
    data and never reports the item as missing; the row found carries the
    line's name and, unless the category is "Misc", the line's category. *)
Theorem created_lines_found (c n : string) (q : Z) :
  (c, n, q) ∈ (create_hamper (inventory_view (dropna_required df_raw)) today budget
                 selected_categories selected_inventory selected_status selected_brands
                 min_days max_days box_type).1 ->
  exists item rest,
    find_item (dropna_required df_raw) df_raw c n = item :: rest /\
    item ∈ dropna_required df_raw /\
    raw_Item_Name item = Some n /\
    (c <> "Misc"%string -> raw_Category item = c) /\
    safe_qty (dropna_required df_raw) df_raw (c, n, q) = Some (Z.min q (available_of item)).
Proof.
  intros Hin. destruct (created_line_row c n q Hin) as (r & row & Hr & Hrow & Hc & Hn & _).
  apply to_inventory_Some in Hrow as (Hname & Hcat & _). rewrite Hn in Hname. rewrite Hc in Hcat.
  set (data := dropna_required df_raw) in *.
  assert (forall (f : RawRow -> bool) l x, x ∈ l -> f x = true ->
            exists y ys, List.filter f l = y :: ys) as Hne.
  { intros f l x Hx Hf. destruct (List.filter f l) as [|y ys] eqn:E; [|by eauto].
    exfalso. assert (In x (List.filter f l)) as Hi
      by (apply filter_In; split; [by apply list_elem_of_In|done]).
    by rewrite E in Hi. }
  assert (forall (f : RawRow -> bool) l y ys, List.filter f l = y :: ys -> y ∈ l /\ f y = true)
    as Hhead.
  { intros f l y ys E. assert (In y (List.filter f l)) as Hi by (rewrite E; by left).
    apply filter_In in Hi as [Hi Hf]. split; [by apply list_elem_of_In|done]. }
  assert (exists item rest,
            find_item data df_raw c n = item :: rest /\ item ∈ data /\
            raw_Item_Name item = Some n /\ (c <> "Misc"%string -> raw_Category item = c))
    as (item & rest & Hfind & Hitem & Hin' & Hic).
  { destruct (Hne (name_is n) data r Hr) as (x & xs & Ex); [by apply name_is_true|].
    unfold find_item. rewrite Ex.
    destruct (String.eqb c "Misc") eqn:K.
    - destruct (Hhead _ _ _ _ Ex) as [Hx Hfx]. apply name_is_true in Hfx.
      exists x, xs. split; [done|]. split; [done|]. split; [done|].
      intros Hm. apply String.eqb_eq in K. done.
    - assert (r ∈ x :: xs) as Hrx.
      { rewrite <- Ex. apply list_elem_of_In, filter_In.
        split; [by apply list_elem_of_In|by apply name_is_true]. }
      destruct (Hne (fun r => String.eqb (raw_Category r) c) (x :: xs) r Hrx)
        as (y & ys & Ey); [by apply String.eqb_eq|].
      rewrite Ey. destruct (Hhead _ _ _ _ Ey) as [Hy Hfy]. apply String.eqb_eq in Hfy.
      assert (y ∈ data /\ raw_Item_Name y = Some n) as [Hyd Hyn].
      { rewrite <- Ex in Hy. apply list_elem_of_In, filter_In in Hy as [Hy Hfn].
        split; [by apply list_elem_of_In|by apply name_is_true]. }
      exists y, ys. split; [done|]. split; [done|]. split; done. }
  exists item, rest. split; [done|]. split; [done|]. split; [done|]. split; [done|].
  unfold safe_qty. simpl. fold data. by rewrite Hfind.
Qed.

Hypothesis Hunique : NoDup (map raw_Item_Name (dropna_required df_raw)).

Lemma unique_name_filter (data : list RawRow) r n :
  NoDup (map raw_Item_Name data) -> r ∈ data -> raw_Item_Name r = Some n ->
  List.filter (name_is n) data = [r].
Proof.
  induction data as [|x xs IH]; intros Hnd Hr Hn; [by apply elem_of_nil in Hr|].
  simpl in Hnd. apply NoDup_cons in Hnd as [Hx Hnd].
  assert (forall y, y ∈ xs -> raw_Item_Name y <> raw_Item_Name x) as Hother.
  { intros y Hy Heq. apply Hx. rewrite <- Heq. apply list_elem_of_fmap. by exists y. }
  simpl. apply elem_of_cons in Hr as [->|Hr].
  - assert (name_is n x = true) as -> by (by apply name_is_true).
    f_equal. apply filter_none. intros y Hy. apply not_true_iff_false.
    rewrite name_is_true. intros Hyn. apply (Hother y Hy). congruence.
  - assert (name_is n x = false) as ->.
    { apply not_true_iff_false. rewrite name_is_true. intros Hxn.
      apply (Hother r Hr). congruence. }
    by apply IH.
Qed.

Lemma created_line_item c n q :
  (c, n, q) ∈ (create_hamper (inventory_view (dropna_required df_raw)) today budget
                 selected_categories selected_inventory selected_status selected_brands
                 min_days max_days box_type).1 ->
  exists item,
    find_item (dropna_required df_raw) df_raw c n = [item] /\
    1 <= q <= available_of item.
Proof using Hunique.
  intros Hin.
  destruct (created_line_row c n q Hin) as (r & row & Hr & Hrow & Hc & Hn & Hcost & Hq).
  apply to_inventory_Some in Hrow as (Hname & Hcat & Hmrp & Hunits).
  rewrite Hn in Hname. rewrite Hc in Hcat.
  exists r. split.
  - unfold find_item. rewrite (unique_name_filter _ r n Hunique Hr Hname). simpl.
    destruct (String.eqb c "Misc"); [done|].
    assert (String.eqb (raw_Category r) c = true) as -> by (by apply String.eqb_eq). done.
  - unfold available_of. rewrite Hunits. lia.
Qed.

(** X15: when no two rows of [data] share an item name, the display lookup
    of every line of a hamper that [create_hamper] returns finds the line's
    own row and no other, the line's quantity lies between 1 and the
    available units of that row, and so the quantity input starts at the
    line's own quantity: the clamp to the available units changes
    nothing. *)
Theorem created_lines_quantity_kept (c n : string) (q : Z) :
  (c, n, q) ∈ (create_hamper (inventory_view (dropna_required df_raw)) today budget
                 selected_categories selected_inventory selected_status selected_brands
                 min_days max_days box_type).1 ->
  exists item,
    find_item (dropna_required df_raw) df_raw c n = [item] /\
    1 <= q <= Z.max (available_of item) 1 /\
    safe_qty (dropna_required df_raw) df_raw (c, n, q) = Some q.
Proof using Hunique.
  intros Hin. destruct (created_line_item c n q Hin) as (item & Hfind & Hq).
  exists item. split; [done|]. split; [lia|].
  unfold safe_qty. simpl. rewrite Hfind. f_equal. lia.
Qed.
End DisplayedHamper.

Lemma created_lines_found_witness :
  exists item rest,
    find_item (dropna_required raw_items) raw_items "Snacks" "Chips" = item :: rest /\
    item ∈ dropna_required raw_items /\
    raw_Item_Name item = Some "Chips"%string /\
    ("Snacks"%string <> "Misc"%string -> raw_Category item = "Snacks"%string) /\
    safe_qty (dropna_required raw_items) raw_items ("Snacks", "Chips", 2)%string =
    Some (Z.min 2 (available_of item)).
Proof.
  apply (created_lines_found raw_items 0 250 ["Snacks"%string] any_tag any_tag any_tag 0 60
                             "Gift Box" "Snacks" "Chips" 2).
  vm_compute. left.
Defined.

Lemma created_lines_quantity_kept_witness :
  exists item,
    find_item (dropna_required raw_items) raw_items "Snacks" "Chips" = [item] /\
    1 <= 2 <= Z.max (available_of item) 1 /\
    safe_qty (dropna_required raw_items) raw_items ("Snacks", "Chips", 2)%string = Some 2.
Proof.
  apply (created_lines_quantity_kept raw_items 0 250 ["Snacks"%string] any_tag any_tag
                                     any_tag 0 60 "Gift Box").
  - vm_compute. repeat constructor. intros H. by apply elem_of_nil in H.
  - vm_compute. left.
Defined.

(** * Export and deletions *)

(** X16: the export has one row per line that the lookup finds, the lines
    that are not found being left out, and building its TOTAL row fails, for
    want of a "Total Amt" column, exactly when no line is found. *)
Theorem export_rows_found_lines (strftime : Z -> string) (series_sum : list Q -> Q)
    (data data_raw : list RawRow) (final_items : list Line) :
  length (export_rows strftime data data_raw final_items) =
  length (List.filter (fun line => match find_item data data_raw line.1.1 line.1.2 with
                                   | [] => false
                                   | _ :: _ => true
                                   end) final_items) /\
  (export_totals strftime series_sum data data_raw final_items = None <->
   forall line, line ∈ final_items -> find_item data data_raw line.1.1 line.1.2 = []).
Proof.
  split.
  - unfold export_rows. induction final_items as [|line items IH]; simpl; [done|].
    rewrite length_app, IH.
    by destruct (find_item data data_raw line.1.1 line.1.2).
  - assert (export_rows strftime data data_raw final_items = [] <->
            forall line, line ∈ final_items -> find_item data data_raw line.1.1 line.1.2 = [])
      as Hnil.
    { unfold export_rows. induction final_items as [|line items IH]; simpl.
      - split; [|done]. intros _ line H. by apply elem_of_nil in H.
      - split.
        + intros H. apply app_eq_nil in H as [H1 H2]. intros l Hl.
          apply elem_of_cons in Hl as [->|Hl]; [|by apply IH].
          by destruct (find_item data data_raw line.1.1 line.1.2).
        + intros H. rewrite (H line) by (by left). simpl. apply IH.
          intros l Hl. apply H. by right. }
    rewrite <- Hnil. unfold export_totals.
    by destruct (export_rows strftime data data_raw final_items).
Qed.

(** ** Deleting lines by position *)

Lemma drop_positions_all_below {A} (positions : list nat) (i : nat) (l : list A) :
  (forall e, e ∈ positions -> (e < i)%nat) -> drop_positions positions i l = l.
Proof.
  revert i. induction l as [|x l IH]; intros i Hlt; cbn [drop_positions]; [done|].
  rewrite bool_decide_eq_false_2.
  - f_equal. apply IH. intros e He. specialize (Hlt e He). lia.
  - intros Hi. specialize (Hlt i Hi). lia.
Qed.

Lemma drop_positions_delete {A} (d : nat) (positions : list nat) (l : list A) (i : nat) :
  (i <= d)%nat -> (forall e, e ∈ positions -> (e < d)%nat) ->
  drop_positions positions i (delete (d - i)%nat l) = drop_positions (d :: positions) i l.
Proof.
  revert i. induction l as [|x l IH]; intros i Hid Hlt; [done|].
  destruct (d - i)%nat as [|k] eqn:E.
  - assert (i = d) as -> by lia.
    change (delete 0%nat (x :: l)) with l. cbn [drop_positions].
    rewrite (bool_decide_eq_true_2 (d ∈ d :: positions)) by (by left).
    rewrite !drop_positions_all_below; [done| |done].
    intros e He. apply elem_of_cons in He as [->|He]; [lia|]. specialize (Hlt e He). lia.
  - change (delete (S k) (x :: l)) with (x :: delete k l). cbn [drop_positions].
    assert (k = d - S i)%nat as -> by lia.
    rewrite (IH (S i)) by (done || lia).
    destruct (decide (i ∈ positions)) as [Hi|Hi].
    + rewrite !bool_decide_eq_true_2; [done| |done]. by right.
    + rewrite !bool_decide_eq_false_2; [done| |done].
      intros H. apply elem_of_cons in H as [->|H]; [lia|done].
Qed.

Lemma drop_positions_ext {A} (ps ps' : list nat) (i : nat) (l : list A) :
  (forall k, k ∈ ps <-> k ∈ ps') -> drop_positions ps i l = drop_positions ps' i l.
Proof.
  intros Hext. revert i. induction l as [|x l IH]; intros i; cbn [drop_positions]; [done|].
  rewrite (bool_decide_ext (i ∈ ps) (i ∈ ps')) by apply Hext. by rewrite !IH.
Qed.

Lemma remove_fold_descending (ds : list nat) (items : list Line) (pending : gmap nat Key) :
  StronglySorted (fun a b => (b < a)%nat) ds ->
  Forall (fun idx => (idx < length items)%nat) ds ->
  exists pending',
    fold_left remove_step ds (Some (items, pending)) =
    Some (drop_positions ds 0 items, pending') /\
    forall k, pending' !! k = if bool_decide (k ∈ ds) then None else pending !! k.
Proof.
  intros Hs. revert items pending.
  induction Hs as [|d ds Hs IH Hd]; intros items pending Hlen; cbn [fold_left].
  - exists pending. split.
    + rewrite drop_positions_all_below; [done|]. intros e He. by apply elem_of_nil in He.
    + intros k. rewrite bool_decide_eq_false_2; [done|apply not_elem_of_nil].
  - apply Forall_cons in Hlen as [Hdlen Hlen]. rewrite Forall_forall in Hd.
    unfold remove_step at 2, del_at. apply Nat.ltb_lt in Hdlen as Hb. rewrite Hb.
    destruct (IH (delete d items) (delete d pending)) as (pending' & Hfold & Hlook).
    { rewrite Forall_forall in *. intros e He. specialize (Hlen e He). specialize (Hd e He).
      rewrite length_delete by (by apply lookup_lt_is_Some). lia. }
    exists pending'. split.
    + rewrite Hfold. f_equal. f_equal.
      rewrite <- (drop_positions_delete d ds items 0) by (lia || done).
      by rewrite Nat.sub_0_r.
    + intros k. rewrite Hlook. destruct (decide (k ∈ ds)) as [Hk|Hk].
      * rewrite !bool_decide_eq_true_2; [done| |done]. by right.
      * rewrite (bool_decide_eq_false_2 (k ∈ ds)) by done.
        destruct (decide (k = d)) as [->|Hne].
        -- rewrite bool_decide_eq_true_2 by (by left). apply lookup_delete_eq.
        -- rewrite bool_decide_eq_false_2.
           ++ by apply lookup_delete_ne.
           ++ intros H. apply elem_of_cons in H as [?|?]; done.
Qed.

Lemma remove_fold_error (ds : list nat) :
  fold_left remove_step ds None = None.
Proof. induction ds as [|d ds IH]; [done|]. simpl. apply IH. Qed.

Lemma sorted_indices (to_remove : list nat) :
  let ds := sorted_by_reverse (fun idx => inject_Z (Z.of_nat idx)) to_remove in
  Permutation ds to_remove /\ StronglySorted (fun a b => (b <= a)%nat) ds.
Proof.
  split; [apply sorted_by_reverse_perm|].
  eapply StronglySorted_weaken; [|apply sorted_by_reverse_descending].
  intros a b H. cbv beta in H. rewrite <- Zle_Qle in H. lia.
Qed.

Lemma descending_strict (ds : list nat) :
  NoDup ds -> StronglySorted (fun a b => (b <= a)%nat) ds ->
  StronglySorted (fun a b => (b < a)%nat) ds.
Proof.
  intros Hnd Hs. induction Hs as [|d ds Hs IH Hd]; [constructor|].
  apply NoDup_cons in Hnd as [Hnotin Hnd]. constructor; [by apply IH|].
  rewrite Forall_forall in *. intros e He. specialize (Hd e He).
  assert (e <> d) by (by intros ->). lia.
Qed.

(** X18: the deletion loop, which deletes by descending position, removes
    exactly the lines at the positions to remove and keeps the others in
    order, when the positions are distinct and inside the hamper; the
    pending replacements at those positions are dropped and the others stay
    under their old position. A position outside the hamper makes the loop
    fail. *)
Theorem remove_items_positions (to_remove : list nat) (all_hamper_items : list Line)
    (replacements : gmap nat Key) :
  NoDup to_remove ->
  (Forall (fun idx => (idx < length all_hamper_items)%nat) to_remove ->
   exists pending,
     remove_items to_remove all_hamper_items replacements =
     Some (drop_positions to_remove 0 all_hamper_items, pending) /\
     forall k, pending !! k = if bool_decide (k ∈ to_remove) then None else replacements !! k)
  /\
  (Exists (fun idx => (length all_hamper_items <= idx)%nat) to_remove ->
   remove_items to_remove all_hamper_items replacements = None).
Proof.
  intros Hnd. destruct (sorted_indices to_remove) as [Hperm Hsorted].
  unfold remove_items.
  set (ds := sorted_by_reverse (fun idx => inject_Z (Z.of_nat idx)) to_remove) in *.
  split.
  - intros Hlen.
    destruct (remove_fold_descending ds all_hamper_items replacements)
      as (pending & Hfold & Hlook).
    { apply descending_strict; [by rewrite Hperm|done]. }
    { by rewrite Hperm. }
    exists pending. split.
    + rewrite Hfold. f_equal. f_equal. apply drop_positions_ext.
      intros k. by rewrite Hperm.
    + intros k. rewrite Hlook.
      by rewrite (bool_decide_ext (k ∈ ds) (k ∈ to_remove)) by (by rewrite Hperm).
  - intros Hex. rewrite <- Hperm in Hex. apply Exists_exists in Hex as (idx & Hidx & Hout).
    destruct Hsorted as [|d ds' Hs Hd]; [by apply elem_of_nil in Hidx|].
    simpl. unfold del_at.
    assert (idx <= d)%nat as Hle.
    { apply elem_of_cons in Hidx as [->|Hidx]; [lia|].
      rewrite Forall_forall in Hd. by apply Hd. }
    assert ((d <? length all_hamper_items)%nat = false) as -> by (apply Nat.ltb_ge; lia).
    apply remove_fold_error.
Qed.

Lemma remove_items_positions_witness :
  exists pending,
    remove_items [0; 2]%nat [("Snacks", "Chips", 2); ("Snacks", "Nuts", 1);
                             ("Drinks", "Juice", 3)]%string ∅ =
    Some (drop_positions [0; 2]%nat 0
            [("Snacks", "Chips", 2); ("Snacks", "Nuts", 1); ("Drinks", "Juice", 3)]%string,
          pending) /\
    forall k, pending !! k = if bool_decide (k ∈ [0; 2]%nat) then None
                             else (∅ : gmap nat Key) !! k.
Proof.
  apply (remove_items_positions [0; 2]%nat
           [("Snacks", "Chips", 2); ("Snacks", "Nuts", 1); ("Drinks", "Juice", 3)]%string ∅).
  - apply NoDup_cons. split; [|apply NoDup_singleton].
    intros H. apply list_elem_of_singleton in H. discriminate.
  - repeat constructor.
Defined.

(** * Where the refinement loop stops *)

Lemma hamper_units_app h1 h2 : hamper_units (h1 ++ h2) = hamper_units h1 + hamper_units h2.
Proof. induction h1 as [|l h1 IH]; simpl; [done|]. rewrite IH. lia. Qed.

Section RefineStops.
Variable df : list InventoryRow.

Lemma replace_line_found c n q h : (c, n) ∈ map line_key h -> is_Some (replace_line c n q h).
Proof.
  intros Hin. apply key_split in Hin as (h1 & q0 & h2 & -> & Hfresh).
  rewrite replace_line_split by done. eauto.
Qed.

Lemma set_quantity_units st c n cur q inc st' :
  consistent df st -> (c, n, cur) ∈ st_hamper st ->
  set_quantity st c n q inc = Some st' ->
  hamper_units (st_hamper st') = hamper_units (st_hamper st) + (q - cur).
Proof.
  intros Hc Hcur. unfold set_quantity.
  destruct (replace_line c n q (st_hamper st)) as [h|] eqn:E; [|done].
  intros [= <-]. apply replace_line_Some in E as (h1 & q0 & h2 & Hsplit & _ & ->).
  assert (q0 = cur) as ->.
  { pose proof (split_lookup df st c n q0 h1 h2 Hc Hsplit) as H0.
    apply (cons_used df st Hc) in Hcur. congruence. }
  simpl. rewrite Hsplit, !hamper_units_app. simpl. lia.
Qed.

Lemma try_quantities_units st c n cur price remaining qtys st' :
  consistent df st -> (c, n, cur) ∈ st_hamper st -> Forall (fun q => cur < q) qtys ->
  try_quantities st c n cur price remaining qtys = Some st' ->
  hamper_units (st_hamper st) + 1 <= hamper_units (st_hamper st').
Proof.
  intros Hc Hcur. induction 1 as [|q qtys Hq _ IH]; simpl; [done|].
  destruct (Qle_bool _ _); [|done].
  destruct (set_quantity st c n q _) as [st0|] eqn:S; [|done].
  intros [= <-]. rewrite (set_quantity_units _ _ _ _ _ _ _ Hc Hcur S). lia.
Qed.

Lemma try_quantities_None st c n cur price remaining qtys :
  (c, n) ∈ map line_key (st_hamper st) ->
  try_quantities st c n cur price remaining qtys = None ->
  Forall (fun q => (remaining < price * inject_Z (q - cur))%Q) qtys.
Proof.
  intros Hin. induction qtys as [|q qtys IH]; simpl; [constructor|].
  destruct (Qle_bool _ remaining) eqn:E.
  - unfold set_quantity. destruct (replace_line_found c n q _ Hin) as [h ->]. done.
  - intros H. constructor; [by apply Qle_bool_false|by apply IH].
Qed.

Lemma increase_quantity_units remaining st snapshot st' :
  consistent df st -> snapshot ⊆ st_hamper st ->
  increase_quantity df remaining st snapshot = Some st' ->
  hamper_units (st_hamper st) + 1 <= hamper_units (st_hamper st').
Proof.
  intros Hc. induction snapshot as [|[[c n] cur] snapshot IH]; simpl; [done|].
  intros Hsub.
  assert (snapshot ⊆ st_hamper st) as Hsub' by (intros l Hl; apply Hsub; by right).
  destruct (item_match df c n) as [|row rows] eqn:E; [by apply IH|].
  destruct (try_quantities _ _ _ _ _ _ _) as [st0|] eqn:T; [|by apply IH].
  intros [= <-]. eapply try_quantities_units; [done| | |exact T].
  - apply Hsub. by left.
  - rewrite Forall_forall. intros q Hq. apply elem_of_range in Hq. lia.
Qed.

Lemma increase_quantity_None remaining st snapshot :
  snapshot ⊆ st_hamper st ->
  increase_quantity df remaining st snapshot = None ->
  forall c n q row q',
    (c, n, q) ∈ snapshot -> head (item_match df c n) = Some row ->
    q < q' <= Z.min (Available_Units row) 20 ->
    (remaining < MRP row * inject_Z (q' - q))%Q.
Proof.
  induction snapshot as [|[[c0 n0] cur] snapshot IH]; simpl; intros Hsub Hnone c n q row q' Hin;
    [by apply elem_of_nil in Hin|].
  assert (snapshot ⊆ st_hamper st) as Hsub' by (intros l Hl; apply Hsub; by right).
  assert ((c0, n0) ∈ map line_key (st_hamper st)) as Hkey.
  { apply list_elem_of_fmap. exists (c0, n0, cur). split; [done|]. apply Hsub. by left. }
  destruct (item_match df c0 n0) as [|row0 rows] eqn:E.
  - apply elem_of_cons in Hin as [[= -> -> ->]|Hin]; [by rewrite E|by apply IH].
  - destruct (try_quantities _ _ _ _ _ _ _) as [st0|] eqn:T; [done|].
    apply elem_of_cons in Hin as [[= -> -> ->]|Hin]; [|by apply IH].
    rewrite E. intros [= <-] Hq'.
    apply try_quantities_None in T; [|done]. rewrite Forall_forall in T.
    apply T, elem_of_range. lia.
Qed.

Lemma add_new_item_units items_pool remaining st st' :
  Forall (item_ok df) items_pool ->
  add_new_item items_pool remaining st = Some st' ->
  hamper_units (st_hamper st) + 1 <= hamper_units (st_hamper st').
Proof.
  intros Hpool. unfold add_new_item. destruct (List.find _ _) as [item|] eqn:F; [|done].
  intros [= <-]. apply find_some in F as [Hin _].
  apply list_elem_of_In, elem_of_stable_sort, list_elem_of_In, filter_In in Hin as [Hin _].
  rewrite Forall_forall in Hpool. apply list_elem_of_In, Hpool in Hin.
  destruct Hin as (row & _ & _ & _ & Hq). simpl. rewrite hamper_units_app. simpl. lia.
Qed.

Lemma add_new_item_None items_pool remaining st :
  add_new_item items_pool remaining st = None ->
  forall item, item ∈ items_pool -> not_used (st_used st) item = true ->
               (remaining < total_cost item)%Q.
Proof.
  unfold add_new_item. destruct (List.find _ _) as [found|] eqn:F; [done|].
  intros _ item Hin Hfree. apply Qle_bool_false.
  destruct (Qle_bool (total_cost item) remaining) eqn:E; [|done].
  assert (In item (sorted_by_reverse total_cost
            (List.filter (fun item => not_used (st_used st) item &&
                                      Qle_bool (total_cost item) remaining) items_pool))) as Hs.
  { apply list_elem_of_In, elem_of_stable_sort, list_elem_of_In, filter_In.
    split; [by apply list_elem_of_In|]. by rewrite Hfree, E. }
  pose proof (find_none _ _ F _ Hs) as Hnone. cbv beta in Hnone. congruence.
Qed.

Lemma refine_stops fuel budget target items_pool st :
  Forall (item_ok df) items_pool -> consistent df st ->
  let st' := refine fuel budget target df items_pool st in
  (st_total st' < target)%Q ->
  hamper_units (st_hamper st') < hamper_units (st_hamper st) + Z.of_nat fuel ->
  increase_quantity df (budget - st_total st') st' (st_hamper st') = None /\
  add_new_item items_pool (budget - st_total st') st' = None.
Proof.
  intros Hpool. revert st. induction fuel as [|fuel IH]; intros st Hc; cbv zeta.
  - simpl. lia.
  - rewrite refine_step. destruct (Qlt_bool (st_total st) target) eqn:Hlt.
    + destruct (increase_quantity _ _ _ _) as [st1|] eqn:E.
      * intros Ht Hu. apply IH; [|done|].
        -- eapply increase_quantity_consistent; [done| |exact E]. by destruct Hc.
        -- apply increase_quantity_units in E; [lia|done|done].
      * destruct (add_new_item _ _ _) as [st1|] eqn:N; [|done].
        intros Ht Hu. apply IH; [|done|].
        -- by eapply add_new_item_consistent.
        -- apply add_new_item_units in N; [lia|done].
    + intros Ht. apply Qlt_bool_iff in Ht. congruence.
Qed.
End RefineStops.

(** X19: when the refinement loop ends below 99% of the budget without
    having used its 100 iterations (each iteration adds at least one unit,
    so fewer than 100 units were added to the best strategy result), the
    hamper is a local maximum: no line can take a larger quantity, up to
    min(available units, 20), within the remaining budget, and no pool
    entry of an item outside the hamper costs as little as the remaining
    budget. *)
Theorem refinement_local_maximum (df : list InventoryRow) (budget : Q) :
  let items_pool := build_pool (drop_duplicates df) in
  let st := before_final_fill df budget in
  let remaining := (budget - st_total st)%Q in
  (st_total st < budget * (99 # 100))%Q ->
  hamper_units (st_hamper st) <
  hamper_units (st_hamper (best_of_strategies budget items_pool)) + 100 ->
  (forall c n q row q',
     (c, n, q) ∈ st_hamper st -> head (item_match df c n) = Some row ->
     q < q' <= Z.min (Available_Units row) 20 ->
     (remaining < MRP row * inject_Z (q' - q))%Q) /\
  (forall item,
     item ∈ items_pool -> item_key item ∉ map line_key (st_hamper st) ->
     (remaining < total_cost item)%Q).
Proof.
  intros items_pool st remaining. subst items_pool st remaining.
  unfold before_final_fill. cbv zeta.
  set (pool := build_pool (drop_duplicates df)).
  set (target := (budget * (99 # 100))%Q).
  set (best := best_of_strategies budget pool).
  intros Ht Hu.
  assert (Forall (item_ok df) pool) as Hpool by (rewrite Forall_forall; apply pool_item_ok).
  assert (consistent df best) as Hbest by (by apply best_of_strategies_consistent).
  assert (consistent df (refine max_iterations budget target df pool best)) as Hc
    by (by apply refine_consistent).
  assert (100 = Z.of_nat max_iterations) as Hfuel by reflexivity. rewrite Hfuel in Hu.
  destruct (refine_stops df max_iterations budget target pool best Hpool Hbest Ht Hu)
    as [Hinc Hadd].
  revert Hc Hinc Hadd. generalize (refine max_iterations budget target df pool best).
  intros st Hc Hinc Hadd. split.
  - intros c n q row q' Hin Hrow Hq.
    by eapply (increase_quantity_None df _ st (st_hamper st)).
  - intros item Hin Hfree. apply (add_new_item_None _ _ _ Hadd item Hin).
    unfold not_used, item_key in *.
    destruct (st_used st !! (category item, name item)) as [q|] eqn:E; [|done].
    exfalso. apply Hfree. apply (consistent_key_in df st); eauto.
Qed.

Lemma refinement_local_maximum_witness :
  (250 - st_total (before_final_fill one_item 250) <
   MRP (mkRow "Snacks" "Chips" 100 5 30 "Any" "Any" "Any") * inject_Z (3 - 2))%Q.
Proof.
  refine (proj1 (refinement_local_maximum one_item 250 _ _)
                "Snacks"%string "Chips"%string 2
                (mkRow "Snacks" "Chips" 100 5 30 "Any" "Any" "Any") 3 _ _ _).
  - by vm_compute.
  - by vm_compute.
  - vm_compute. left.
  - by vm_compute.
  - by vm_compute.
Defined.

(** * What the final fill leaves out *)

Section FinalFillMaximal.
Variables (df : list InventoryRow) (budget : Q).
Hypothesis Hprices : forall row, row ∈ df -> (0 <= MRP row)%Q.

Lemma final_step_used_kept st item k :
  st_used (final_step budget st item) !! k = None -> st_used st !! k = None.
Proof.
  unfold final_step.
  destruct (st_used st !! item_key item) as [cur|] eqn:E.
  - destruct (cur <? qty item); [|done]. destruct (Qle_bool _ _); [|done].
    unfold set_quantity. destruct (replace_line _ _ _ _); [|done]. simpl.
    intros H. by apply lookup_insert_None in H as [H _].
  - destruct (Qle_bool _ _); [|done]. simpl.
    intros H. by apply lookup_insert_None in H as [H _].
Qed.

Lemma not_used_kept st item x :
  not_used (st_used (final_step budget st item)) x = true -> not_used (st_used st) x = true.
Proof.
  unfold not_used.
  destruct (st_used (final_step budget st item) !! item_key x) eqn:E; [done|].
  by rewrite (final_step_used_kept _ _ _ E).
Qed.

Lemma fold_not_used_kept items st x :
  not_used (st_used (fold_left (final_step budget) items st)) x = true ->
  not_used (st_used st) x = true.
Proof.
  revert st. induction items as [|it its IH]; intros s Hs; [done|].
  simpl in Hs. by eapply not_used_kept, IH.
Qed.

Lemma final_step_leaves_out st item :
  not_used (st_used (final_step budget st item)) item = true ->
  (budget < st_total (final_step budget st item) + total_cost item)%Q.
Proof.
  intros Hfree. pose proof (not_used_kept _ _ _ Hfree) as Hfree0.
  revert Hfree. unfold final_step, not_used in *.
  destruct (st_used st !! item_key item) as [cur|] eqn:E; [done|].
  destruct (Qle_bool _ budget) eqn:L.
  - simpl. by rewrite lookup_insert_eq.
  - intros _. by apply Qle_bool_false.
Qed.

Lemma final_sweep_leaves_out items st :
  Forall (item_ok df) items ->
  forall x, x ∈ items ->
    not_used (st_used (fold_left (final_step budget) items st)) x = true ->
    (budget < st_total (fold_left (final_step budget) items st) + total_cost x)%Q.
Proof using Hprices.
  intros Hitems.
  assert (forall its s, Forall (item_ok df) its ->
            (st_total s <= st_total (fold_left (final_step budget) its s))%Q /\
            forall x, not_used (st_used (fold_left (final_step budget) its s)) x = true ->
                      not_used (st_used s) x = true) as Hmono.
  { induction its as [|it its IH]; intros s Hok; simpl; [split; [lra|done]|].
    inversion Hok; subst.
    destruct (IH (final_step budget s it) ltac:(done)) as [Hle Hkeep]. split.
    - pose proof (final_step_total_grows df Hprices budget s it ltac:(done)). lra.
    - intros x Hx. by eapply not_used_kept, Hkeep. }
  revert st. induction Hitems as [|item items Hok Hitems IH]; intros st x Hx;
    [by apply elem_of_nil in Hx|].
  simpl. apply elem_of_cons in Hx as [->|Hx]; [|by apply IH].
  intros Hfree. destruct (Hmono items (final_step budget st item) Hitems) as [Hle Hkeep].
  pose proof (final_step_leaves_out st item (Hkeep _ Hfree)). lra.
Qed.

Lemma final_fill_leaves_out items_pool st item :
  Forall (item_ok df) items_pool -> consistent df st ->
  (st_total (final_fill budget items_pool st) < budget)%Q ->
  item ∈ items_pool ->
  not_used (st_used (final_fill budget items_pool st)) item = true ->
  (budget < st_total (final_fill budget items_pool st) + total_cost item)%Q.
Proof using Hprices.
  intros Hpool Hc Hbelow Hin.
  pose proof (final_fill_total_grows df Hprices items_pool Hpool budget st) as Hgrow.
  revert Hbelow Hgrow. unfold final_fill.
  assert (Qlt_bool 0 (budget - st_total st) = true \/
          Qlt_bool 0 (budget - st_total st) = false) as [E|E]
    by (destruct (Qlt_bool 0 (budget - st_total st)); auto); rewrite E.
  2: { intros Hbelow _. apply not_true_iff_false in E. rewrite Qlt_bool_iff in E. lra. }
  set (items := small_items (budget - st_total st) items_pool (st_used st)).
  assert (Forall (item_ok df) items) as Hitems.
  { unfold items, small_items. apply sorted_by_reverse_ok.
    rewrite Forall_forall in *. intros it Hit. apply Hpool.
    apply list_elem_of_In, filter_In in Hit as [Hit _]. by apply list_elem_of_In. }
  intros Hbelow Hgrow Hfree.
  destruct (Qle_bool (total_cost item) (budget - st_total st)) eqn:L.
  - apply (final_sweep_leaves_out items st Hitems); [|done].
    unfold items, small_items. apply elem_of_stable_sort, list_elem_of_In, filter_In.
    split; [by apply list_elem_of_In|]. unfold small_item. rewrite L. simpl.
    pose proof (fold_not_used_kept items st item Hfree) as Hfree0.
    unfold not_used in Hfree0. by destruct (st_used st !! item_key item).
  - apply Qle_bool_false in L. lra.
Qed.
End FinalFillMaximal.

(** X20: with non-negative prices, a hamper returned below the budget
    leaves no room for an item it does not hold: every pool entry of an item
    outside the hamper, at any quantity, would bring the total above the
    budget. *)
Theorem create_hamper_no_room_for_new_item (data : list InventoryRow) (today : Z) (budget : Q)
    (selected_categories selected_inventory selected_status selected_brands : list string)
    (min_days max_days : Z) (box_type : string) (item : PoolItem) :
  (forall row, row ∈ data -> (0 <= MRP row)%Q) ->
  let result :=
    create_hamper data today budget selected_categories selected_inventory selected_status
                  selected_brands min_days max_days box_type in
  (result.2 < budget)%Q ->
  item ∈ build_pool (drop_duplicates
                       (filtered_view data today selected_categories selected_inventory
                                      selected_status selected_brands min_days max_days)) ->
  item_key item ∉ map line_key result.1 ->
  (budget < result.2 + total_cost item)%Q.
Proof.
  intros Hprices result.
  set (df := filtered_view data today selected_categories selected_inventory selected_status
                           selected_brands min_days max_days).
  assert (forall row, row ∈ df -> (0 <= MRP row)%Q) as Hdf.
  { intros row Hrow. apply Hprices. unfold df, filtered_view in Hrow.
    apply list_elem_of_In, filter_In in Hrow as [Hrow _]. by apply list_elem_of_In. }
  destruct (create_hamper_cases data today budget selected_categories selected_inventory
              selected_status selected_brands min_days max_days box_type) as [[Hnil _]|[_ Hr]].
  { fold df in Hnil. rewrite Hnil. intros _ Hin. by apply elem_of_nil in Hin. }
  fold df result in Hr. rewrite Hr. simpl. intros Hbelow Hin Hfree.
  assert (Forall (item_ok df) (build_pool (drop_duplicates df))) as Hpool
    by (rewrite Forall_forall; apply pool_item_ok).
  pose proof (fill_from_consistent df budget) as Hc.
  revert Hbelow Hfree Hc. rewrite fill_from_final. intros Hbelow Hfree Hc.
  apply (final_fill_leaves_out df budget Hdf); try done.
  - apply before_final_fill_consistent.
  - unfold not_used, item_key.
    destruct (st_used _ !! (category item, name item)) as [q|] eqn:E; [|done].
    exfalso. apply Hfree. apply (consistent_key_in df _ _ _ Hc). eauto.
Qed.

Lemma create_hamper_no_room_for_new_item_witness :
  (150 < (create_hamper three_items 0 150 ["Snacks"%string] any_tag any_tag any_tag 0 60
                        "Gift Box").2
         + total_cost (mkItem "Snacks" "Nuts" 80 1 80 3 80))%Q.
Proof.
  apply (create_hamper_no_room_for_new_item three_items 0 150 ["Snacks"%string] any_tag any_tag
           any_tag 0 60 "Gift Box" (mkItem "Snacks" "Nuts" 80 1 80 3 80)).
  - intros row Hrow. unfold three_items in Hrow. rewrite !elem_of_cons in Hrow.
    destruct Hrow as [->|[->|[->|H]]]; [by vm_compute..|by apply elem_of_nil in H].
  - by vm_compute.
  - vm_compute. do 5 right. left.
  - vm_compute. intros H. apply list_elem_of_singleton in H. discriminate.
Defined.

(** * The invariant of the working variables *)

(** X21: in every strategy result, in the best of them, and in the state
    [fill_from] returns, the dictionary of used items records exactly the
    quantities of the hamper's lines and no two lines share a key. *)
Theorem fill_states_consistent (df : list InventoryRow) (budget : Q) :
  let items_pool := build_pool (drop_duplicates df) in
  forall st,
    st ∈ strategy_results budget items_pool \/ st = best_of_strategies budget items_pool \/
    st = fill_from df budget ->
    NoDup (map line_key (st_hamper st)) /\
    (forall c n q, st_used st !! (c, n) = Some q <-> (c, n, q) ∈ st_hamper st).
Proof.
  intros items_pool st Hst.
  assert (Forall (item_ok df) items_pool) as Hpool
    by (rewrite Forall_forall; apply pool_item_ok).
  assert (consistent df st) as [Hnd Hused _].
  { destruct Hst as [Hst|[->| ->]].
    - unfold strategy_results, strategies in Hst. simpl in Hst.
      rewrite !elem_of_cons in Hst.
      destruct Hst as [->|[->|[->|Hst]]]; [..|by apply elem_of_nil in Hst];
        apply fold_strategy_consistent;
        auto using consistent_empty, sorted_by_ok, sorted_by_reverse_ok.
    - by apply best_of_strategies_consistent.
    - apply fill_from_consistent. }
  done.
Qed.

Lemma fill_states_consistent_witness :
  NoDup (map line_key (st_hamper (fill_from one_item 250))) /\
  (st_used (fill_from one_item 250) !! ("Snacks", "Chips")%string = Some 2 <->
   ("Snacks", "Chips", 2)%string ∈ st_hamper (fill_from one_item 250)).
Proof.
  destruct (fill_states_consistent one_item 250 (fill_from one_item 250)) as (Hnd & Hused).
  - right. right. reflexivity.
  - split; [exact Hnd|apply Hused].
Defined.
